(** * manga-reader2: cache-aside reads, token lifecycle and user profiles

    A shallow embedding of the use-case layer of the manga-reader2 service
    (package [usecase]), of the collaborators whose code it depends on
    (packages [errors], [auth], [redis], [postgres], [middleware]), of the
    code around it (packages [config], [response], [handler], the
    statement builder of the manga repository) and the properties of the
    cache-aside wrapper, the token service, the user operations and the
    request handling.

    Conventions.
    - A Go function returning [(T, error)] is a function into [Result T];
      a function returning only [error] returns [option error]
      ([None] is [nil]).
    - Stateful code is written in the state monad [M W] over a world [W]
      that holds the stores the code talks to and the trace of the calls
      it made to them.
    - Go interfaces ([repository.MangaRepository], ...) are type classes;
      the external libraries (encoding/json, crypto/hmac, bcrypt) are type
      classes as well, instantiated by small executable fixtures.  Of
      crypto/hmac the preparation of the key is written out, over a
      digest that is left open. *)

From Stdlib Require Import ZArith String Ascii List Bool Lia DecimalString.
From Stdlib Require Import DecimalZ DecimalPos.
From stdpp Require Import base gmap strings list.

Local Open Scope Z_scope.
Local Open Scope string_scope.
Local Set Warnings "-register-all".

(* ===================================================================== *)
(** * Go values: results, strings, formatting                             *)
(* ===================================================================== *)

(** [(T, error)] with the convention that the value is read only when the
    error is nil. *)
Inductive Result (E A : Type) : Type :=
| Ok (a : A)
| Err (e : E).
Arguments Ok {E A} a.
Arguments Err {E A} e.

Definition isOk {E A} (r : Result E A) : bool :=
  match r with Ok _ => true | Err _ => false end.

(** [fmt.Sprintf("%d", n)]: decimal digits, a leading minus sign for
    negative numbers. *)
Definition FormatInt (n : Z) : string := NilZero.string_of_int (Z.to_int n).

(** [strings.Contains(s, substr)]. *)
Fixpoint Contains (s substr : string) : bool :=
  String.prefix substr s
  || match s with
     | EmptyString => false
     | String _ s' => Contains s' substr
     end.

(* ===================================================================== *)
(** * Package errors                                                      *)
(* ===================================================================== *)

Inductive ErrorCode : Type :=
| ErrorCodeInternal | ErrorCodeBadRequest | ErrorCodeUnauthorized
| ErrorCodeForbidden | ErrorCodeNotFound | ErrorCodeConflict
| ErrorCodeValidation | ErrorCodeDatabase
| ErrorCodeMangaNotFound | ErrorCodeChapterNotFound | ErrorCodePageNotFound
| ErrorCodeUserNotFound | ErrorCodeUserExists | ErrorCodeInvalidCreds
| ErrorCodeJWTInvalid | ErrorCodeJWTExpired.

Definition ErrorCode_string (c : ErrorCode) : string :=
  match c with
  | ErrorCodeInternal => "INTERNAL_ERROR"
  | ErrorCodeBadRequest => "BAD_REQUEST"
  | ErrorCodeUnauthorized => "UNAUTHORIZED"
  | ErrorCodeForbidden => "FORBIDDEN"
  | ErrorCodeNotFound => "NOT_FOUND"
  | ErrorCodeConflict => "CONFLICT"
  | ErrorCodeValidation => "VALIDATION_ERROR"
  | ErrorCodeDatabase => "DATABASE_ERROR"
  | ErrorCodeMangaNotFound => "MANGA_NOT_FOUND"
  | ErrorCodeChapterNotFound => "CHAPTER_NOT_FOUND"
  | ErrorCodePageNotFound => "PAGE_NOT_FOUND"
  | ErrorCodeUserNotFound => "USER_NOT_FOUND"
  | ErrorCodeUserExists => "USER_ALREADY_EXISTS"
  | ErrorCodeInvalidCreds => "INVALID_CREDENTIALS"
  | ErrorCodeJWTInvalid => "JWT_INVALID"
  | ErrorCodeJWTExpired => "JWT_EXPIRED"
  end.

Definition ErrorCode_eqb (a b : ErrorCode) : bool :=
  String.eqb (ErrorCode_string a) (ErrorCode_string b).

(** The struct [AppError], over the type of the wrapped error.  [Details]
    is nil at every construction site of the service and is left out. *)
Record AppErrorOf (E : Type) : Type := mkAppError {
  Code : ErrorCode;
  Message : string;
  StatusCode : Z;
  Err_ : option E
}.
Arguments mkAppError {E}.
Arguments Code {E}.
Arguments Message {E}.
Arguments StatusCode {E}.
Arguments Err_ {E}.

(** Go values of interface type [error] that occur in the service. *)
Inductive error : Type :=
| errorString (s : string)                  (* errors.New, fmt.Errorf without %w *)
| wrapError (msg : string) (err : error)    (* fmt.Errorf("msg: %w", err) *)
| redisNil                                  (* redis.Nil *)
| ValidationError (text : string) (Errors : Z)   (* *jwt.ValidationError *)
| appError (e : AppErrorOf error).          (* *errors.AppError *)

Abbreviation AppError := (AppErrorOf error).
Abbreviation GoResult := (Result error).

(** [err.Error()]. *)
Fixpoint Error (e : error) : string :=
  match e with
  | errorString s => s
  | wrapError msg err => msg +:+ ": " +:+ Error err
  | redisNil => "redis: nil"
  | ValidationError text _ => text
  | appError a =>
      match Err_ a with
      | Some err => Message a +:+ ": " +:+ Error err
      | None => Message a
      end
  end.

(** [errors.As(err, &appErr)] for [appErr *AppError]: the first [AppError]
    on the unwrap chain. *)
Fixpoint As_AppError (e : error) : option AppError :=
  match e with
  | appError a => Some a
  | wrapError _ err => As_AppError err
  | _ => None
  end.

Definition StatusInternalServerError : Z := 500.
Definition StatusBadRequest : Z := 400.
Definition StatusUnauthorized : Z := 401.
Definition StatusForbidden : Z := 403.
Definition StatusNotFound : Z := 404.
Definition StatusConflict : Z := 409.

Definition NewInternalError (msg : string) (err : option error) : error :=
  appError (mkAppError ErrorCodeInternal msg StatusInternalServerError err).

Definition NewUnauthorizedError (msg : string) (err : option error) : error :=
  appError (mkAppError ErrorCodeUnauthorized msg StatusUnauthorized err).

Definition NewConflictError (msg : string) (err : option error) : error :=
  appError (mkAppError ErrorCodeConflict msg StatusConflict err).

Definition NewValidationError (msg : string) : error :=
  appError (mkAppError ErrorCodeValidation msg StatusBadRequest None).

Definition NewDatabaseError (msg : string) (err : option error) : error :=
  appError (mkAppError ErrorCodeDatabase msg StatusInternalServerError err).

Definition NewMangaNotFoundError (id : string) : error :=
  appError (mkAppError ErrorCodeMangaNotFound
              ("Манга с ID " +:+ id +:+ " не найдена") StatusNotFound None).

Definition NewUserNotFoundError (identifier : string) : error :=
  appError (mkAppError ErrorCodeUserNotFound
              ("Пользователь " +:+ identifier +:+ " не найден") StatusNotFound None).

Definition NewUserExistsError (username : string) : error :=
  appError (mkAppError ErrorCodeUserExists
              ("Пользователь с именем " +:+ username +:+ " уже существует")
              StatusConflict None).

Definition NewInvalidCredentialsError : error :=
  appError (mkAppError ErrorCodeInvalidCreds
              "Неверное имя пользователя или пароль" StatusUnauthorized None).

Definition NewJWTInvalidError (err : error) : error :=
  appError (mkAppError ErrorCodeJWTInvalid
              "Недействительный токен авторизации" StatusUnauthorized (Some err)).

Definition NewJWTExpiredError : error :=
  appError (mkAppError ErrorCodeJWTExpired
              "Срок действия токена авторизации истек" StatusUnauthorized None).

Definition IsErrorCode (err : error) (code : ErrorCode) : bool :=
  match As_AppError err with
  | Some appErr => ErrorCode_eqb (Code appErr) code
  | None => false
  end.

(* ===================================================================== *)
(** * Package entity                                                      *)
(* ===================================================================== *)

(** [time.Time] as Unix nanoseconds, [time.Duration] as nanoseconds. *)
Abbreviation Time := Z (only parsing).
Abbreviation Duration := Z (only parsing).

Definition Second : Duration := 1000000000.
Definition Minute : Duration := 60 * Second.
Definition Hour : Duration := 60 * Minute.

Record Manga : Type := mkManga {
  Manga_ID : Z;
  Manga_Title : string;
  Manga_Description : string;
  Manga_CoverImage : string;
  Manga_Status : string;
  Manga_Author : string;
  Manga_Artist : string;
  Manga_Genres : list string;
  Manga_CreatedAt : Time;
  Manga_UpdatedAt : Time
}.

Record MangaFilter : Type := mkMangaFilter {
  Filter_Title : string;
  Filter_Genres : list string;
  Filter_Status : string;
  Filter_Limit : Z;
  Filter_Offset : Z
}.

(** [Number] is a float64 in the source; no modelled operation computes
    with it, so it is carried as its decimal rendering. *)
Record Chapter : Type := mkChapter {
  Chapter_ID : Z;
  Chapter_MangaID : Z;
  Chapter_Number : string;
  Chapter_Title : string;
  Chapter_CreatedAt : Time;
  Chapter_UpdatedAt : Time
}.

Record ChapterWithStats : Type := mkChapterWithStats {
  CWS_Chapter : Chapter;
  CWS_Views : Z
}.

Record User : Type := mkUser {
  User_ID : Z;
  Username : string;
  Email : string;
  Password : string;
  Role : string;
  User_CreatedAt : Time;
  User_UpdatedAt : Time
}.

Record UserCredentials : Type := mkUserCredentials {
  Cred_Username : string;
  Cred_Password : string
}.

Record UserRegistration : Type := mkUserRegistration {
  Reg_Username : string;
  Reg_Email : string;
  Reg_Password : string
}.

Record TokenPairOf (T : Type) : Type := mkTokenPair {
  AccessToken : T;
  RefreshToken : T
}.
Arguments mkTokenPair {T}.
Arguments AccessToken {T}.
Arguments RefreshToken {T}.

(* ===================================================================== *)
(** * The state monad of the service                                       *)
(* ===================================================================== *)

Definition M (W A : Type) : Type := W -> A * W.

Definition ret {W A} (a : A) : M W A := fun w => (a, w).

Definition bind {W A B} (m : M W A) (k : A -> M W B) : M W B :=
  fun w => let (a, w') := m w in k a w'.

Declare Scope go_scope.
Delimit Scope go_scope with go.
Notation "x <- c1 ;; c2" := (bind c1 (fun x => c2))
  (at level 100, c1 at next level, right associativity) : go_scope.
Notation "c1 ;; c2" := (bind c1 (fun _ => c2))
  (at level 100, right associativity) : go_scope.
Local Open Scope go_scope.

(** [if err != nil { k err }] for a call whose only result is an error. *)
Definition whenErr {W} (r : option error) (k : error -> M W unit) : M W unit :=
  match r with
  | Some e => k e
  | None => ret tt
  end.

(* ===================================================================== *)
(** * encoding/json                                                       *)
(* ===================================================================== *)

(** [json.Marshal] and [json.Unmarshal] at one Go type. *)
Class JSON (A : Type) : Type := {
  Marshal : A -> GoResult string;
  Unmarshal : string -> GoResult A
}.

(* ===================================================================== *)
(** * Redis: package db (RedisClient) and package redis (CacheRepository) *)
(* ===================================================================== *)

(** The string keyspace of the Redis server, each entry with the
    expiration it was stored with, and the outcomes the next commands will
    meet on the wire: [Some e] makes the command fail with [e] before it
    reaches the server, [None] (or an exhausted list) lets it run. *)
Record Redis : Type := mkRedis {
  kv : gmap string (string * Duration);
  wire : list (option error)
}.

Definition redis_wire (r : Redis) : option error * Redis :=
  match wire r with
  | [] => (None, r)
  | o :: rest => (o, mkRedis (kv r) rest)
  end.

(** [client.Get(ctx, key).Result()]: a missing key is the error
    [redis.Nil]. *)
Definition RedisClient_Get (key : string) (r : Redis) : GoResult string * Redis :=
  let (fault, r') := redis_wire r in
  match fault with
  | Some e => (Err e, r')
  | None =>
      match kv r' !! key with
      | Some (value, _) => (Ok value, r')
      | None => (Err redisNil, r')
      end
  end.

(** [client.Set(ctx, key, value, expiration).Err()]. *)
Definition RedisClient_Set (key value : string) (expiration : Duration) (r : Redis)
  : option error * Redis :=
  let (fault, r') := redis_wire r in
  match fault with
  | Some e => (Some e, r')
  | None => (None, mkRedis (<[key := (value, expiration)]> (kv r')) (wire r'))
  end.

(** [client.Del(ctx, keys...).Err()] with the single key the cache
    repository passes: DEL removes the key of exactly that name. *)
Definition RedisClient_Delete (key : string) (r : Redis) : option error * Redis :=
  let (fault, r') := redis_wire r in
  match fault with
  | Some e => (Some e, r')
  | None => (None, mkRedis (delete key (kv r')) (wire r'))
  end.

(* ===================================================================== *)
(** * Package repository: the interfaces of the authoritative stores      *)
(* ===================================================================== *)

(** The use cases reach the relational store and the analytics store only
    through these interfaces.  [DB] is the state behind them; every method
    may read and change it.  The implementations return freshly allocated
    structs, so what a caller writes into a result stays with the caller;
    what they write into their argument ([ID] and the timestamps on
    [Create], [UpdatedAt] on [Update]) no caller reads afterwards, and it
    is left out.  The Redis implementation of the analytics repository is
    not among the sources: the use cases are taken against its interface,
    with its state in [DB] apart from the cache entries. *)
Class MangaRepository (DB : Type) : Type := {
  MangaRepository_Create : Manga -> DB -> GoResult Z * DB;
  MangaRepository_GetByID : Z -> DB -> GoResult Manga * DB;
  MangaRepository_List : MangaFilter -> DB -> GoResult (list Manga) * DB;
  MangaRepository_Update : Manga -> DB -> option error * DB;
  MangaRepository_Delete : Z -> DB -> option error * DB
}.

Class ChapterRepository (DB : Type) : Type := {
  ChapterRepository_Create : Chapter -> DB -> GoResult Z * DB;
  ChapterRepository_GetByID : Z -> DB -> GoResult Chapter * DB;
  ChapterRepository_ListByManga : Z -> DB -> GoResult (list Chapter) * DB;
  ChapterRepository_Update : Chapter -> DB -> option error * DB;
  ChapterRepository_Delete : Z -> DB -> option error * DB
}.

Class AnalyticsRepository (DB : Type) : Type := {
  AnalyticsRepository_RecordMangaView : Z -> DB -> option error * DB;
  AnalyticsRepository_RecordChapterView : Z -> Z -> DB -> option error * DB;
  AnalyticsRepository_GetChapterViews : Z -> DB -> GoResult Z * DB
}.

(* ===================================================================== *)
(** * The world of the catalog use cases                                   *)
(* ===================================================================== *)

(** Calls that cross the boundary of the use-case layer, in the order they
    were made, and the messages handed to the logger. *)
Inductive Event : Type :=
| CacheGet (key : string)
| CacheSet (key value : string) (expiration : Duration)
| CacheDelete (key : string)
| MangaRepo_Create (manga : Manga)
| MangaRepo_GetByID (id : Z)
| MangaRepo_List (filter : MangaFilter)
| MangaRepo_Update (manga : Manga)
| MangaRepo_Delete (id : Z)
| ChapterRepo_Create (chapter : Chapter)
| ChapterRepo_GetByID (id : Z)
| ChapterRepo_ListByManga (mangaID : Z)
| ChapterRepo_Update (chapter : Chapter)
| ChapterRepo_Delete (id : Z)
| Analytics_RecordMangaView (mangaID : Z)
| Analytics_RecordChapterView (chapterID mangaID : Z)
| Analytics_GetChapterViews (chapterID : Z)
| LogError (msg : string).

Record World (DB : Type) : Type := mkWorld {
  redis : Redis;
  db : DB;
  trace : list Event
}.
Arguments mkWorld {DB}.
Arguments redis {DB}.
Arguments db {DB}.
Arguments trace {DB}.

Definition onRedis {DB A} (f : Redis -> A * Redis) : M (World DB) A :=
  fun w => let (a, r) := f (redis w) in (a, mkWorld r (db w) (trace w)).

Definition onDB {DB A} (f : DB -> A * DB) : M (World DB) A :=
  fun w => let (a, d) := f (db w) in (a, mkWorld (redis w) d (trace w)).

Definition emit {DB} (e : Event) : M (World DB) unit :=
  fun w => (tt, mkWorld (redis w) (db w) (trace w ++ [e])).

(** [log.Error(msg, ...)]: the message is recorded, the key-value
    attributes are not. *)
Definition log_Error {DB} (msg : string) : M (World DB) unit := emit (LogError msg).

Definition isCacheSet (e : Event) : bool :=
  match e with CacheSet _ _ _ => true | _ => false end.
Definition isMangaRepo_GetByID (e : Event) : bool :=
  match e with MangaRepo_GetByID _ => true | _ => false end.
Definition isMangaRepo_List (e : Event) : bool :=
  match e with MangaRepo_List _ => true | _ => false end.
Definition isChapterRepo_GetByID (e : Event) : bool :=
  match e with ChapterRepo_GetByID _ => true | _ => false end.

(** How many of the calls in a trace satisfy [p]. *)
Definition calls (p : Event -> bool) (tr : list Event) : nat :=
  length (List.filter p tr).

Module CacheRepository.
Section Methods.
Context {DB : Type}.

Definition Get (key : string) : M (World DB) (GoResult string) :=
  emit (CacheGet key) ;;
  r <- onRedis (RedisClient_Get key) ;;
  match r with
  | Err err =>
      (if negb (String.eqb (Error err) "redis: nil")
       then log_Error "Ошибка получения значения из Redis"
       else ret tt) ;;
      ret (Err err)
  | Ok value => ret (Ok value)
  end.

Definition Set_ (key value : string) (expiration : Duration)
  : M (World DB) (option error) :=
  emit (CacheSet key value expiration) ;;
  err <- onRedis (RedisClient_Set key value expiration) ;;
  match err with
  | Some e => log_Error "Ошибка установки значения в Redis" ;; ret (Some e)
  | None => ret None
  end.

Definition Delete (key : string) : M (World DB) (option error) :=
  emit (CacheDelete key) ;;
  err <- onRedis (RedisClient_Delete key) ;;
  match err with
  | Some e => log_Error "Ошибка удаления ключа из Redis" ;; ret (Some e)
  | None => ret None
  end.
End Methods.
End CacheRepository.

(* ===================================================================== *)
(** * Package usecase: mangaUseCase                                       *)
(* ===================================================================== *)

Module mangaUseCase.
Section Methods.
Context {DB : Type}.
Context {mangaRepo : MangaRepository DB} {analyticsRepo : AnalyticsRepository DB}.
Context {jsonManga : JSON Manga} {jsonMangas : JSON (list Manga)}.

Definition mangaRepo_Create (manga : Manga) : M (World DB) (GoResult Z) :=
  emit (MangaRepo_Create manga) ;; onDB (MangaRepository_Create manga).
Definition mangaRepo_GetByID (id : Z) : M (World DB) (GoResult Manga) :=
  emit (MangaRepo_GetByID id) ;; onDB (MangaRepository_GetByID id).
Definition mangaRepo_List (filter : MangaFilter) : M (World DB) (GoResult (list Manga)) :=
  emit (MangaRepo_List filter) ;; onDB (MangaRepository_List filter).
Definition mangaRepo_Update (manga : Manga) : M (World DB) (option error) :=
  emit (MangaRepo_Update manga) ;; onDB (MangaRepository_Update manga).
Definition mangaRepo_Delete (id : Z) : M (World DB) (option error) :=
  emit (MangaRepo_Delete id) ;; onDB (MangaRepository_Delete id).
Definition analyticsRepo_RecordMangaView (id : Z) : M (World DB) (option error) :=
  emit (Analytics_RecordMangaView id) ;; onDB (AnalyticsRepository_RecordMangaView id).

(** [fmt.Sprintf("manga:%d", id)] *)
Definition mangaKey (id : Z) : string := "manga:" +:+ FormatInt id.

(** [fmt.Sprintf("manga:list:%d:%d", filter.Limit, filter.Offset)] *)
Definition mangaListKey (limit offset : Z) : string :=
  "manga:list:" +:+ FormatInt limit +:+ ":" +:+ FormatInt offset.

(** [filter.Title == "" && filter.Status == "" && len(filter.Genres) == 0] *)
Definition unfiltered (filter : MangaFilter) : bool :=
  String.eqb (Filter_Title filter) ""
  && String.eqb (Filter_Status filter) ""
  && (Z.of_nat (length (Filter_Genres filter)) =? 0)%Z.

Definition invalidateMangaListCache : M (World DB) (option error) :=
  CacheRepository.Delete "manga:list:*".

Definition Create (manga : Manga) : M (World DB) (GoResult Manga) :=
  if String.eqb (Manga_Title manga) "" then
    ret (Err (NewValidationError "Название манги не может быть пустым"))
  else
    r <- mangaRepo_Create manga ;;
    match r with
    | Err err => ret (Err err)
    | Ok id =>
        r <- mangaRepo_GetByID id ;;
        match r with
        | Err err => ret (Err err)
        | Ok createdManga =>
            err <- invalidateMangaListCache ;;
            whenErr err (fun _ => log_Error "Ошибка инвалидации кеша списка манги") ;;
            ret (Ok createdManga)
        end
    end.

Definition GetByID (id : Z) : M (World DB) (GoResult Manga) :=
  let cacheKey := mangaKey id in
  cached <- CacheRepository.Get cacheKey ;;
  hit <- match cached with
         | Ok cachedData =>
             if negb (String.eqb cachedData "") then
               match Unmarshal cachedData with
               | Ok manga =>
                   err <- analyticsRepo_RecordMangaView id ;;
                   whenErr err (fun _ => log_Error "Ошибка записи просмотра манги") ;;
                   ret (Some manga)
               | Err _ =>
                   log_Error "Ошибка декодирования манги из кеша" ;;
                   ret None
               end
             else ret None
         | Err _ => ret None
         end ;;
  match hit with
  | Some manga => ret (Ok manga)
  | None =>
      r <- mangaRepo_GetByID id ;;
      match r with
      | Err err => ret (Err err)
      | Ok manga =>
          err <- analyticsRepo_RecordMangaView id ;;
          whenErr err (fun _ => log_Error "Ошибка записи просмотра манги") ;;
          match Marshal manga with
          | Ok jsonData =>
              err <- CacheRepository.Set_ cacheKey jsonData (30 * Minute) ;;
              whenErr err (fun _ => log_Error "Ошибка кеширования манги")
          | Err _ => ret tt
          end ;;
          ret (Ok manga)
      end
  end.

Definition List (filter : MangaFilter) : M (World DB) (GoResult (list Manga)) :=
  hit <- (if unfiltered filter then
            let cacheKey := mangaListKey (Filter_Limit filter) (Filter_Offset filter) in
            cached <- CacheRepository.Get cacheKey ;;
            match cached with
            | Ok cachedData =>
                if negb (String.eqb cachedData "") then
                  match Unmarshal cachedData with
                  | Ok mangas => ret (Some mangas)
                  | Err _ =>
                      log_Error "Ошибка декодирования списка манги из кеша" ;;
                      ret None
                  end
                else ret None
            | Err _ => ret None
            end
          else ret None) ;;
  match hit with
  | Some mangas => ret (Ok mangas)
  | None =>
      r <- mangaRepo_List filter ;;
      match r with
      | Err err => ret (Err err)
      | Ok mangas =>
          (if unfiltered filter then
             let cacheKey := mangaListKey (Filter_Limit filter) (Filter_Offset filter) in
             match Marshal mangas with
             | Ok jsonData =>
                 err <- CacheRepository.Set_ cacheKey jsonData (10 * Minute) ;;
                 whenErr err (fun _ => log_Error "Ошибка кеширования списка манги")
             | Err _ => ret tt
             end
           else ret tt) ;;
          ret (Ok mangas)
      end
  end.

Definition Update (manga : Manga) : M (World DB) (GoResult Manga) :=
  r <- mangaRepo_GetByID (Manga_ID manga) ;;
  match r with
  | Err err => ret (Err err)
  | Ok _ =>
      if String.eqb (Manga_Title manga) "" then
        ret (Err (NewValidationError "Название манги не может быть пустым"))
      else
        err <- mangaRepo_Update manga ;;
        match err with
        | Some err => ret (Err err)
        | None =>
            r <- mangaRepo_GetByID (Manga_ID manga) ;;
            match r with
            | Err err => ret (Err err)
            | Ok updatedManga =>
                let cacheKey := mangaKey (Manga_ID manga) in
                err <- CacheRepository.Delete cacheKey ;;
                whenErr err (fun _ => log_Error "Ошибка инвалидации кеша манги") ;;
                err <- invalidateMangaListCache ;;
                whenErr err (fun _ => log_Error "Ошибка инвалидации кеша списка манги") ;;
                ret (Ok updatedManga)
            end
        end
  end.

Definition Delete (id : Z) : M (World DB) (option error) :=
  r <- mangaRepo_GetByID id ;;
  match r with
  | Err err => ret (Some err)
  | Ok _ =>
      err <- mangaRepo_Delete id ;;
      match err with
      | Some err => ret (Some err)
      | None =>
          let cacheKey := mangaKey id in
          err <- CacheRepository.Delete cacheKey ;;
          whenErr err (fun _ => log_Error "Ошибка инвалидации кеша манги") ;;
          err <- invalidateMangaListCache ;;
          whenErr err (fun _ => log_Error "Ошибка инвалидации кеша списка манги") ;;
          ret None
      end
  end.
End Methods.
End mangaUseCase.

(* ===================================================================== *)
(** * Package usecase: chapterUseCase                                     *)
(* ===================================================================== *)

Module chapterUseCase.
Section Methods.
Context {DB : Type}.
Context {chapterRepo : ChapterRepository DB} {mangaRepo : MangaRepository DB}
        {analyticsRepo : AnalyticsRepository DB}.
Context {jsonChapter : JSON Chapter} {jsonChapters : JSON (list Chapter)}.

Definition chapterRepo_Create (chapter : Chapter) : M (World DB) (GoResult Z) :=
  emit (ChapterRepo_Create chapter) ;; onDB (ChapterRepository_Create chapter).
Definition chapterRepo_GetByID (id : Z) : M (World DB) (GoResult Chapter) :=
  emit (ChapterRepo_GetByID id) ;; onDB (ChapterRepository_GetByID id).
Definition chapterRepo_ListByManga (mangaID : Z) : M (World DB) (GoResult (list Chapter)) :=
  emit (ChapterRepo_ListByManga mangaID) ;; onDB (ChapterRepository_ListByManga mangaID).
Definition chapterRepo_Update (chapter : Chapter) : M (World DB) (option error) :=
  emit (ChapterRepo_Update chapter) ;; onDB (ChapterRepository_Update chapter).
Definition chapterRepo_Delete (id : Z) : M (World DB) (option error) :=
  emit (ChapterRepo_Delete id) ;; onDB (ChapterRepository_Delete id).
Definition mangaRepo_GetByID (id : Z) : M (World DB) (GoResult Manga) :=
  emit (MangaRepo_GetByID id) ;; onDB (MangaRepository_GetByID id).
Definition analyticsRepo_GetChapterViews (id : Z) : M (World DB) (GoResult Z) :=
  emit (Analytics_GetChapterViews id) ;; onDB (AnalyticsRepository_GetChapterViews id).
Definition analyticsRepo_RecordChapterView (id mangaID : Z) : M (World DB) (option error) :=
  emit (Analytics_RecordChapterView id mangaID) ;;
  onDB (AnalyticsRepository_RecordChapterView id mangaID).

(** [fmt.Sprintf("chapter:%d", id)] *)
Definition chapterKey (id : Z) : string := "chapter:" +:+ FormatInt id.

(** [fmt.Sprintf("manga:%d:chapters", mangaID)] *)
Definition chapterListKey (mangaID : Z) : string :=
  "manga:" +:+ FormatInt mangaID +:+ ":chapters".

Definition invalidateChapterListCache (mangaID : Z) : M (World DB) (option error) :=
  let cacheKey := chapterListKey mangaID in
  CacheRepository.Delete cacheKey.

(** The view count read for a chapter, 0 when the analytics store fails. *)
Definition chapterViews (id : Z) : M (World DB) Z :=
  r <- analyticsRepo_GetChapterViews id ;;
  match r with
  | Ok views => ret views
  | Err _ => log_Error "Ошибка получения просмотров главы" ;; ret 0
  end.

Definition Create (chapter : Chapter) : M (World DB) (GoResult Chapter) :=
  if String.eqb (Chapter_Title chapter) "" then
    ret (Err (NewValidationError "Название главы не может быть пустым"))
  else if (Chapter_MangaID chapter <=? 0)%Z then
    ret (Err (NewValidationError "Не указан ID манги"))
  else
    r <- mangaRepo_GetByID (Chapter_MangaID chapter) ;;
    match r with
    | Err err => ret (Err err)
    | Ok _ =>
        r <- chapterRepo_Create chapter ;;
        match r with
        | Err err => ret (Err err)
        | Ok id =>
            r <- chapterRepo_GetByID id ;;
            match r with
            | Err err => ret (Err err)
            | Ok createdChapter =>
                err <- invalidateChapterListCache (Chapter_MangaID chapter) ;;
                whenErr err (fun _ => log_Error "Ошибка инвалидации кеша списка глав") ;;
                ret (Ok createdChapter)
            end
        end
    end.

Definition GetByID (id : Z) : M (World DB) (GoResult ChapterWithStats) :=
  let cacheKey := chapterKey id in
  cached <- CacheRepository.Get cacheKey ;;
  hit <- match cached with
         | Ok cachedData =>
             if negb (String.eqb cachedData "") then
               match Unmarshal cachedData with
               | Ok chapter =>
                   views <- chapterViews id ;;
                   err <- analyticsRepo_RecordChapterView id (Chapter_MangaID chapter) ;;
                   whenErr err (fun _ => log_Error "Ошибка записи просмотра главы") ;;
                   ret (Some (mkChapterWithStats chapter views))
               | Err _ =>
                   log_Error "Ошибка декодирования главы из кеша" ;;
                   ret None
               end
             else ret None
         | Err _ => ret None
         end ;;
  match hit with
  | Some cws => ret (Ok cws)
  | None =>
      r <- chapterRepo_GetByID id ;;
      match r with
      | Err err => ret (Err err)
      | Ok chapter =>
          views <- chapterViews id ;;
          err <- analyticsRepo_RecordChapterView id (Chapter_MangaID chapter) ;;
          whenErr err (fun _ => log_Error "Ошибка записи просмотра главы") ;;
          match Marshal chapter with
          | Ok jsonData =>
              err <- CacheRepository.Set_ cacheKey jsonData (30 * Minute) ;;
              whenErr err (fun _ => log_Error "Ошибка кеширования главы")
          | Err _ => ret tt
          end ;;
          ret (Ok (mkChapterWithStats chapter views))
      end
  end.

Definition ListByManga (mangaID : Z) : M (World DB) (GoResult (list Chapter)) :=
  r <- mangaRepo_GetByID mangaID ;;
  match r with
  | Err err => ret (Err err)
  | Ok _ =>
      let cacheKey := chapterListKey mangaID in
      cached <- CacheRepository.Get cacheKey ;;
      hit <- match cached with
             | Ok cachedData =>
                 if negb (String.eqb cachedData "") then
                   match Unmarshal cachedData with
                   | Ok chapters => ret (Some chapters)
                   | Err _ =>
                       log_Error "Ошибка декодирования списка глав из кеша" ;;
                       ret None
                   end
                 else ret None
             | Err _ => ret None
             end ;;
      match hit with
      | Some chapters => ret (Ok chapters)
      | None =>
          r <- chapterRepo_ListByManga mangaID ;;
          match r with
          | Err err => ret (Err err)
          | Ok chapters =>
              match Marshal chapters with
              | Ok jsonData =>
                  err <- CacheRepository.Set_ cacheKey jsonData (15 * Minute) ;;
                  whenErr err (fun _ => log_Error "Ошибка кеширования списка глав")
              | Err _ => ret tt
              end ;;
              ret (Ok chapters)
          end
      end
  end.

Definition Update (chapter : Chapter) : M (World DB) (GoResult Chapter) :=
  r <- chapterRepo_GetByID (Chapter_ID chapter) ;;
  match r with
  | Err err => ret (Err err)
  | Ok existingChapter =>
      if String.eqb (Chapter_Title chapter) "" then
        ret (Err (NewValidationError "Название главы не может быть пустым"))
      else
        err <- chapterRepo_Update chapter ;;
        match err with
        | Some err => ret (Err err)
        | None =>
            r <- chapterRepo_GetByID (Chapter_ID chapter) ;;
            match r with
            | Err err => ret (Err err)
            | Ok updatedChapter =>
                let cacheKey := chapterKey (Chapter_ID chapter) in
                err <- CacheRepository.Delete cacheKey ;;
                whenErr err (fun _ => log_Error "Ошибка инвалидации кеша главы") ;;
                err <- invalidateChapterListCache (Chapter_MangaID existingChapter) ;;
                whenErr err (fun _ => log_Error "Ошибка инвалидации кеша списка глав") ;;
                ret (Ok updatedChapter)
            end
        end
  end.

Definition Delete (id : Z) : M (World DB) (option error) :=
  r <- chapterRepo_GetByID id ;;
  match r with
  | Err err => ret (Some err)
  | Ok chapter =>
      err <- chapterRepo_Delete id ;;
      match err with
      | Some err => ret (Some err)
      | None =>
          let cacheKey := chapterKey id in
          err <- CacheRepository.Delete cacheKey ;;
          whenErr err (fun _ => log_Error "Ошибка инвалидации кеша главы") ;;
          err <- invalidateChapterListCache (Chapter_MangaID chapter) ;;
          whenErr err (fun _ => log_Error "Ошибка инвалидации кеша списка глав") ;;
          ret None
      end
  end.
End Methods.
End chapterUseCase.

(* ===================================================================== *)
(** * The wall clock                                                      *)
(* ===================================================================== *)

(** [time.Now()]: the wall time, and the time that will have elapsed
    before each of the next readings (none once the list is exhausted).
    Readings never go backwards. *)
Record Clock : Type := mkClock {
  wall : Time;
  ticks : list N
}.

Definition time_Now (c : Clock) : Time * Clock :=
  match ticks c with
  | [] => (wall c, c)
  | d :: rest => let t := wall c + Z.of_N d in (t, mkClock t rest)
  end.

(** [t.Truncate(time.Second)] *)
Definition TruncateSecond (t : Time) : Time := t - t mod Second.

(** int64 wrap-around of a [time.Duration] product. *)
Definition wrap64 (z : Z) : Z := (z + 2 ^ 63) mod 2 ^ 64 - 2 ^ 63.

(* ===================================================================== *)
(** * github.com/golang-jwt/jwt/v4, as far as the service drives it        *)
(* ===================================================================== *)

Module jwt.

(** The registered signing methods.  The three HMAC methods are the
    values of type [*SigningMethodHMAC]; [SigningMethodOther] stands for
    every other registered method (RS256, ES256, none, ...). *)
Inductive SigningMethod : Type :=
| SigningMethodHS256
| SigningMethodHS384
| SigningMethodHS512
| SigningMethodOther (alg : string).

Definition Alg (m : SigningMethod) : string :=
  match m with
  | SigningMethodHS256 => "HS256"
  | SigningMethodHS384 => "HS384"
  | SigningMethodHS512 => "HS512"
  | SigningMethodOther alg => alg
  end.

Definition isHMAC (m : SigningMethod) : bool :=
  match m with
  | SigningMethodOther _ => false
  | _ => true
  end.

(** The service's [Claims]: three private claims and the embedded
    [jwt.RegisteredClaims] (of which the service sets [exp], [iat], [nbf]
    and [sub]; a nil [*NumericDate] is [None]). *)
Record Claims : Type := mkClaims {
  UserID : Z;
  Claims_Username : string;
  Claims_Role : string;
  ExpiresAt : option Time;
  IssuedAt : option Time;
  NotBefore : option Time;
  Subject : string
}.

(** A compact token string by what the parser makes of it: a string that
    does not split into three decodable segments, a token whose header
    names an unregistered method, or header, claims and signature. *)
Inductive tokenString : Type :=
| Garbage (raw : string)
| Unavailable (alg : string) (claims : Claims) (signature : string)
| Compact (method : SigningMethod) (claims : Claims) (signature : string).

(** crypto/hmac behind [SigningMethodHMAC]: the MAC of the signing input
    (encoded header and claims) under a key. *)
Class HMAC : Type := {
  hmac : SigningMethod -> string -> SigningMethod * Claims -> string
}.

(** Releases of v4 differ in whether [ParseWithClaims] verifies the
    signature before or after it validates the claims. *)
Inductive ParserOrder : Type := ClaimsFirst | SignatureFirst.

Definition ValidationErrorMalformed : Z := Z.shiftl 1 0.
Definition ValidationErrorUnverifiable : Z := Z.shiftl 1 1.
Definition ValidationErrorSignatureInvalid : Z := Z.shiftl 1 2.
Definition ValidationErrorExpired : Z := Z.shiftl 1 4.
Definition ValidationErrorIssuedAt : Z := Z.shiftl 1 5.
Definition ValidationErrorNotValidYet : Z := Z.shiftl 1 7.

(** [errors.Is(err, jwt.ErrTokenExpired)] *)
Definition Is_ErrTokenExpired (err : error) : bool :=
  match err with
  | ValidationError _ Errors => negb (Z.land Errors ValidationErrorExpired =? 0)%Z
  | _ => false
  end.

(** [jwt.NewNumericDate(t)] with the default [TimePrecision]. *)
Definition NewNumericDate (t : Time) : option Time := Some (TruncateSecond t).

Definition VerifyExpiresAt (c : Claims) (cmp : Time) (req : bool) : bool :=
  match ExpiresAt c with
  | None => negb req
  | Some exp => (cmp <? exp)%Z
  end.

Definition VerifyIssuedAt (c : Claims) (cmp : Time) (req : bool) : bool :=
  match IssuedAt c with
  | None => negb req
  | Some iat => (iat <=? cmp)%Z
  end.

Definition VerifyNotBefore (c : Claims) (cmp : Time) (req : bool) : bool :=
  match NotBefore c with
  | None => negb req
  | Some nbf => (nbf <=? cmp)%Z
  end.

(** [RegisteredClaims.Valid()], which reads the clock once: the text of
    the last failed check and the flags of all of them.  (The library
    appends the time elapsed since expiry to the first text.) *)
Definition Valid (c : Claims) : M Clock (string * Z) :=
  now <- time_Now ;;
  let vErr := ("", 0) in
  let vErr := if VerifyExpiresAt c now false then vErr
              else ("token is expired", Z.lor (snd vErr) ValidationErrorExpired) in
  let vErr := if VerifyIssuedAt c now false then vErr
              else ("token used before issued", Z.lor (snd vErr) ValidationErrorIssuedAt) in
  let vErr := if VerifyNotBefore c now false then vErr
              else ("token is not valid yet", Z.lor (snd vErr) ValidationErrorNotValidYet) in
  ret vErr.

(** The parsed [*jwt.Token]. *)
Record Token : Type := mkToken {
  Method : SigningMethod;
  Token_Claims : Claims;
  Token_Valid : bool
}.

Section Parser.
Context {mac : HMAC} (order : ParserOrder).

(** [token.SignedString(key)] for a [[]byte] key. *)
Definition SignedString (method : SigningMethod) (claims : Claims) (key : string)
  : GoResult tokenString :=
  if isHMAC method
  then Ok (Compact method claims (hmac method key (method, claims)))
  else Err (errorString "key is of invalid type").

(** [token.Method.Verify(signingString, signature, key)] for an HMAC
    method. *)
Definition Verify (method : SigningMethod) (claims : Claims)
           (signature key : string) : bool :=
  String.eqb signature (hmac method key (method, claims)).

(** [jwt.ParseWithClaims(tokenString, claims, keyFunc)] *)
Definition ParseWithClaims (tok : tokenString)
           (keyFunc : SigningMethod -> GoResult string)
  : M Clock (GoResult Token) :=
  match tok with
  | Garbage _ =>
      ret (Err (ValidationError "token contains an invalid number of segments"
                                ValidationErrorMalformed))
  | Unavailable _ _ _ =>
      ret (Err (ValidationError "signing method (alg) is unavailable."
                                ValidationErrorUnverifiable))
  | Compact method claims signature =>
      match keyFunc method with
      | Err err => ret (Err (ValidationError (Error err) ValidationErrorUnverifiable))
      | Ok key =>
          match order with
          | SignatureFirst =>
              if Verify method claims signature key then
                vErr <- Valid claims ;;
                if (snd vErr =? 0)%Z then ret (Ok (mkToken method claims true))
                else ret (Err (ValidationError (fst vErr) (snd vErr)))
              else ret (Err (ValidationError "signature is invalid"
                                             ValidationErrorSignatureInvalid))
          | ClaimsFirst =>
              vErr <- Valid claims ;;
              let vErr := if Verify method claims signature key then vErr
                          else ("signature is invalid",
                                Z.lor (snd vErr) ValidationErrorSignatureInvalid) in
              if (snd vErr =? 0)%Z then ret (Ok (mkToken method claims true))
              else ret (Err (ValidationError (fst vErr) (snd vErr)))
          end
      end
  end.
End Parser.
End jwt.

(* ===================================================================== *)
(** * crypto/hmac, as [jwt.SigningMethodHMAC] drives it                    *)
(* ===================================================================== *)

Module crypto_hmac.

(** [a ^ b] on bytes. *)
Definition xor (a b : ascii) : ascii :=
  match a, b with
  | Ascii a0 a1 a2 a3 a4 a5 a6 a7, Ascii b0 b1 b2 b3 b4 b5 b6 b7 =>
      Ascii (xorb a0 b0) (xorb a1 b1) (xorb a2 b2) (xorb a3 b3)
            (xorb a4 b4) (xorb a5 b5) (xorb a6 b6) (xorb a7 b7)
  end.

(** [pad := make([]byte, blocksize); copy(pad, key)]: the first
    [blocksize] bytes of the key, and zero bytes where the key ends
    before. *)
Fixpoint copy (blocksize : nat) (key : string) : string :=
  match blocksize with
  | O => ""
  | S n =>
      match key with
      | EmptyString => String zero (copy n "")
      | String b key' => String b (copy n key')
      end
  end.

(** [for i := range pad { pad[i] ^= b }] *)
Fixpoint xorEach (b : ascii) (pad : string) : string :=
  match pad with
  | EmptyString => ""
  | String a pad' => String (xor a b) (xorEach b pad')
  end.

(** The block size of the hash of an HMAC method: 64 bytes for SHA-256
    (HS256), 128 bytes for SHA-384 and SHA-512 (HS384, HS512). *)
Definition BlockSize (method : jwt.SigningMethod) : nat :=
  match method with
  | jwt.SigningMethodHS256 => 64
  | _ => 128
  end.

Section Hash.
(** The digest of a message under the hash of a method
    ([h := m.Hash.New(); h.Write(msg); h.Sum(nil)]).  The SHA-2 functions
    themselves are not modelled. *)
Variable Sum : jwt.SigningMethod -> string -> string.

(** [hmac.New(h, key)]: the inner and the outer pad.  A key longer than
    a block is replaced by its digest; a shorter one is filled up with
    zero bytes. *)
Definition New (method : jwt.SigningMethod) (key : string) : string * string :=
  let blocksize := BlockSize method in
  let key := if (blocksize <? String.length key)%nat then Sum method key else key in
  (xorEach "054"%char (copy blocksize key), xorEach "092"%char (copy blocksize key)).

(** [mac.Write(msg); mac.Sum(nil)]: the digest of the outer pad followed
    by the digest of the inner pad followed by the message. *)
Definition MAC (method : jwt.SigningMethod) (key msg : string) : string :=
  let (ipad, opad) := New method key in
  Sum method (opad +:+ Sum method (ipad +:+ msg)).

(** The signing string of a token: its encoded header, a dot, and its
    encoded claims. *)
Variable signingString : jwt.SigningMethod * jwt.Claims -> string.

(** [SigningMethodHMAC.Sign] and [SigningMethodHMAC.Verify]: both compute
    the MAC of the signing string under the key bytes; [Sign] returns it
    and [Verify] compares the signature segment with it. *)
Definition SigningMethodHMAC : jwt.HMAC :=
  {| jwt.hmac method key input := MAC method key (signingString input) |}.
End Hash.
End crypto_hmac.

(* ===================================================================== *)
(** * Package auth: JWTService                                            *)
(* ===================================================================== *)

Abbreviation TokenPair := (TokenPairOf jwt.tokenString).

Record JWTService : Type := mkJWTService {
  accessSecret : string;
  refreshSecret : string;
  accessExpires : Duration;
  refreshExpires : Duration
}.

Definition NewJWTService (accessSecret refreshSecret : string)
           (accessExpHours refreshExpDays : Z) : JWTService :=
  {| accessSecret := accessSecret;
     refreshSecret := refreshSecret;
     accessExpires := wrap64 (accessExpHours * Hour);
     refreshExpires := wrap64 (wrap64 (refreshExpDays * 24) * Hour) |}.

Module JWTSvc.
Section Methods.
Context {mac : jwt.HMAC} (order : jwt.ParserOrder).
Variable s : JWTService.

Definition GenerateAccessToken (user : User) : M Clock (GoResult jwt.tokenString) :=
  t <- time_Now ;;
  let expirationTime := t + accessExpires s in
  issued <- time_Now ;;
  notBefore <- time_Now ;;
  let claims :=
    {| jwt.UserID := User_ID user;
       jwt.Claims_Username := Username user;
       jwt.Claims_Role := Role user;
       jwt.ExpiresAt := jwt.NewNumericDate expirationTime;
       jwt.IssuedAt := jwt.NewNumericDate issued;
       jwt.NotBefore := jwt.NewNumericDate notBefore;
       jwt.Subject := FormatInt (User_ID user) |} in
  match jwt.SignedString jwt.SigningMethodHS256 claims (accessSecret s) with
  | Err err => ret (Err err)
  | Ok tokenString => ret (Ok tokenString)
  end.

Definition GenerateRefreshToken (userID : Z) : M Clock (GoResult jwt.tokenString) :=
  t <- time_Now ;;
  let expirationTime := t + refreshExpires s in
  issued <- time_Now ;;
  notBefore <- time_Now ;;
  let claims :=
    {| jwt.UserID := userID;
       jwt.Claims_Username := "";
       jwt.Claims_Role := "";
       jwt.ExpiresAt := jwt.NewNumericDate expirationTime;
       jwt.IssuedAt := jwt.NewNumericDate issued;
       jwt.NotBefore := jwt.NewNumericDate notBefore;
       jwt.Subject := FormatInt userID |} in
  match jwt.SignedString jwt.SigningMethodHS256 claims (refreshSecret s) with
  | Err err => ret (Err err)
  | Ok tokenString => ret (Ok tokenString)
  end.

Definition GenerateTokenPair (user : User) : M Clock (GoResult TokenPair) :=
  r <- GenerateAccessToken user ;;
  match r with
  | Err err => ret (Err (wrapError "ошибка создания access token" err))
  | Ok accessToken =>
      r <- GenerateRefreshToken (User_ID user) ;;
      match r with
      | Err err => ret (Err (wrapError "ошибка создания refresh token" err))
      | Ok refreshToken => ret (Ok (mkTokenPair accessToken refreshToken))
      end
  end.

Definition validateToken (tokenString : jwt.tokenString) (secret : string)
  : M Clock (GoResult jwt.Claims) :=
  let keyFunc (method : jwt.SigningMethod) : GoResult string :=
    if negb (jwt.isHMAC method)
    then Err (errorString ("неожиданный метод подписи: " +:+ jwt.Alg method))
    else Ok secret in
  r <- jwt.ParseWithClaims order tokenString keyFunc ;;
  match r with
  | Err err =>
      if jwt.Is_ErrTokenExpired err
      then ret (Err (errorString "токен истек"))
      else ret (Err err)
  | Ok token =>
      if negb (jwt.Token_Valid token)
      then ret (Err (errorString "недействительный токен"))
      else ret (Ok (jwt.Token_Claims token))
  end.

Definition ValidateAccessToken (tokenString : jwt.tokenString)
  : M Clock (GoResult jwt.Claims) :=
  validateToken tokenString (accessSecret s).

Definition ValidateRefreshToken (tokenString : jwt.tokenString)
  : M Clock (GoResult jwt.Claims) :=
  validateToken tokenString (refreshSecret s).

Definition RefreshTokens (refreshToken : jwt.tokenString) (user : User)
  : M Clock (GoResult TokenPair) :=
  r <- ValidateRefreshToken refreshToken ;;
  match r with
  | Err err => ret (Err err)
  | Ok claims =>
      if negb (jwt.UserID claims =? User_ID user)%Z
      then ret (Err (errorString "user_id не соответствует refresh token"))
      else GenerateTokenPair user
  end.
End Methods.
End JWTSvc.

(* ===================================================================== *)
(** * Package postgres: UserRepository over the users table               *)
(* ===================================================================== *)

Class UserRepository (DB : Type) : Type := {
  UserRepository_Create : User -> DB -> GoResult Z * DB;
  UserRepository_GetByID : Z -> DB -> GoResult User * DB;
  UserRepository_GetByUsername : string -> DB -> GoResult User * DB;
  UserRepository_GetByEmail : string -> DB -> GoResult User * DB;
  UserRepository_Update : User -> DB -> option error * DB;
  UserRepository_Delete : Z -> DB -> option error * DB
}.

(** A row of [users] without its primary key. *)
Record UserRow : Type := mkUserRow {
  username : string;
  email : string;
  password_hash : string;
  role : string;
  created_at : Time;
  updated_at : Time
}.

(** The [users] table keyed by [id], its SERIAL sequence, the server's
    [NOW()], the outcomes of the next statements on the wire ([Some e]: the
    statement fails with [e] and changes nothing; this covers lost
    connections and the column constraints that are not modelled) and the
    messages the repository logged.  A statement that took effect and
    whose answer is lost afterwards (a connection that breaks before the
    reply, a result set whose [Next] or [Scan] fails) is not among the
    outcomes. *)
Record Postgres : Type := mkPostgres {
  users : gmap Z UserRow;
  users_id_seq : Z;
  pg_now : Time;
  pg_wire : list (option error);
  pg_log : list string
}.

Definition dquote : string := String "034"%char EmptyString.

(** lib/pq's rendering of a unique violation. *)
Definition pq_unique_violation (constraint : string) : error :=
  errorString ("pq: duplicate key value violates unique constraint "
               +:+ dquote +:+ constraint +:+ dquote).

(** [sql.ErrNoRows] *)
Definition ErrNoRows : error := errorString "sql: no rows in result set".

Definition sameError (a b : error) : bool := String.eqb (Error a) (Error b).

Module pg.

Definition exec (p : Postgres) : option error * Postgres :=
  match pg_wire p with
  | [] => (None, p)
  | o :: rest => (o, mkPostgres (users p) (users_id_seq p) (pg_now p) rest (pg_log p))
  end.

Definition logged (msg : string) (p : Postgres) : Postgres :=
  mkPostgres (users p) (users_id_seq p) (pg_now p) (pg_wire p) (pg_log p ++ [msg]).

Definition toUser (id : Z) (r : UserRow) : User :=
  mkUser id (username r) (email r) (password_hash r) (role r)
         (created_at r) (updated_at r).

(** Rows other than [id] that satisfy [p]. *)
Definition others (id : option Z) (p : UserRow -> bool) (t : gmap Z UserRow)
  : list (Z * UserRow) :=
  List.filter (fun kr => p (snd kr)
                      && match id with
                         | Some i => negb (fst kr =? i)%Z
                         | None => true
                         end)
              (map_to_list t).

(** The unique constraint a row with these values would violate. *)
Definition violated (id : option Z) (uname mail : string) (t : gmap Z UserRow)
  : option error :=
  match others id (fun r => String.eqb (username r) uname) t with
  | _ :: _ => Some (pq_unique_violation "users_username_key")
  | [] =>
      match others id (fun r => String.eqb (email r) mail) t with
      | _ :: _ => Some (pq_unique_violation "users_email_key")
      | [] => None
      end
  end.

(** [INSERT INTO users (...) VALUES ($1, $2, $3, $4, NOW(), NOW())
     RETURNING id, created_at, updated_at] *)
Definition INSERT (uname mail pw rl : string) (p : Postgres)
  : GoResult (Z * Time * Time) * Postgres :=
  let (fault, p) := exec p in
  match fault with
  | Some e => (Err e, p)
  | None =>
      let id := users_id_seq p + 1 in
      match violated None uname mail (users p) with
      | Some e => (Err e, mkPostgres (users p) id (pg_now p) (pg_wire p) (pg_log p))
      | None =>
          let row := mkUserRow uname mail pw rl (pg_now p) (pg_now p) in
          (Ok (id, pg_now p, pg_now p),
           mkPostgres (<[id := row]> (users p)) id (pg_now p) (pg_wire p) (pg_log p))
      end
  end.

(** [SELECT ... FROM users WHERE <column> = $1] through [GetContext]. *)
Definition SELECT_by_id (id : Z) (p : Postgres) : GoResult User * Postgres :=
  let (fault, p) := exec p in
  match fault with
  | Some e => (Err e, p)
  | None =>
      match users p !! id with
      | Some r => (Ok (toUser id r), p)
      | None => (Err ErrNoRows, p)
      end
  end.

Definition SELECT_by (col : UserRow -> string) (v : string) (p : Postgres)
  : GoResult User * Postgres :=
  let (fault, p) := exec p in
  match fault with
  | Some e => (Err e, p)
  | None =>
      match others None (fun r => String.eqb (col r) v) (users p) with
      | (id, r) :: _ => (Ok (toUser id r), p)
      | [] => (Err ErrNoRows, p)
      end
  end.

(** [UPDATE users SET username = $1, email = $2, password_hash = $3,
     role = $4, updated_at = NOW() WHERE id = $5 RETURNING updated_at]:
    the returned row, if any. *)
Definition UPDATE (uname mail pw rl : string) (id : Z) (p : Postgres)
  : GoResult (option Time) * Postgres :=
  let (fault, p) := exec p in
  match fault with
  | Some e => (Err e, p)
  | None =>
      match users p !! id with
      | None => (Ok None, p)
      | Some r =>
          match violated (Some id) uname mail (users p) with
          | Some e => (Err e, p)
          | None =>
              let row := mkUserRow uname mail pw rl (created_at r) (pg_now p) in
              (Ok (Some (pg_now p)),
               mkPostgres (<[id := row]> (users p)) (users_id_seq p) (pg_now p)
                          (pg_wire p) (pg_log p))
          end
      end
  end.

(** [DELETE FROM users WHERE id = $1]: the number of rows affected. *)
Definition DELETE (id : Z) (p : Postgres) : GoResult Z * Postgres :=
  let (fault, p) := exec p in
  match fault with
  | Some e => (Err e, p)
  | None =>
      match users p !! id with
      | None => (Ok 0, p)
      | Some _ =>
          (Ok 1, mkPostgres (delete id (users p)) (users_id_seq p) (pg_now p)
                            (pg_wire p) (pg_log p))
      end
  end.

Definition username_key_violation : string :=
  "ERROR: duplicate key value violates unique constraint " +:+ dquote
  +:+ "users_username_key" +:+ dquote +:+ " (SQLSTATE 23505)".

Definition email_key_violation : string :=
  "ERROR: duplicate key value violates unique constraint " +:+ dquote
  +:+ "users_email_key" +:+ dquote +:+ " (SQLSTATE 23505)".

Definition Create (user : User) (p : Postgres) : GoResult Z * Postgres :=
  let (r, p) := INSERT (Username user) (Email user) (Password user) (Role user) p in
  match r with
  | Err err =>
      if String.eqb (Error err) username_key_violation then
        (Err (NewUserExistsError (Username user)), p)
      else if String.eqb (Error err) email_key_violation then
        (Err (NewConflictError "Пользователь с таким email уже существует" None), p)
      else
        (Err (NewDatabaseError "Ошибка создания пользователя" (Some err)),
         logged "Ошибка создания пользователя" p)
  | Ok (id, _, _) => (Ok id, p)
  end.

Definition GetByID (id : Z) (p : Postgres) : GoResult User * Postgres :=
  let (r, p) := SELECT_by_id id p in
  match r with
  | Err err =>
      if sameError err ErrNoRows then
        (Err (NewUserNotFoundError (FormatInt id)), p)
      else
        (Err (NewDatabaseError "Ошибка получения пользователя" (Some err)),
         logged "Ошибка получения пользователя" p)
  | Ok user => (Ok user, p)
  end.

Definition GetByUsername (uname : string) (p : Postgres) : GoResult User * Postgres :=
  let (r, p) := SELECT_by username uname p in
  match r with
  | Err err =>
      if sameError err ErrNoRows then
        (Err (NewUserNotFoundError uname), p)
      else
        (Err (NewDatabaseError "Ошибка получения пользователя" (Some err)),
         logged "Ошибка получения пользователя по имени" p)
  | Ok user => (Ok user, p)
  end.

Definition GetByEmail (mail : string) (p : Postgres) : GoResult User * Postgres :=
  let (r, p) := SELECT_by email mail p in
  match r with
  | Err err =>
      if sameError err ErrNoRows then
        (Err (NewUserNotFoundError mail), p)
      else
        (Err (NewDatabaseError "Ошибка получения пользователя" (Some err)),
         logged "Ошибка получения пользователя по email" p)
  | Ok user => (Ok user, p)
  end.

(** Of the errors of [UserRepository.Update], the one for a result set
    that fails in [Scan] after the statement ran has no counterpart
    here: see [Postgres]. *)
Definition Update (user : User) (p : Postgres) : option error * Postgres :=
  let (r, p) := UPDATE (Username user) (Email user) (Password user) (Role user)
                       (User_ID user) p in
  match r with
  | Err err =>
      if String.eqb (Error err) username_key_violation then
        (Some (NewUserExistsError (Username user)), p)
      else if String.eqb (Error err) email_key_violation then
        (Some (NewConflictError "Пользователь с таким email уже существует" None), p)
      else
        (Some (NewDatabaseError "Ошибка обновления пользователя" (Some err)),
         logged "Ошибка обновления пользователя" p)
  | Ok None => (Some (NewUserNotFoundError (FormatInt (User_ID user))), p)
  | Ok (Some _) => (None, p)
  end.

Definition Delete (id : Z) (p : Postgres) : option error * Postgres :=
  let (r, p) := DELETE id p in
  match r with
  | Err err =>
      (Some (NewDatabaseError "Ошибка удаления пользователя" (Some err)),
       logged "Ошибка удаления пользователя" p)
  | Ok rowsAffected =>
      if (rowsAffected =? 0)%Z
      then (Some (NewUserNotFoundError (FormatInt id)), p)
      else (None, p)
  end.
End pg.

#[export] Instance PostgresUserRepository : UserRepository Postgres := {
  UserRepository_Create := pg.Create;
  UserRepository_GetByID := pg.GetByID;
  UserRepository_GetByUsername := pg.GetByUsername;
  UserRepository_GetByEmail := pg.GetByEmail;
  UserRepository_Update := pg.Update;
  UserRepository_Delete := pg.Delete
}.

(* ===================================================================== *)
(** * golang.org/x/crypto/bcrypt and package regexp                       *)
(* ===================================================================== *)

(** [bcrypt.GenerateFromPassword(password, cost)] (the salt is the
    instance's) and [bcrypt.CompareHashAndPassword(hash, password)]. *)
Class Bcrypt : Type := {
  GenerateFromPassword : string -> Z -> GoResult string;
  CompareHashAndPassword : string -> string -> option error
}.

Definition DefaultCost : Z := 10.

Definition inRange (lo hi : nat) (c : ascii) : bool :=
  (lo <=? nat_of_ascii c)%nat && (nat_of_ascii c <=? hi)%nat.

(** [[a-zA-Z]] and [[a-zA-Z0-9]] *)
Definition isLetter (c : ascii) : bool := inRange 65 90 c || inRange 97 122 c.
Definition isAlnum (c : ascii) : bool := isLetter c || inRange 48 57 c.

Definition oneOf (cs : string) (c : ascii) : bool :=
  existsb (Ascii.eqb c) (list_ascii_of_string cs).

Fixpoint allChars (p : ascii -> bool) (s : string) : bool :=
  match s with
  | EmptyString => true
  | String c s' => p c && allChars p s'
  end.

(** The text before and after the first occurrence of [c]. *)
Fixpoint cutFirst (c : ascii) (s : string) : option (string * string) :=
  match s with
  | EmptyString => None
  | String a s' =>
      if Ascii.eqb a c then Some (EmptyString, s')
      else match cutFirst c s' with
           | Some (l, r) => Some (String a l, r)
           | None => None
           end
  end.

(** The text before and after the last occurrence of [c]. *)
Fixpoint cutLast (c : ascii) (s : string) : option (string * string) :=
  match s with
  | EmptyString => None
  | String a s' =>
      match cutLast c s' with
      | Some (l, r) => Some (String a l, r)
      | None => if Ascii.eqb a c then Some (EmptyString, s') else None
      end
  end.

(** [regexp.MustCompile(`^[a-zA-Z0-9_]+$`).MatchString(s)] *)
Definition usernamePattern (s : string) : bool :=
  negb (String.eqb s "") && allChars (fun c => isAlnum c || oneOf "_" c) s.

(** [regexp.MustCompile(`^[a-zA-Z0-9._%+\-]+@[a-zA-Z0-9.\-]+\.[a-zA-Z]{2,}$`).MatchString(s)]:
    neither class holds the at sign and the last class holds no dot, so a
    match cuts the text at its first at sign and the rest at its last dot. *)
Definition emailPattern (s : string) : bool :=
  match cutFirst "@" s with
  | None => false
  | Some (loc, rest) =>
      negb (String.eqb loc "")
      && allChars (fun c => isAlnum c || oneOf "._%+-" c) loc
      && match cutLast "." rest with
         | None => false
         | Some (dom, tld) =>
             negb (String.eqb dom "")
             && allChars (fun c => isAlnum c || oneOf ".-" c) dom
             && (2 <=? String.length tld)%nat
             && allChars isLetter tld
         end
  end.

(* ===================================================================== *)
(** * Package usecase: userUseCase                                        *)
(* ===================================================================== *)

Inductive AuthEvent : Type :=
| UserRepo_Create (user : User)
| UserRepo_GetByID (id : Z)
| UserRepo_GetByUsername (username : string)
| UserRepo_GetByEmail (email : string)
| UserRepo_Update (user : User)
| JWT_ValidateRefreshToken (refreshToken : jwt.tokenString)
| JWT_GenerateTokenPair (user : User)
| AuthLogError (msg : string).

Record AuthWorld (DB : Type) : Type := mkAuthWorld {
  userDB : DB;
  clock : Clock;
  authTrace : list AuthEvent
}.
Arguments mkAuthWorld {DB}.
Arguments userDB {DB}.
Arguments clock {DB}.
Arguments authTrace {DB}.

Definition onUserDB {DB A} (f : DB -> A * DB) : M (AuthWorld DB) A :=
  fun w => let (a, d) := f (userDB w) in (a, mkAuthWorld d (clock w) (authTrace w)).

Definition onClock {DB A} (f : Clock -> A * Clock) : M (AuthWorld DB) A :=
  fun w => let (a, c) := f (clock w) in (a, mkAuthWorld (userDB w) c (authTrace w)).

Definition authEmit {DB} (e : AuthEvent) : M (AuthWorld DB) unit :=
  fun w => (tt, mkAuthWorld (userDB w) (clock w) (authTrace w ++ [e])).

Definition isJWT_GenerateTokenPair (e : AuthEvent) : bool :=
  match e with JWT_GenerateTokenPair _ => true | _ => false end.

Module userUseCase.
Section Methods.
Context {DB : Type} {userRepo : UserRepository DB}.
Context {mac : jwt.HMAC} {crypt : Bcrypt} (order : jwt.ParserOrder).
Variable jwtService : JWTService.

Definition log_Error (msg : string) : M (AuthWorld DB) unit :=
  authEmit (AuthLogError msg).

Definition userRepo_Create (user : User) : M (AuthWorld DB) (GoResult Z) :=
  authEmit (UserRepo_Create user) ;; onUserDB (UserRepository_Create user).
Definition userRepo_GetByID (id : Z) : M (AuthWorld DB) (GoResult User) :=
  authEmit (UserRepo_GetByID id) ;; onUserDB (UserRepository_GetByID id).
Definition userRepo_GetByUsername (uname : string) : M (AuthWorld DB) (GoResult User) :=
  authEmit (UserRepo_GetByUsername uname) ;; onUserDB (UserRepository_GetByUsername uname).
Definition userRepo_GetByEmail (mail : string) : M (AuthWorld DB) (GoResult User) :=
  authEmit (UserRepo_GetByEmail mail) ;; onUserDB (UserRepository_GetByEmail mail).
Definition userRepo_Update (user : User) : M (AuthWorld DB) (option error) :=
  authEmit (UserRepo_Update user) ;; onUserDB (UserRepository_Update user).
Definition jwtService_ValidateRefreshToken (refreshToken : jwt.tokenString)
  : M (AuthWorld DB) (GoResult jwt.Claims) :=
  authEmit (JWT_ValidateRefreshToken refreshToken) ;;
  onClock (JWTSvc.ValidateRefreshToken order jwtService refreshToken).
Definition jwtService_GenerateTokenPair (user : User)
  : M (AuthWorld DB) (GoResult TokenPair) :=
  authEmit (JWT_GenerateTokenPair user) ;;
  onClock (JWTSvc.GenerateTokenPair jwtService user).

(** [user.Password = ""] on the struct the repository returned. *)
Definition clearPassword (user : User) : User :=
  mkUser (User_ID user) (Username user) (Email user) "" (Role user)
         (User_CreatedAt user) (User_UpdatedAt user).

Definition Register (reg : UserRegistration) : M (AuthWorld DB) (GoResult User) :=
  if String.eqb (Reg_Username reg) "" then
    ret (Err (NewValidationError "Имя пользователя не может быть пустым"))
  else if String.eqb (Reg_Email reg) "" then
    ret (Err (NewValidationError "Email не может быть пустым"))
  else if String.eqb (Reg_Password reg) "" then
    ret (Err (NewValidationError "Пароль не может быть пустым"))
  else if negb (usernamePattern (Reg_Username reg)) then
    ret (Err (NewValidationError
      "Имя пользователя может содержать только буквы, цифры и символ подчеркивания"))
  else if negb (emailPattern (Reg_Email reg)) then
    ret (Err (NewValidationError "Некорректный email"))
  else if (String.length (Reg_Password reg) <? 6)%nat then
    ret (Err (NewValidationError "Пароль должен содержать минимум 6 символов"))
  else
    r <- userRepo_GetByUsername (Reg_Username reg) ;;
    match r with
    | Ok _ => ret (Err (NewUserExistsError (Reg_Username reg)))
    | Err err =>
        match As_AppError err with
        | None => ret (Err err)
        | Some _ =>
            r <- userRepo_GetByEmail (Reg_Email reg) ;;
            match r with
            | Ok _ =>
                ret (Err (NewConflictError "Пользователь с таким email уже существует" None))
            | Err err =>
                match As_AppError err with
                | None => ret (Err err)
                | Some _ =>
                    match GenerateFromPassword (Reg_Password reg) DefaultCost with
                    | Err err =>
                        log_Error "Ошибка хеширования пароля" ;;
                        ret (Err (NewInternalError "Ошибка хеширования пароля" (Some err)))
                    | Ok hashedPassword =>
                        let user := mkUser 0 (Reg_Username reg) (Reg_Email reg)
                                           hashedPassword "user" 0 0 in
                        r <- userRepo_Create user ;;
                        match r with
                        | Err err => ret (Err err)
                        | Ok id =>
                            r <- userRepo_GetByID id ;;
                            match r with
                            | Err err => ret (Err err)
                            | Ok createdUser => ret (Ok (clearPassword createdUser))
                            end
                        end
                    end
                end
            end
        end
    end.

Definition Login (cred : UserCredentials) : M (AuthWorld DB) (GoResult TokenPair) :=
  if String.eqb (Cred_Username cred) "" then
    ret (Err (NewValidationError "Имя пользователя не может быть пустым"))
  else if String.eqb (Cred_Password cred) "" then
    ret (Err (NewValidationError "Пароль не может быть пустым"))
  else
    r <- userRepo_GetByUsername (Cred_Username cred) ;;
    r <- match r with
         | Ok user => ret (Ok user)
         | Err err =>
             if IsErrorCode err ErrorCodeUserNotFound then
               r <- userRepo_GetByEmail (Cred_Username cred) ;;
               match r with
               | Ok user => ret (Ok user)
               | Err _ => ret (Err NewInvalidCredentialsError)
               end
             else ret (Err err)
         end ;;
    match r with
    | Err err => ret (Err err)
    | Ok user =>
        match CompareHashAndPassword (Password user) (Cred_Password cred) with
        | Some _ => ret (Err NewInvalidCredentialsError)
        | None =>
            r <- jwtService_GenerateTokenPair user ;;
            match r with
            | Err err =>
                log_Error "Ошибка генерации токена" ;;
                ret (Err (NewInternalError "Ошибка генерации токена" (Some err)))
            | Ok tokenPair => ret (Ok tokenPair)
            end
        end
    end.

Definition RefreshToken (refreshToken : jwt.tokenString)
  : M (AuthWorld DB) (GoResult TokenPair) :=
  r <- jwtService_ValidateRefreshToken refreshToken ;;
  match r with
  | Err err =>
      if Contains (Error err) "токен истек"
      then ret (Err NewJWTExpiredError)
      else ret (Err (NewJWTInvalidError err))
  | Ok claims =>
      r <- userRepo_GetByID (jwt.UserID claims) ;;
      match r with
      | Err err => ret (Err err)
      | Ok user =>
          r <- jwtService_GenerateTokenPair user ;;
          match r with
          | Err err =>
              log_Error "Ошибка генерации токена" ;;
              ret (Err (NewInternalError "Ошибка генерации токена" (Some err)))
          | Ok tokenPair => ret (Ok tokenPair)
          end
      end
  end.

Definition GetProfile (userID : Z) : M (AuthWorld DB) (GoResult User) :=
  r <- userRepo_GetByID userID ;;
  match r with
  | Err err => ret (Err err)
  | Ok user => ret (Ok (clearPassword user))
  end.

Definition UpdateProfile (user : User) : M (AuthWorld DB) (GoResult User) :=
  r <- userRepo_GetByID (User_ID user) ;;
  match r with
  | Err err => ret (Err err)
  | Ok currentUser =>
      let currentUser :=
        mkUser (User_ID currentUser) (Username user) (Email user)
               (Password currentUser) (Role currentUser)
               (User_CreatedAt currentUser) (User_UpdatedAt currentUser) in
      if negb (usernamePattern (Username currentUser)) then
        ret (Err (NewValidationError
          "Имя пользователя может содержать только буквы, цифры и символ подчеркивания"))
      else if negb (emailPattern (Email currentUser)) then
        ret (Err (NewValidationError "Некорректный email"))
      else
        err <- userRepo_Update currentUser ;;
        match err with
        | Some err => ret (Err err)
        | None =>
            r <- userRepo_GetByID (User_ID user) ;;
            match r with
            | Err err => ret (Err err)
            | Ok updatedUser => ret (Ok (clearPassword updatedUser))
            end
        end
  end.
End Methods.
End userUseCase.

(* ===================================================================== *)
(** * Packages response and middleware                                    *)
(* ===================================================================== *)

(** What the middleware does with a request: it hands it on with the
    claims in the context, or it answers with an error body. *)
Inductive Outcome : Type :=
| Next (UserIDKey : Z) (UserRoleKey UsernameKey : string)
| ErrorResponse (statusCode : Z) (code message : string).

(** [response.Error(w, log, err)] *)
Definition response_Error (err : error) : Outcome :=
  match As_AppError err with
  | Some appErr =>
      ErrorResponse (StatusCode appErr) (ErrorCode_string (Code appErr)) (Message appErr)
  | None =>
      ErrorResponse StatusInternalServerError (ErrorCode_string ErrorCodeInternal)
                    "Внутренняя ошибка сервера"
  end.

(** The value of the Authorization header: absent or empty, a text
    without a space, or the two parts [strings.SplitN(h, " ", 2)] yields,
    the second read as a token string. *)
Inductive Authorization : Type :=
| HeaderEmpty
| HeaderOnePart (raw : string)
| HeaderTwoParts (scheme : string) (credentials : jwt.tokenString).

Module middleware.
Section Methods.
Context {mac : jwt.HMAC} (order : jwt.ParserOrder).

Definition Authentication (jwtService : JWTService) (authHeader : Authorization)
  : M Clock Outcome :=
  match authHeader with
  | HeaderEmpty =>
      ret (response_Error
             (NewUnauthorizedError "Отсутствует заголовок Authorization" None))
  | HeaderOnePart _ =>
      ret (response_Error
             (NewUnauthorizedError "Неверный формат заголовка Authorization" None))
  | HeaderTwoParts scheme credentials =>
      if negb (String.eqb scheme "Bearer") then
        ret (response_Error
               (NewUnauthorizedError "Неверный формат заголовка Authorization" None))
      else
        r <- JWTSvc.ValidateAccessToken order jwtService credentials ;;
        match r with
        | Err err => ret (response_Error (NewJWTInvalidError err))
        | Ok claims =>
            ret (Next (jwt.UserID claims) (jwt.Claims_Role claims)
                      (jwt.Claims_Username claims))
        end
  end.
End Methods.
End middleware.

(* ===================================================================== *)
(** * Package errors: the other constructors and the class predicates     *)
(* ===================================================================== *)

Definition NewBadRequestError (msg : string) (err : option error) : error :=
  appError (mkAppError ErrorCodeBadRequest msg StatusBadRequest err).

Definition NewForbiddenError (msg : string) (err : option error) : error :=
  appError (mkAppError ErrorCodeForbidden msg StatusForbidden err).

Definition NewNotFoundError (msg : string) (err : option error) : error :=
  appError (mkAppError ErrorCodeNotFound msg StatusNotFound err).

Definition IsNotFoundError (err : error) : bool :=
  IsErrorCode err ErrorCodeNotFound
  || IsErrorCode err ErrorCodeMangaNotFound
  || IsErrorCode err ErrorCodeChapterNotFound
  || IsErrorCode err ErrorCodePageNotFound
  || IsErrorCode err ErrorCodeUserNotFound.

Definition IsValidationError (err : error) : bool :=
  IsErrorCode err ErrorCodeValidation.

Definition IsConflictError (err : error) : bool :=
  IsErrorCode err ErrorCodeConflict || IsErrorCode err ErrorCodeUserExists.

Definition IsDatabaseError (err : error) : bool :=
  IsErrorCode err ErrorCodeDatabase.

Definition IsUnauthorizedError (err : error) : bool :=
  IsErrorCode err ErrorCodeUnauthorized
  || IsErrorCode err ErrorCodeJWTInvalid
  || IsErrorCode err ErrorCodeJWTExpired
  || IsErrorCode err ErrorCodeInvalidCreds.

Definition IsForbiddenError (err : error) : bool :=
  IsErrorCode err ErrorCodeForbidden.

(* ===================================================================== *)
(** * Package strconv                                                     *)
(* ===================================================================== *)

Definition ErrSyntax : error := errorString "invalid syntax".
Definition ErrRange : error := errorString "value out of range".

Definition isDigit (c : ascii) : bool := inRange 48 57 c.

(** The value of a run of decimal digits read after [acc]. *)
Fixpoint digits (acc : Z) (s : string) : option Z :=
  match s with
  | EmptyString => Some acc
  | String c s' =>
      if isDigit c then digits (10 * acc + (Z.of_nat (nat_of_ascii c) - 48)) s'
      else None
  end.

(** [strconv.ParseInt(s, 10, 64)]: an optional sign, then one or more
    decimal digits (no underscores in base 10), with a value in the range
    of int64.  The [*NumError] that wraps the two errors is not kept: the
    callers drop it or only log it. *)
Definition ParseInt64 (s : string) : GoResult Z :=
  let (neg, body) :=
    match s with
    | String "+" rest => (false, rest)
    | String "-" rest => (true, rest)
    | _ => (false, s)
    end in
  match body with
  | EmptyString => Err ErrSyntax
  | _ =>
      match digits 0 body with
      | None => Err ErrSyntax
      | Some n =>
          let v := if neg : bool then - n else n in
          if ((- 2 ^ 63 <=? v) && (v <=? 2 ^ 63 - 1))%Z then Ok v else Err ErrRange
      end
  end.

(** [strconv.Atoi(s)] where int has 64 bits. *)
Definition Atoi (s : string) : GoResult Z := ParseInt64 s.

(* ===================================================================== *)
(** * Package config and the token service of main                        *)
(* ===================================================================== *)

Module config.

(** The process environment after [godotenv.Load]. *)
Definition Env : Type := gmap string string.

Definition getEnv (env : Env) (key defaultValue : string) : string :=
  match env !! key with
  | Some value => if negb (String.eqb value "") then value else defaultValue
  | None => defaultValue
  end.

Definition getEnvAsInt (env : Env) (key : string) (defaultValue : Z) : Z :=
  let valueStr := getEnv env key "" in
  match Atoi valueStr with
  | Ok value => value
  | Err _ => defaultValue
  end.

Record JWTConfig : Type := mkJWTConfig {
  Secret : string;
  ExpirationHours : Z;
  RefreshSecret : string;
  RefreshExpDays : Z
}.

(** The [JWT] block of [NewConfig]. *)
Definition NewConfig_JWT (env : Env) : JWTConfig :=
  {| Secret := getEnv env "JWT_SECRET" "your-secret-key";
     ExpirationHours := getEnvAsInt env "JWT_EXPIRATION_HOURS" 24;
     RefreshSecret := getEnv env "JWT_REFRESH_SECRET" "your-refresh-secret-key";
     RefreshExpDays := getEnvAsInt env "JWT_REFRESH_EXPIRATION_DAYS" 7 |}.

End config.

(** [jwtService := auth.NewJWTService(cfg.JWT.Secret, cfg.JWT.RefreshSecret,
     cfg.JWT.ExpirationHours, cfg.JWT.RefreshExpDays)] in [main]. *)
Definition main_jwtService (env : config.Env) : JWTService :=
  let cfg := config.NewConfig_JWT env in
  NewJWTService (config.Secret cfg) (config.RefreshSecret cfg)
                (config.ExpirationHours cfg) (config.RefreshExpDays cfg).

(* ===================================================================== *)
(** * Package usecase: userUseCase.ChangePassword                         *)
(* ===================================================================== *)

Section ChangePasswordMethod.
Context {DB : Type} {userRepo : UserRepository DB} {crypt : Bcrypt}.

Definition ChangePassword (userID : Z) (oldPassword newPassword : string)
  : M (AuthWorld DB) (option error) :=
  r <- userUseCase.userRepo_GetByID userID ;;
  match r with
  | Err err => ret (Some err)
  | Ok user =>
      match CompareHashAndPassword (Password user) oldPassword with
      | Some _ => ret (Some NewInvalidCredentialsError)
      | None =>
          if (String.length newPassword <? 6)%nat then
            ret (Some (NewValidationError
                         "Новый пароль должен содержать минимум 6 символов"))
          else
            match GenerateFromPassword newPassword DefaultCost with
            | Err err =>
                userUseCase.log_Error "Ошибка хеширования пароля" ;;
                ret (Some (NewInternalError "Ошибка хеширования пароля" (Some err)))
            | Ok hashedPassword =>
                let user := mkUser (User_ID user) (Username user) (Email user)
                                   hashedPassword (Role user)
                                   (User_CreatedAt user) (User_UpdatedAt user) in
                err <- userUseCase.userRepo_Update user ;;
                match err with
                | Some err => ret (Some err)
                | None => ret None
                end
            end
      end
  end.
End ChangePasswordMethod.

(* ===================================================================== *)
(** * Packages response and middleware: RequireRole and Recovery          *)
(* ===================================================================== *)

(** The [logger.Logger] handed to a function: an implementation, or the
    nil interface value. *)
Inductive Logger : Type := SlogLogger | NilLogger.

(** What a handler did with the request: it called the next handler, it
    wrote a response, or it panicked before anything was written. *)
Inductive Step : Type :=
| ServeNext
| Written (o : Outcome)
| Panicking (v : string).

(** The run-time panic of a method call on a nil interface value. *)
Definition nilDereference : string :=
  "runtime error: invalid memory address or nil pointer dereference".

(** [response.Error(w, log, err)] with its logger: on each of its paths
    [log.Error] is called before [JSON(w, statusCode, resp)]. *)
Definition response_Error_log (log : Logger) (err : error) : Step :=
  match log with
  | NilLogger => Panicking nilDereference
  | SlogLogger => Written (response_Error err)
  end.

Definition response_Unauthorized (log : Logger) (message : string) : Step :=
  response_Error_log log (NewUnauthorizedError message None).

Definition response_Forbidden (log : Logger) (message : string) : Step :=
  response_Error_log log (NewForbiddenError message None).

(** [RequireRole(roles...)] on a request whose context holds [userRole]
    under [UserRoleKey] ([None]: no string is stored there). *)
Definition RequireRole (roles : list string) (userRole : option string) : Step :=
  match userRole with
  | None => response_Unauthorized NilLogger "Требуется авторизация"
  | Some userRole =>
      let hasRole := existsb (String.eqb userRole) roles in
      if negb hasRole then response_Forbidden NilLogger "Отказано в доступе"
      else ServeNext
  end.

(** [Recovery(log)] around what the handlers inside it did. *)
Definition Recovery (log : Logger) (next : Step) : Step :=
  match next with
  | Panicking _ =>
      match log with
      | NilLogger => Panicking nilDereference
      | SlogLogger =>
          response_Error_log log (NewInternalError "Внутренняя ошибка сервера" None)
      end
  | _ => next
  end.

(* ===================================================================== *)
(** * Package handler: MangaHandler                                       *)
(* ===================================================================== *)

Abbreviation StatsPeriod := string.
Definition StatsPeriodDaily : StatsPeriod := "daily".
Definition StatsPeriodWeekly : StatsPeriod := "weekly".
Definition StatsPeriodMonthly : StatsPeriod := "monthly".
Definition StatsPeriodAllTime : StatsPeriod := "all_time".

Module MangaHandler.

(** [parseGenres] *)
Definition parseGenres (genresStr : string) : list string := [].

(** The query parameters [List] reads; an absent parameter is the empty
    string. *)
Record ListQuery : Type := mkListQuery {
  q_title : string;
  q_status : string;
  q_genres : string;
  q_limit : string;
  q_offset : string
}.

(** The filter [List] hands to the use case. *)
Definition List_filter (q : ListQuery) : MangaFilter :=
  let limit := 10 in
  let offset := 0 in
  let limit :=
    if negb (String.eqb (q_limit q) "") then
      match Atoi (q_limit q) with
      | Ok parsedLimit => if (0 <? parsedLimit)%Z then parsedLimit else limit
      | Err _ => limit
      end
    else limit in
  let offset :=
    if negb (String.eqb (q_offset q) "") then
      match Atoi (q_offset q) with
      | Ok parsedOffset => if (0 <=? parsedOffset)%Z then parsedOffset else offset
      | Err _ => offset
      end
    else offset in
  let genres :=
    if negb (String.eqb (q_genres q) "") then parseGenres (q_genres q) else [] in
  mkMangaFilter (q_title q) genres (q_status q) limit offset.

(** [response.MetaPagination] *)
Record MetaPagination : Type := mkMetaPagination {
  Total : Z;
  PerPage : Z;
  CurrentPage : Z;
  LastPage : Z
}.

(** The pagination block [List] reports with [n] returned entries, in
    the arithmetic of int. *)
Definition List_meta (q : ListQuery) (n : Z) : MetaPagination :=
  let limit := Filter_Limit (List_filter q) in
  let offset := Filter_Offset (List_filter q) in
  mkMetaPagination n limit
                   (wrap64 (Z.quot offset limit + 1))
                   (Z.quot (wrap64 (wrap64 (n + limit) - 1)) limit).

(** The period and the limit [GetPopular] hands to the use case. *)
Definition GetPopular_args (period limitStr : string) : StatsPeriod * Z :=
  let limit := 10 in
  let limit :=
    if negb (String.eqb limitStr "") then
      match Atoi limitStr with
      | Ok parsedLimit => if (0 <? parsedLimit)%Z then parsedLimit else limit
      | Err _ => limit
      end
    else limit in
  let statsPeriod := StatsPeriodAllTime in
  let statsPeriod :=
    if String.eqb period "daily" then StatsPeriodDaily
    else if String.eqb period "weekly" then StatsPeriodWeekly
    else if String.eqb period "monthly" then StatsPeriodMonthly
    else statsPeriod in
  (statsPeriod, limit).

End MangaHandler.

(* ===================================================================== *)
(** * Package usecase: mangaUseCase.GetPopular                            *)
(* ===================================================================== *)

Record MangaStat : Type := mkMangaStat {
  Stat_MangaID : Z;
  Stat_Title : string;
  Stat_Views : Z
}.

(** [AnalyticsRepository.GetTopManga] *)
Class TopMangaRepository (DB : Type) : Type := {
  AnalyticsRepository_GetTopManga :
    StatsPeriod -> Z -> DB -> GoResult (list MangaStat) * DB
}.

Section GetPopularMethod.
Context {DB : Type} {topRepo : TopMangaRepository DB} {jsonStats : JSON (list MangaStat)}.

(** [fmt.Sprintf("manga:popular:%s:%d", period, limit)] *)
Definition popularKey (period : StatsPeriod) (limit : Z) : string :=
  "manga:popular:" +:+ period +:+ ":" +:+ FormatInt limit.

(** The [switch period] that sets [cacheTTL]. *)
Definition cacheTTL (period : StatsPeriod) : Duration :=
  if String.eqb period StatsPeriodDaily then 1 * Hour
  else if String.eqb period StatsPeriodWeekly then 4 * Hour
  else if String.eqb period StatsPeriodMonthly then 12 * Hour
  else 24 * Hour.

(** The trace keeps the cache commands and the log messages of this
    method; its call of the analytics repository is not entered. *)
Definition GetPopular (period : StatsPeriod) (limit : Z)
  : M (World DB) (GoResult (list MangaStat)) :=
  let cacheKey := popularKey period limit in
  cached <- CacheRepository.Get cacheKey ;;
  hit <- match cached with
         | Ok cachedData =>
             if negb (String.eqb cachedData "") then
               match Unmarshal cachedData with
               | Ok popular => ret (Some popular)
               | Err _ =>
                   log_Error "Ошибка декодирования популярной манги из кеша" ;;
                   ret None
               end
             else ret None
         | Err _ => ret None
         end ;;
  match hit with
  | Some popular => ret (Ok popular)
  | None =>
      r <- onDB (AnalyticsRepository_GetTopManga period limit) ;;
      match r with
      | Err err => ret (Err err)
      | Ok popular =>
          match Marshal popular with
          | Ok jsonData =>
              err <- CacheRepository.Set_ cacheKey jsonData (cacheTTL period) ;;
              whenErr err (fun _ => log_Error "Ошибка кеширования популярной манги")
          | Err _ => ret tt
          end ;;
          ret (Ok popular)
      end
  end.
End GetPopularMethod.

(* ===================================================================== *)
(** * Package postgres: the statement of MangaRepository.List             *)
(* ===================================================================== *)

(** [strings.Join(elems, sep)] *)
Fixpoint Join (elems : list string) (sep : string) : string :=
  match elems with
  | [] => ""
  | [e] => e
  | e :: rest => e +:+ sep +:+ Join rest sep
  end.

(** A value bound to a placeholder of a statement. *)
Inductive SQLArg : Type :=
| ArgString (s : string)
| ArgInt (n : Z).

Module pgManga.

(** The loop over [filter.Genres]: one condition and one argument for
    each genre, numbered from [argIndex] on; the index after the loop. *)
Fixpoint genreConditions (genres : list string) (argIndex : Z)
  : list string * list SQLArg * Z :=
  match genres with
  | [] => ([], [], argIndex)
  | genre :: rest =>
      let '(conds, args, next) := genreConditions rest (argIndex + 1) in
      (("g.name = $" +:+ FormatInt argIndex) :: conds, ArgString genre :: args, next)
  end.

(** [queryParts] and [args] as [List] has built them when it joins the
    parts. *)
Definition List_queryParts (filter : MangaFilter) : list string * list SQLArg :=
  let queryParts :=
    ["SELECT id, title, description, cover_image, status, author, artist, created_at, updated_at FROM manga"] in
  let where_ : list string := [] in
  let args : list SQLArg := [] in
  let argIndex := 1 in
  let '(where_, args, argIndex) :=
    if negb (String.eqb (Filter_Title filter) "") then
      ((where_ ++ ["title ILIKE $" +:+ FormatInt argIndex])%list,
       (args ++ [ArgString ("%" +:+ Filter_Title filter +:+ "%")])%list,
       argIndex + 1)
    else (where_, args, argIndex) in
  let '(where_, args, argIndex) :=
    if negb (String.eqb (Filter_Status filter) "") then
      ((where_ ++ ["status = $" +:+ FormatInt argIndex])%list,
       (args ++ [ArgString (Filter_Status filter)])%list,
       argIndex + 1)
    else (where_, args, argIndex) in
  let '(queryParts, where_, args, argIndex) :=
    if (0 <? Z.of_nat (length (Filter_Genres filter)))%Z then
      let queryParts :=
        (queryParts ++ ["JOIN manga_genres mg ON manga.id = mg.manga_id"])%list in
      let queryParts := (queryParts ++ ["JOIN genres g ON mg.genre_id = g.id"])%list in
      let '(conds, gargs, argIndex) := genreConditions (Filter_Genres filter) argIndex in
      let where_ := (where_ ++ ["(" +:+ Join conds " OR " +:+ ")"])%list in
      let queryParts := (queryParts ++ ["GROUP BY manga.id"])%list in
      (queryParts, where_, (args ++ gargs)%list, argIndex)
    else (queryParts, where_, args, argIndex) in
  let queryParts :=
    if (0 <? Z.of_nat (length where_))%Z
    then (queryParts ++ ["WHERE " +:+ Join where_ " AND "])%list
    else queryParts in
  let queryParts := (queryParts ++ ["ORDER BY updated_at DESC"])%list in
  let '(queryParts, args) :=
    if (0 <? Filter_Limit filter)%Z then
      let queryParts := (queryParts ++ ["LIMIT $" +:+ FormatInt argIndex])%list in
      let args := (args ++ [ArgInt (Filter_Limit filter)])%list in
      let argIndex := argIndex + 1 in
      let queryParts := (queryParts ++ ["OFFSET $" +:+ FormatInt argIndex])%list in
      let args := (args ++ [ArgInt (Filter_Offset filter)])%list in
      (queryParts, args)
    else (queryParts, args) in
  (queryParts, args).

(** [query := strings.Join(queryParts, " ")] *)
Definition List_query (filter : MangaFilter) : string :=
  Join (fst (List_queryParts filter)) " ".

End pgManga.

(* ===================================================================== *)
(** * Package usecase: pageUseCase                                        *)
(* ===================================================================== *)

Record Page : Type := mkPage {
  Page_ID : Z;
  Page_ChapterID : Z;
  Page_Number : Z;
  Page_ImagePath : string;
  Page_CreatedAt : Time;
  Page_UpdatedAt : Time
}.

Class PageRepository (DB : Type) : Type := {
  PageRepository_Create : Page -> DB -> GoResult Z * DB;
  PageRepository_GetByID : Z -> DB -> GoResult Page * DB;
  PageRepository_ListByChapter : Z -> DB -> GoResult (list Page) * DB;
  PageRepository_Update : Page -> DB -> option error * DB;
  PageRepository_Delete : Z -> DB -> option error * DB
}.

(** [AnalyticsRepository.RecordPageView] *)
Class PageViewRepository (DB : Type) : Type := {
  AnalyticsRepository_RecordPageView : Z -> Z -> Z -> DB -> option error * DB
}.

(** [os.Remove] on the directory of uploaded images, which is kept in
    [DB] with the stores, and [os.IsNotExist]. *)
Class OS (DB : Type) : Type := {
  os_Remove : string -> DB -> option error * DB;
  os_IsNotExist : error -> bool
}.

(** The trace keeps the cache commands and the log messages of these
    methods; their calls of the repositories and of [os] are not
    entered. *)
Module pageUseCase.
Section Methods.
Context {DB : Type}.
Context {pageRepo : PageRepository DB} {chapterRepo : ChapterRepository DB}
        {pageViews : PageViewRepository DB} {os : OS DB}.
Context {jsonPage : JSON Page} {jsonPages : JSON (list Page)}.

(** [fmt.Sprintf("page:%d", id)] *)
Definition pageKey (id : Z) : string := "page:" +:+ FormatInt id.

(** [fmt.Sprintf("chapter:%d:pages", chapterID)] *)
Definition pageListKey (chapterID : Z) : string :=
  "chapter:" +:+ FormatInt chapterID +:+ ":pages".

Definition invalidatePageListCache (chapterID : Z) : M (World DB) (option error) :=
  let cacheKey := pageListKey chapterID in
  CacheRepository.Delete cacheKey.

Definition Create (page : Page) : M (World DB) (GoResult Page) :=
  if (Page_ChapterID page <=? 0)%Z then
    ret (Err (NewValidationError "Не указан ID главы"))
  else if String.eqb (Page_ImagePath page) "" then
    ret (Err (NewValidationError "Не указан путь к изображению"))
  else
    r <- onDB (ChapterRepository_GetByID (Page_ChapterID page)) ;;
    match r with
    | Err err => ret (Err err)
    | Ok _ =>
        r <- onDB (PageRepository_Create page) ;;
        match r with
        | Err err => ret (Err err)
        | Ok id =>
            r <- onDB (PageRepository_GetByID id) ;;
            match r with
            | Err err => ret (Err err)
            | Ok createdPage =>
                err <- invalidatePageListCache (Page_ChapterID page) ;;
                whenErr err (fun _ => log_Error "Ошибка инвалидации кеша списка страниц") ;;
                ret (Ok createdPage)
            end
        end
    end.

(** The view of a page is recorded under the manga of its chapter, if
    the chapter can be read. *)
Definition recordView (id chapterID : Z) : M (World DB) unit :=
  r <- onDB (ChapterRepository_GetByID chapterID) ;;
  match r with
  | Ok chapter =>
      err <- onDB (AnalyticsRepository_RecordPageView id chapterID (Chapter_MangaID chapter)) ;;
      whenErr err (fun _ => log_Error "Ошибка записи просмотра страницы")
  | Err _ => log_Error "Ошибка получения главы для аналитики"
  end.

Definition GetByID (id : Z) : M (World DB) (GoResult Page) :=
  let cacheKey := pageKey id in
  cached <- CacheRepository.Get cacheKey ;;
  hit <- match cached with
         | Ok cachedData =>
             if negb (String.eqb cachedData "") then
               match Unmarshal cachedData with
               | Ok page =>
                   recordView id (Page_ChapterID page) ;;
                   ret (Some page)
               | Err _ =>
                   log_Error "Ошибка декодирования страницы из кеша" ;;
                   ret None
               end
             else ret None
         | Err _ => ret None
         end ;;
  match hit with
  | Some page => ret (Ok page)
  | None =>
      r <- onDB (PageRepository_GetByID id) ;;
      match r with
      | Err err => ret (Err err)
      | Ok page =>
          recordView id (Page_ChapterID page) ;;
          match Marshal page with
          | Ok jsonData =>
              err <- CacheRepository.Set_ cacheKey jsonData (30 * Minute) ;;
              whenErr err (fun _ => log_Error "Ошибка кеширования страницы")
          | Err _ => ret tt
          end ;;
          ret (Ok page)
      end
  end.

Definition ListByChapter (chapterID : Z) : M (World DB) (GoResult (list Page)) :=
  r <- onDB (ChapterRepository_GetByID chapterID) ;;
  match r with
  | Err err => ret (Err err)
  | Ok _ =>
      let cacheKey := pageListKey chapterID in
      cached <- CacheRepository.Get cacheKey ;;
      hit <- match cached with
             | Ok cachedData =>
                 if negb (String.eqb cachedData "") then
                   match Unmarshal cachedData with
                   | Ok pages => ret (Some pages)
                   | Err _ =>
                       log_Error "Ошибка декодирования списка страниц из кеша" ;;
                       ret None
                   end
                 else ret None
             | Err _ => ret None
             end ;;
      match hit with
      | Some pages => ret (Ok pages)
      | None =>
          r <- onDB (PageRepository_ListByChapter chapterID) ;;
          match r with
          | Err err => ret (Err err)
          | Ok pages =>
              match Marshal pages with
              | Ok jsonData =>
                  err <- CacheRepository.Set_ cacheKey jsonData (15 * Minute) ;;
                  whenErr err (fun _ => log_Error "Ошибка кеширования списка страниц")
              | Err _ => ret tt
              end ;;
              ret (Ok pages)
          end
      end
  end.

Definition Update (page : Page) : M (World DB) (GoResult Page) :=
  r <- onDB (PageRepository_GetByID (Page_ID page)) ;;
  match r with
  | Err err => ret (Err err)
  | Ok existingPage =>
      if (Page_ChapterID page <=? 0)%Z then
        ret (Err (NewValidationError "Не указан ID главы"))
      else if String.eqb (Page_ImagePath page) "" then
        ret (Err (NewValidationError "Не указан путь к изображению"))
      else
        r <- onDB (ChapterRepository_GetByID (Page_ChapterID page)) ;;
        match r with
        | Err err => ret (Err err)
        | Ok _ =>
            err <- onDB (PageRepository_Update page) ;;
            match err with
            | Some err => ret (Err err)
            | None =>
                r <- onDB (PageRepository_GetByID (Page_ID page)) ;;
                match r with
                | Err err => ret (Err err)
                | Ok updatedPage =>
                    let cacheKey := pageKey (Page_ID page) in
                    err <- CacheRepository.Delete cacheKey ;;
                    whenErr err (fun _ => log_Error "Ошибка инвалидации кеша страницы") ;;
                    (if negb (Page_ChapterID existingPage =? Page_ChapterID page)%Z then
                       err <- invalidatePageListCache (Page_ChapterID existingPage) ;;
                       whenErr err
                         (fun _ => log_Error "Ошибка инвалидации кеша списка страниц")
                     else ret tt) ;;
                    err <- invalidatePageListCache (Page_ChapterID page) ;;
                    whenErr err (fun _ => log_Error "Ошибка инвалидации кеша списка страниц") ;;
                    ret (Ok updatedPage)
                end
            end
        end
  end.

Definition Delete (id : Z) : M (World DB) (option error) :=
  r <- onDB (PageRepository_GetByID id) ;;
  match r with
  | Err err => ret (Some err)
  | Ok page =>
      err <- onDB (os_Remove (Page_ImagePath page)) ;;
      match err with
      | Some e =>
          if negb (os_IsNotExist e)
          then log_Error "Ошибка удаления файла изображения"
          else ret tt
      | None => ret tt
      end ;;
      err <- onDB (PageRepository_Delete id) ;;
      match err with
      | Some err => ret (Some err)
      | None =>
          let cacheKey := pageKey id in
          err <- CacheRepository.Delete cacheKey ;;
          whenErr err (fun _ => log_Error "Ошибка инвалидации кеша страницы") ;;
          err <- invalidatePageListCache (Page_ChapterID page) ;;
          whenErr err (fun _ => log_Error "Ошибка инвалидации кеша списка страниц") ;;
          ret None
      end
  end.
End Methods.
End pageUseCase.

(* ===================================================================== *)
(** * Package postgres: the genres of MangaRepository.Update              *)
(* ===================================================================== *)



(* ===================================================================== *)
(** * In-memory stores and library instances to run the code on           *)
(* ===================================================================== *)

Module Mem.

(** An in-memory authoritative store behind the three catalog
    interfaces. *)
Record Store : Type := mkStore {
  mangas : gmap Z Manga;
  chapters : gmap Z Chapter;
  mangaViews : gmap Z Z;
  chapterViews : gmap Z Z
}.

Definition withID (id : Z) (m : Manga) : Manga :=
  mkManga id (Manga_Title m) (Manga_Description m) (Manga_CoverImage m)
          (Manga_Status m) (Manga_Author m) (Manga_Artist m) (Manga_Genres m)
          (Manga_CreatedAt m) (Manga_UpdatedAt m).

Definition nextID {A} (t : gmap Z A) : Z :=
  1 + fold_right Z.max 0 (List.map fst (map_to_list t)).

Definition matches (f : MangaFilter) (m : Manga) : bool :=
  (String.eqb (Filter_Status f) "" || String.eqb (Filter_Status f) (Manga_Status m))
  && (String.eqb (Filter_Title f) "" || Contains (Manga_Title m) (Filter_Title f))
  && forallb (fun g => existsb (String.eqb g) (Manga_Genres m)) (Filter_Genres f).

(** Rows in ascending id order. *)
Fixpoint insertByID (m : Manga) (l : list Manga) : list Manga :=
  match l with
  | [] => [m]
  | x :: l' => if (Manga_ID m <=? Manga_ID x)%Z then m :: l else x :: insertByID m l'
  end.

Definition sorted (t : gmap Z Manga) : list Manga :=
  fold_right insertByID [] (List.map snd (map_to_list t)).

#[export] Instance mangaRepo : MangaRepository Store := {
  MangaRepository_Create m s :=
    let id := nextID (mangas s) in
    (Ok id, mkStore (<[id := withID id m]> (mangas s)) (chapters s)
                    (mangaViews s) (chapterViews s));
  MangaRepository_GetByID id s :=
    match mangas s !! id with
    | Some m => (Ok m, s)
    | None => (Err (NewMangaNotFoundError (FormatInt id)), s)
    end;
  MangaRepository_List f s := (Ok (List.filter (matches f) (sorted (mangas s))), s);
  MangaRepository_Update m s :=
    match mangas s !! Manga_ID m with
    | Some _ => (None, mkStore (<[Manga_ID m := m]> (mangas s)) (chapters s)
                               (mangaViews s) (chapterViews s))
    | None => (Some (NewMangaNotFoundError (FormatInt (Manga_ID m))), s)
    end;
  MangaRepository_Delete id s :=
    match mangas s !! id with
    | Some _ => (None, mkStore (delete id (mangas s)) (chapters s)
                               (mangaViews s) (chapterViews s))
    | None => (Some (NewMangaNotFoundError (FormatInt id)), s)
    end
}.

Definition chapterNotFound (id : Z) : error :=
  appError (mkAppError ErrorCodeChapterNotFound
              ("Глава с ID " +:+ FormatInt id +:+ " не найдена") StatusNotFound None).

(** As the statements of the PostgreSQL repository do, [Update] sets the
    number and the title of the row and leaves its manga and its creation
    time as they are.  (The store has no clock: the update time, which
    the statement sets to the server's [NOW()], stays as well.) *)
#[export] Instance chapterRepo : ChapterRepository Store := {
  ChapterRepository_Create c s :=
    let id := nextID (chapters s) in
    let c' := mkChapter id (Chapter_MangaID c) (Chapter_Number c) (Chapter_Title c)
                        (Chapter_CreatedAt c) (Chapter_UpdatedAt c) in
    (Ok id, mkStore (mangas s) (<[id := c']> (chapters s))
                    (mangaViews s) (chapterViews s));
  ChapterRepository_GetByID id s :=
    match chapters s !! id with
    | Some c => (Ok c, s)
    | None => (Err (chapterNotFound id), s)
    end;
  ChapterRepository_ListByManga mid s :=
    (Ok (List.filter (fun c => (Chapter_MangaID c =? mid)%Z)
                     (List.map snd (map_to_list (chapters s)))), s);
  ChapterRepository_Update c s :=
    match chapters s !! Chapter_ID c with
    | Some stored =>
        let c' := mkChapter (Chapter_ID c) (Chapter_MangaID stored)
                            (Chapter_Number c) (Chapter_Title c)
                            (Chapter_CreatedAt stored) (Chapter_UpdatedAt stored) in
        (None, mkStore (mangas s) (<[Chapter_ID c := c']> (chapters s))
                       (mangaViews s) (chapterViews s))
    | None => (Some (chapterNotFound (Chapter_ID c)), s)
    end;
  ChapterRepository_Delete id s :=
    match chapters s !! id with
    | Some _ => (None, mkStore (mangas s) (delete id (chapters s))
                               (mangaViews s) (chapterViews s))
    | None => (Some (chapterNotFound id), s)
    end
}.

Definition bump (id : Z) (v : gmap Z Z) : gmap Z Z :=
  <[id := 1 + default 0 (v !! id)]> v.

#[export] Instance analyticsRepo : AnalyticsRepository Store := {
  AnalyticsRepository_RecordMangaView id s :=
    (None, mkStore (mangas s) (chapters s) (bump id (mangaViews s)) (chapterViews s));
  AnalyticsRepository_RecordChapterView id mid s :=
    (None, mkStore (mangas s) (chapters s) (mangaViews s) (bump id (chapterViews s)));
  AnalyticsRepository_GetChapterViews id s := (Ok (default 0 (chapterViews s !! id)), s)
}.

(** A codec that renders an entity as a JSON-like text and decodes the
    texts of the entities of a fixed catalogue. *)
Definition quoted (s : string) : string := dquote +:+ s +:+ dquote.

Definition renderManga (m : Manga) : string :=
  "{" +:+ quoted "id" +:+ ":" +:+ FormatInt (Manga_ID m) +:+ ","
      +:+ quoted "title" +:+ ":" +:+ quoted (Manga_Title m) +:+ ","
      +:+ quoted "status" +:+ ":" +:+ quoted (Manga_Status m) +:+ "}".

Definition renderChapter (c : Chapter) : string :=
  "{" +:+ quoted "id" +:+ ":" +:+ FormatInt (Chapter_ID c) +:+ ","
      +:+ quoted "manga_id" +:+ ":" +:+ FormatInt (Chapter_MangaID c) +:+ ","
      +:+ quoted "title" +:+ ":" +:+ quoted (Chapter_Title c) +:+ "}".

Fixpoint joinWith (sep : string) (l : list string) : string :=
  match l with
  | [] => ""
  | [x] => x
  | x :: l' => x +:+ sep +:+ joinWith sep l'
  end.

Definition renderList {A} (render : A -> string) (l : list A) : string :=
  "[" +:+ joinWith "," (List.map render l) +:+ "]".

Definition decodeFrom {A} (render : A -> string) (known : list A) (text : string)
  : GoResult A :=
  match List.find (fun a => String.eqb (render a) text) known with
  | Some a => Ok a
  | None => Err (errorString "unexpected end of JSON input")
  end.

Definition berserk : Manga :=
  mkManga 1 "Berserk" "" "" "ongoing" "Kentaro Miura" "" ["seinen"] 0 0.
Definition vagabond : Manga :=
  mkManga 0 "Vagabond" "" "" "hiatus" "Takehiko Inoue" "" ["seinen"] 0 0.
Definition berserk_ch1 : Chapter := mkChapter 7 1 "1" "The Black Swordsman" 0 0.

Definition knownMangas : list Manga := [berserk; withID 2 vagabond].
Definition knownLists : list (list Manga) :=
  [[]; [berserk]; [berserk; withID 2 vagabond]].

#[export] Instance jsonManga : JSON Manga := {
  Marshal m := Ok (renderManga m);
  Unmarshal := decodeFrom renderManga knownMangas
}.

#[export] Instance jsonMangas : JSON (list Manga) := {
  Marshal l := Ok (renderList renderManga l);
  Unmarshal := decodeFrom (renderList renderManga) knownLists
}.

#[export] Instance jsonChapter : JSON Chapter := {
  Marshal c := Ok (renderChapter c);
  Unmarshal := decodeFrom renderChapter [berserk_ch1]
}.

#[export] Instance jsonChapters : JSON (list Chapter) := {
  Marshal l := Ok (renderList renderChapter l);
  Unmarshal := decodeFrom (renderList renderChapter) [[]; [berserk_ch1]]
}.

(** A MAC that appends the key to a digest of the signing input. *)
#[export] Instance mac : jwt.HMAC := {
  hmac method key input :=
    jwt.Alg method +:+ "." +:+ jwt.Subject (snd input) +:+ "." +:+ key
}.

#[export] Instance crypt : Bcrypt := {
  GenerateFromPassword password cost := Ok ("$2a$10$" +:+ password);
  CompareHashAndPassword hash password :=
    if String.eqb hash ("$2a$10$" +:+ password) then None
    else Some (errorString
      "crypto/bcrypt: hashedPassword is not the hash of the given password")
}.

Definition connectionRefused : error :=
  errorString "dial tcp 127.0.0.1:6379: connect: connection refused".

Definition store0 : Store := mkStore {[ 1 := berserk ]} {[ 7 := berserk_ch1 ]} ∅ ∅.

Definition world (cache : list (string * (string * Duration)))
           (outcomes : list (option error)) (s : Store) : World Store :=
  mkWorld (mkRedis (list_to_map cache) outcomes) s [].

Definition noFilter (limit offset : Z) : MangaFilter :=
  mkMangaFilter "" [] "" limit offset.

Definition jwtService : JWTService :=
  NewJWTService "your-secret-key" "your-refresh-secret-key" 24 7.

Definition alice : UserRow :=
  mkUserRow "alice" "alice@example.com" "$2a$10$wonderland" "user" 0 0.

Definition pg0 : Postgres := mkPostgres {[ 5 := alice ]} 5 1000 [] [].

Definition authWorld (p : Postgres) (now : Time) : AuthWorld Postgres :=
  mkAuthWorld p (mkClock now []) [].

(** The cache after an unfiltered [List] with limit 10 and offset 0 has
    stored its result. *)
Definition listed : World Store :=
  world [("manga:list:10:0", (renderList renderManga [berserk], 10 * Minute))] [] store0.

(** The cache after [GetByID] has stored manga 1 and chapter 7. *)
Definition warm : World Store :=
  world [("manga:1", (renderManga berserk, 30 * Minute));
         ("chapter:7", (renderChapter berserk_ch1, 30 * Minute))] [] store0.

Definition renamed : Manga :=
  mkManga 1 "Berserk Deluxe" "" "" "ongoing" "Kentaro Miura" "" ["seinen"] 0 0.

(** A read of manga 1 fills the cache; the manga is then deleted while
    the cache is unreachable, so both invalidations fail and are only
    logged. *)
Definition stale : World Store :=
  snd (mangaUseCase.Delete 1
         (snd (mangaUseCase.GetByID 1
                 (world [] [None; None; Some connectionRefused; Some connectionRefused]
                        store0)))).

Definition aliceUser : User := pg.toUser 5 alice.

(** The pair issued to alice at time 0: the access token expires after
    24 hours, the refresh token after 7 days. *)
Definition issued : TokenPair :=
  match fst (JWTSvc.GenerateTokenPair jwtService aliceUser (mkClock 0 [])) with
  | Ok tokenPair => tokenPair
  | Err _ => mkTokenPair (jwt.Garbage "") (jwt.Garbage "")
  end.

(** The Adler-32 checksum of hash/adler32, in four bytes, in the place of
    the SHA-2 digests. *)
Fixpoint adler32 (a b : N) (msg : string) : N * N :=
  match msg with
  | EmptyString => (a, b)
  | String c msg' =>
      let a' := ((a + N_of_ascii c) mod 65521)%N in
      adler32 a' ((b + a') mod 65521)%N msg'
  end.

Definition checksum (method : jwt.SigningMethod) (msg : string) : string :=
  let (a, b) := adler32 1 0 msg in
  String (ascii_of_N (b / 256)) (String (ascii_of_N (b mod 256))
    (String (ascii_of_N (a / 256)) (String (ascii_of_N (a mod 256)) ""))).

Definition seconds (t : option Time) : string :=
  match t with
  | Some t => FormatInt (t / Second)
  | None => "null"
  end.

(** A signing string that spells out the header and the claims, without
    the base64url encoding of the two segments. *)
Definition plainSigningString (input : jwt.SigningMethod * jwt.Claims) : string :=
  let (method, claims) := input in
  "{" +:+ quoted "alg" +:+ ":" +:+ quoted (jwt.Alg method) +:+ ","
      +:+ quoted "typ" +:+ ":" +:+ quoted "JWT" +:+ "}."
  +:+ "{" +:+ quoted "user_id" +:+ ":" +:+ FormatInt (jwt.UserID claims) +:+ ","
      +:+ quoted "username" +:+ ":" +:+ quoted (jwt.Claims_Username claims) +:+ ","
      +:+ quoted "role" +:+ ":" +:+ quoted (jwt.Claims_Role claims) +:+ ","
      +:+ quoted "sub" +:+ ":" +:+ quoted (jwt.Subject claims) +:+ ","
      +:+ quoted "exp" +:+ ":" +:+ seconds (jwt.ExpiresAt claims) +:+ ","
      +:+ quoted "nbf" +:+ ":" +:+ seconds (jwt.NotBefore claims) +:+ ","
      +:+ quoted "iat" +:+ ":" +:+ seconds (jwt.IssuedAt claims) +:+ "}".

(** crypto/hmac over that checksum and that signing string. *)
Definition hmacAdler : jwt.HMAC :=
  crypto_hmac.SigningMethodHMAC checksum plainSigningString.

(** A service whose refresh secret is its access secret followed by a
    zero byte. *)
Definition twinSecrets : JWTService :=
  NewJWTService "k" ("k" +:+ String Ascii.zero "") 24 7.
End Mem.

(** More of the same: the analytics ranking, a codec for it, and a users
    table with two rows. *)
Module Mem2.
Import Mem.

Definition statOf (s : Store) (m : Manga) : MangaStat :=
  mkMangaStat (Manga_ID m) (Manga_Title m) (default 0 (mangaViews s !! Manga_ID m)).

#[export] Instance topRepo : TopMangaRepository Store := {
  AnalyticsRepository_GetTopManga period limit s :=
    (Ok (firstn (Z.to_nat limit) (List.map (statOf s) (sorted (mangas s)))), s)
}.

Definition renderStat (st : MangaStat) : string :=
  "{" +:+ quoted "manga_id" +:+ ":" +:+ FormatInt (Stat_MangaID st) +:+ ","
      +:+ quoted "title" +:+ ":" +:+ quoted (Stat_Title st) +:+ ","
      +:+ quoted "views" +:+ ":" +:+ FormatInt (Stat_Views st) +:+ "}".

#[export] Instance jsonStats : JSON (list MangaStat) := {
  Marshal l := Ok (renderList renderStat l);
  Unmarshal := decodeFrom (renderList renderStat) [[]; [mkMangaStat 1 "Berserk" 0]]
}.

Definition bob : UserRow :=
  mkUserRow "bob" "bob@example.com" "$2a$10$hunter22" "user" 0 0.

Definition pg1 : Postgres := mkPostgres (<[6 := bob]> {[ 5 := alice ]}) 6 1000 [] [].

(** Chapter 7 as a request to update it carries it: with a new title,
    and with manga 2 in the place of the manga it belongs to. *)
Definition retitled_ch1 : Chapter := mkChapter 7 2 "1" "The Brand" 0 0.

Definition store1 : Store :=
  mkStore (<[2 := withID 2 vagabond]> {[ 1 := berserk ]}) {[ 7 := berserk_ch1 ]} ∅ ∅.

(** The chapter lists of both mangas are cached. *)
Definition listedChapters : World Store :=
  world [("manga:1:chapters", (renderList renderChapter [berserk_ch1], 15 * Minute));
         ("manga:2:chapters", (renderList renderChapter [], 15 * Minute))] [] store1.

Definition connectionLost : error := errorString "driver: bad connection".

(** A store with pages beside the catalog, and with no image files. *)
Definition Library : Type := (Store * gmap Z Page)%type.

Definition pageNotFound (id : Z) : error :=
  appError (mkAppError ErrorCodePageNotFound
              ("Страница с ID " +:+ FormatInt id +:+ " не найдена") StatusNotFound None).

Definition withPageID (id : Z) (p : Page) : Page :=
  mkPage id (Page_ChapterID p) (Page_Number p) (Page_ImagePath p)
         (Page_CreatedAt p) (Page_UpdatedAt p).

#[export] Instance pageRepo : PageRepository Library := {
  PageRepository_Create p s :=
    let id := nextID (snd s) in
    (Ok id, (fst s, <[id := withPageID id p]> (snd s)));
  PageRepository_GetByID id s :=
    match snd s !! id with
    | Some p => (Ok p, s)
    | None => (Err (pageNotFound id), s)
    end;
  PageRepository_ListByChapter cid s :=
    (Ok (List.filter (fun p => (Page_ChapterID p =? cid)%Z)
                     (List.map snd (map_to_list (snd s)))), s);
  PageRepository_Update p s :=
    match snd s !! Page_ID p with
    | Some _ => (None, (fst s, <[Page_ID p := p]> (snd s)))
    | None => (Some (pageNotFound (Page_ID p)), s)
    end;
  PageRepository_Delete id s :=
    match snd s !! id with
    | Some _ => (None, (fst s, delete id (snd s)))
    | None => (Some (pageNotFound id), s)
    end
}.

Definition onStore {A} (f : Store -> A * Store) (s : Library) : A * Library :=
  let (a, st) := f (fst s) in (a, (st, snd s)).

#[export] Instance libraryChapters : ChapterRepository Library := {
  ChapterRepository_Create c := onStore (ChapterRepository_Create c);
  ChapterRepository_GetByID id := onStore (ChapterRepository_GetByID id);
  ChapterRepository_ListByManga mid := onStore (ChapterRepository_ListByManga mid);
  ChapterRepository_Update c := onStore (ChapterRepository_Update c);
  ChapterRepository_Delete id := onStore (ChapterRepository_Delete id)
}.

#[export] Instance pageViews : PageViewRepository Library := {
  AnalyticsRepository_RecordPageView id cid mid s := (None, s)
}.

#[export] Instance noFiles : OS Library := {
  os_Remove path s := (Some (errorString ("remove " +:+ path +:+ ": no such file or directory")), s);
  os_IsNotExist e := true
}.

Definition renderPage (p : Page) : string :=
  "{" +:+ quoted "id" +:+ ":" +:+ FormatInt (Page_ID p) +:+ ","
      +:+ quoted "chapter_id" +:+ ":" +:+ FormatInt (Page_ChapterID p) +:+ ","
      +:+ quoted "image_path" +:+ ":" +:+ quoted (Page_ImagePath p) +:+ "}".

Definition page3 : Page := mkPage 3 7 1 "uploads/chapters/7/7_1.jpg" 0 0.

#[export] Instance jsonPage : JSON Page := {
  Marshal p := Ok (renderPage p);
  Unmarshal := decodeFrom renderPage [page3]
}.

#[export] Instance jsonPages : JSON (list Page) := {
  Marshal l := Ok (renderList renderPage l);
  Unmarshal := decodeFrom (renderList renderPage) [[]; [page3]]
}.

Definition vagabond_ch1 : Chapter := mkChapter 8 2 "1" "Shinmen Takezo" 0 0.

Definition library0 : Library :=
  (mkStore (<[2 := withID 2 vagabond]> {[ 1 := berserk ]})
           (<[8 := vagabond_ch1]> {[ 7 := berserk_ch1 ]}) ∅ ∅,
   {[ 3 := page3 ]}).

(** Page 3 and the page lists of chapters 7 and 8 are cached. *)
Definition listedPages : World Library :=
  mkWorld (mkRedis (list_to_map
                      [("page:3", (renderPage page3, 30 * Minute));
                       ("chapter:7:pages", (renderList renderPage [page3], 15 * Minute));
                       ("chapter:8:pages", (renderList renderPage [], 15 * Minute))]) [])
          library0 [].

(** Page 3 as an editor would send it to move it to chapter 8. *)
Definition moved_page3 : Page := mkPage 3 8 1 "uploads/chapters/7/7_1.jpg" 0 0.

End Mem2.

(** The first character [FormatInt] can produce. *)
Definition digitOrMinus (c : ascii) : bool := inRange 48 57 c || Ascii.eqb c "-".

(** The same world with other outcomes awaiting the next cache commands. *)
Definition withWire {DB} (w : World DB) (outcomes : list (option error)) : World DB :=
  mkWorld (mkRedis (kv (redis w)) outcomes) (db w) (trace w).

(** How many of the calls in a trace of the user use case satisfy [p]. *)
Definition authCalls (p : AuthEvent -> bool) (tr : list AuthEvent) : nat :=
  length (List.filter p tr).

(** Two states of the users table that differ at most in the username, the
    email and the update time of the row [except]. *)
Definition profileUpdateOnly (except : Z) (t t' : gmap Z UserRow) : Prop :=
  forall id,
    match t !! id, t' !! id with
    | Some r, Some r' =>
        role r' = role r
        /\ password_hash r' = password_hash r
        /\ created_at r' = created_at r
        /\ (id <> except -> r' = r)
    | None, None => True
    | _, _ => False
    end.

(** [user] as a caller would send it with another role and password. *)
Definition withRolePassword (user : User) (rl pw : string) : User :=
  mkUser (User_ID user) (Username user) (Email user) pw rl
         (User_CreatedAt user) (User_UpdatedAt user).

Definition isCacheCommand (e : Event) : bool :=
  match e with
  | CacheGet _ | CacheSet _ _ _ | CacheDelete _ => true
  | _ => false
  end.

Definition isChapterRepo_ListByManga (e : Event) : bool :=
  match e with ChapterRepo_ListByManga _ => true | _ => false end.

Definition isUserRepo_Update (e : AuthEvent) : bool :=
  match e with UserRepo_Update _ => true | _ => false end.

Definition noFault (o : option error) : bool :=
  match o with None => true | Some _ => false end.

(** The next [n] cache commands reach the server. *)
Definition cacheUp (n : nat) (r : Redis) : bool := forallb noFault (firstn n (wire r)).

(** The next [n] statements reach the database server. *)
Definition pgUp (n : nat) (p : Postgres) : bool := forallb noFault (firstn n (pg_wire p)).

(** A token string that carries [claims], names an HMAC method, is signed
    with [secret] under that method, and passes the three time checks at
    [now]. *)
Definition accepted {mac : jwt.HMAC} (secret : string) (now : Time)
           (tok : jwt.tokenString) (claims : jwt.Claims) : Prop :=
  exists method signature,
    tok = jwt.Compact method claims signature
    /\ jwt.isHMAC method = true
    /\ signature = jwt.hmac method secret (method, claims)
    /\ jwt.VerifyExpiresAt claims now false = true
    /\ jwt.VerifyIssuedAt claims now false = true
    /\ jwt.VerifyNotBefore claims now false = true.

(** The repository has a user for the name in [cred]: under that
    username, or, once it has reported that there is none, under that
    email. *)
Definition lookedUp {DB} {userRepo : UserRepository DB}
           (cred : UserCredentials) (d : DB) (user : User) : Prop :=
  fst (UserRepository_GetByUsername (Cred_Username cred) d) = Ok user
  \/ exists e,
       fst (UserRepository_GetByUsername (Cred_Username cred) d) = Err e
       /\ IsErrorCode e ErrorCodeUserNotFound = true
       /\ fst (UserRepository_GetByEmail (Cred_Username cred)
                 (snd (UserRepository_GetByUsername (Cred_Username cred) d))) = Ok user.

(** Another row than [id] holds the username [uname]. *)
Definition usernameTaken (id : Z) (uname : string) (t : gmap Z UserRow) : Prop :=
  exists id' r', t !! id' = Some r' /\ id' <> id /\ username r' = uname.

(** An [AppError] with one of the [codes]. *)
Definition repositoryError (e : error) (codes : list ErrorCode) : Prop :=
  exists a, e = appError a /\ In (Code a) codes.

(** How many of the six class predicates hold of an error. *)
Definition classes (err : error) : nat :=
  length (List.filter (fun p : error -> bool => p err)
            [IsNotFoundError; IsValidationError; IsConflictError;
             IsDatabaseError; IsUnauthorizedError; IsForbiddenError]).

(** A variable that is not set, or set to the empty string. *)
Definition unset (env : config.Env) (key : string) : Prop :=
  env !! key = None \/ env !! key = Some "".

(** What of a filter decides the text of the statement. *)
Definition sameShape (f g : MangaFilter) : Prop :=
  (Filter_Title f = "" <-> Filter_Title g = "")
  /\ (Filter_Status f = "" <-> Filter_Status g = "")
  /\ length (Filter_Genres f) = length (Filter_Genres g)
  /\ (0 < Filter_Limit f <-> 0 < Filter_Limit g).


(* ===================================================================== *)
(** * Proof tools                                                         *)
(* ===================================================================== *)

(** Unfold the plumbing of the state monad, of the cache repository and of
    the calls through the repository interfaces. *)
Ltac go_unfold :=
  cbv beta iota zeta delta
    [bind ret whenErr log_Error emit onRedis onDB fst snd
     CacheRepository.Get CacheRepository.Set_ CacheRepository.Delete
     RedisClient_Get RedisClient_Set RedisClient_Delete redis_wire
     redis db trace kv wire
     mangaUseCase.invalidateMangaListCache
     mangaUseCase.mangaRepo_Create mangaUseCase.mangaRepo_GetByID
     mangaUseCase.mangaRepo_List mangaUseCase.mangaRepo_Update
     mangaUseCase.mangaRepo_Delete mangaUseCase.analyticsRepo_RecordMangaView
     chapterUseCase.invalidateChapterListCache chapterUseCase.chapterViews
     chapterUseCase.chapterRepo_Create chapterUseCase.chapterRepo_GetByID
     chapterUseCase.chapterRepo_ListByManga chapterUseCase.chapterRepo_Update
     chapterUseCase.chapterRepo_Delete chapterUseCase.mangaRepo_GetByID
     chapterUseCase.analyticsRepo_GetChapterViews
     chapterUseCase.analyticsRepo_RecordChapterView] in *.

(** Case analysis on the innermost scrutinee of the goal. *)
Ltac break_match :=
  match goal with
  | |- context [match ?x with _ => _ end] =>
      lazymatch x with
      | context [match _ with _ => _ end] => fail
      | _ => destruct x eqn:?
      end
  end.

Ltac break_all := repeat (break_match; cbn in *).

(** Two readings of the same table cell saw the same row. *)
Ltac same_lookups :=
  repeat match goal with
    | H : Some ?a = Some ?b |- _ =>
        is_var a; is_var b; injection H as ->
    | H1 : ?x = Some ?a, H2 : ?x = Some ?b |- _ =>
        tryif constr_eq a b then fail
        else (assert (b = a) by congruence; subst b; clear H2)
    | H1 : ?x = Some _, H2 : ?x = None |- _ => congruence
    end.

(* ===================================================================== *)
(** * Cache keys                                                          *)
(* ===================================================================== *)

Lemma string_of_int_head (i : Decimal.int) :
  exists c s, NilZero.string_of_int i = String c s /\ digitOrMinus c = true.
Proof.
  destruct i as [d|d]; cbn.
  - destruct d; cbn; eauto.
  - eauto.
Qed.

Lemma FormatInt_head (n : Z) :
  exists c s, FormatInt n = String c s /\ digitOrMinus c = true.
Proof. apply string_of_int_head. Qed.

(** No paginated list key is the wildcard text the invalidation deletes. *)
Lemma mangaListKey_not_wildcard (limit offset : Z) :
  mangaUseCase.mangaListKey limit offset <> "manga:list:*".
Proof.
  unfold mangaUseCase.mangaListKey.
  destruct (FormatInt_head limit) as (c & s & -> & Hc).
  cbn. intros H. injection H as Hc' _. subst c. discriminate Hc.
Qed.

(** No paginated list key is the key of a single manga. *)
Lemma mangaListKey_not_mangaKey (limit offset id : Z) :
  mangaUseCase.mangaListKey limit offset <> mangaUseCase.mangaKey id.
Proof.
  unfold mangaUseCase.mangaListKey, mangaUseCase.mangaKey.
  destruct (FormatInt_head id) as (c & s & -> & Hc).
  cbn. intros H. injection H as Hc' _. subst c. discriminate Hc.
Qed.

Section CacheAside.
Context {DB : Type}.
Context {mangaRepo : MangaRepository DB} {chapterRepo : ChapterRepository DB}
        {analyticsRepo : AnalyticsRepository DB}.
Context {jsonManga : JSON Manga} {jsonMangas : JSON (list Manga)}
        {jsonChapter : JSON Chapter} {jsonChapters : JSON (list Chapter)}.

(** Deleting a key leaves every other key of the cache as it was,
    whether or not the command reaches the server. *)
Lemma CacheRepository_Delete_other (key other : string) (w : World DB) :
  other <> key ->
  kv (redis (snd (CacheRepository.Delete key w))) !! other = kv (redis w) !! other.
Proof.
  intros Hne. go_unfold. break_all; try reflexivity.
  all: apply lookup_delete_ne; congruence.
Qed.

(** A delete that reaches the server removes the key it names. *)
Lemma CacheRepository_Delete_same (key : string) (w : World DB) :
  hd None (wire (redis w)) = None ->
  kv (redis (snd (CacheRepository.Delete key w))) !! key = None.
Proof.
  intros Hw. destruct w as [[store outcomes] d tr]. go_unfold.
  destruct outcomes as [|[e|] rest]; cbn in *; try discriminate;
    apply lookup_delete_eq.
Qed.

(** The list invalidation of the manga use case removes no paginated
    list entry. *)
Lemma invalidateMangaListCache_keeps_lists (limit offset : Z) (w : World DB) :
  kv (redis (snd (mangaUseCase.invalidateMangaListCache w)))
    !! mangaUseCase.mangaListKey limit offset
  = kv (redis w) !! mangaUseCase.mangaListKey limit offset.
Proof.
  apply CacheRepository_Delete_other, mangaListKey_not_wildcard.
Qed.

(** By contrast the list invalidation of the chapter use case names the
    very key [ListByManga] reads. *)
Lemma invalidateChapterListCache_removes_list (mangaID : Z) (w : World DB) :
  hd None (wire (redis w)) = None ->
  kv (redis (snd (chapterUseCase.invalidateChapterListCache mangaID w)))
    !! chapterUseCase.chapterListKey mangaID = None.
Proof. apply CacheRepository_Delete_same. Qed.

Ltac keep_list :=
  repeat first
    [ reflexivity
    | rewrite lookup_delete_ne by
        (first [ apply not_eq_sym, mangaListKey_not_wildcard
               | apply not_eq_sym, mangaListKey_not_mangaKey ]) ].

(** Every write path of the manga use case returns with the paginated
    list entries of the cache exactly as it found them. *)
Lemma Create_keeps_lists (manga : Manga) (limit offset : Z) (w : World DB) :
  kv (redis (snd (mangaUseCase.Create manga w))) !! mangaUseCase.mangaListKey limit offset
  = kv (redis w) !! mangaUseCase.mangaListKey limit offset.
Proof.
  unfold mangaUseCase.Create. go_unfold. break_all; keep_list.
Qed.

Lemma Update_keeps_lists (manga : Manga) (limit offset : Z) (w : World DB) :
  kv (redis (snd (mangaUseCase.Update manga w))) !! mangaUseCase.mangaListKey limit offset
  = kv (redis w) !! mangaUseCase.mangaListKey limit offset.
Proof.
  unfold mangaUseCase.Update. go_unfold. break_all; keep_list.
Qed.

Lemma Delete_keeps_lists (id limit offset : Z) (w : World DB) :
  kv (redis (snd (mangaUseCase.Delete id w))) !! mangaUseCase.mangaListKey limit offset
  = kv (redis w) !! mangaUseCase.mangaListKey limit offset.
Proof.
  unfold mangaUseCase.Delete. go_unfold. break_all; keep_list.
Qed.

(** An unfiltered [List] whose cache entry is present, not empty and
    decodable returns the decoded entry after one cache read and nothing
    else: the repository is not asked. *)
Lemma List_serves_cached_list (filter : MangaFilter) (w : World DB)
      (data : string) (ttl : Duration) (mangas : list Manga) :
  mangaUseCase.unfiltered filter = true ->
  hd None (wire (redis w)) = None ->
  kv (redis w) !! mangaUseCase.mangaListKey (Filter_Limit filter) (Filter_Offset filter)
  = Some (data, ttl) ->
  data <> "" ->
  Unmarshal data = Ok mangas ->
  mangaUseCase.List filter w
  = (Ok mangas,
     mkWorld (mkRedis (kv (redis w)) (tl (wire (redis w)))) (db w)
             (trace w ++ [CacheGet (mangaUseCase.mangaListKey (Filter_Limit filter)
                                                              (Filter_Offset filter))])).
Proof.
  intros Hun Hwire Hkv Hne Hdec. apply String.eqb_neq in Hne.
  destruct w as [[store outcomes] d tr]. cbn in Hwire, Hkv.
  unfold mangaUseCase.List. rewrite Hun. go_unfold.
  destruct outcomes as [|[fault|] rest]; cbn in Hwire; try discriminate;
    cbn; rewrite Hkv; cbn; rewrite Hne; cbn; rewrite Hdec; reflexivity.
Qed.

(** Hence the list cached before a [Create] is what the unfiltered [List]
    after it returns, for every limit and offset. *)
Lemma List_after_Create_is_stale (manga : Manga) (filter : MangaFilter) (w : World DB)
      (data : string) (ttl : Duration) (mangas : list Manga) :
  mangaUseCase.unfiltered filter = true ->
  kv (redis w) !! mangaUseCase.mangaListKey (Filter_Limit filter) (Filter_Offset filter)
  = Some (data, ttl) ->
  data <> "" ->
  Unmarshal data = Ok mangas ->
  hd None (wire (redis (snd (mangaUseCase.Create manga w)))) = None ->
  fst (mangaUseCase.List filter (snd (mangaUseCase.Create manga w))) = Ok mangas.
Proof.
  intros Hun Hkv Hne Hdec Hwire.
  rewrite (List_serves_cached_list filter _ data ttl mangas); auto.
  now rewrite Create_keeps_lists.
Qed.

Lemma unfiltered_false (filter : MangaFilter) :
  Filter_Title filter <> "" \/ Filter_Status filter <> "" \/ Filter_Genres filter <> [] ->
  mangaUseCase.unfiltered filter = false.
Proof.
  unfold mangaUseCase.unfiltered.
  intros [H | [H | H]].
  - apply String.eqb_neq in H. now rewrite H.
  - apply String.eqb_neq in H. rewrite H. apply andb_false_intro1, andb_false_r.
  - destruct (Filter_Genres filter); [congruence |].
    apply andb_false_r.
Qed.

Lemma unfiltered_true (filter : MangaFilter) :
  Filter_Title filter = "" -> Filter_Status filter = "" -> Filter_Genres filter = [] ->
  mangaUseCase.unfiltered filter = true.
Proof.
  unfold mangaUseCase.unfiltered. intros -> -> ->. reflexivity.
Qed.

(** C8. With a title, a status or a genre in the filter, [List] is the
    repository's [List] and nothing else: its result is the repository's
    result, the only call it makes is that one, and the cache (entries
    and connection alike) is left as it was.  With none of them, the
    first call [List] makes reads the cache under
    [manga:list:<limit>:<offset>]. *)
Theorem C8_filtered_list_bypasses_cache (filter : MangaFilter) (w : World DB) :
  (Filter_Title filter <> "" \/ Filter_Status filter <> "" \/ Filter_Genres filter <> [] ->
   mangaUseCase.List filter w
   = (fst (MangaRepository_List filter (db w)),
      mkWorld (redis w) (snd (MangaRepository_List filter (db w)))
              (trace w ++ [MangaRepo_List filter])))
  /\ (Filter_Title filter = "" /\ Filter_Status filter = "" /\ Filter_Genres filter = [] ->
      exists rest,
        trace (snd (mangaUseCase.List filter w))
        = (trace w
           ++ CacheGet (mangaUseCase.mangaListKey (Filter_Limit filter)
                                                  (Filter_Offset filter))
           :: rest)%list).
Proof.
  split.
  - intros H. apply unfiltered_false in H.
    unfold mangaUseCase.List. rewrite H. go_unfold.
    destruct (MangaRepository_List filter _) as [[mangas | err] d]; reflexivity.
  - intros (Ht & Hs & Hg).
    unfold mangaUseCase.List. rewrite (unfiltered_true _ Ht Hs Hg). go_unfold.
    break_all; rewrite <- ?app_assoc; cbn; eexists; reflexivity.
Qed.

(** C5. On a cold cache a failing loader makes [GetByID] return the
    loader's error itself, and the call neither changes an entry of the
    cache nor issues a cache [Set]. *)
Theorem C5_loader_error_no_cache_write
  (id : Z) (w : World DB) (e : error) (d' : DB) :
  kv (redis w) !! mangaUseCase.mangaKey id = None ->
  MangaRepository_GetByID id (db w) = (Err e, d') ->
  exists w' delta,
    mangaUseCase.GetByID id w = (Err e, w')
    /\ kv (redis w') = kv (redis w)
    /\ trace w' = (trace w ++ delta)%list
    /\ calls isCacheSet delta = 0%nat.
Proof.
  intros Hcold Hrepo. destruct w as [[store outcomes] d tr].
  unfold mangaUseCase.GetByID. go_unfold. cbn in Hcold, Hrepo.
  destruct outcomes as [|[fault|] rest]; cbn; rewrite ?Hcold; cbn;
    try destruct (negb _); cbn; rewrite Hrepo; rewrite <- ?app_assoc; cbn;
    eexists _, _; (split; [reflexivity |]); cbn; (split; [reflexivity |]);
    (split; [reflexivity |]); reflexivity.
Qed.

(** C4. While the entry of an entity is in the cache, is not empty and
    decodes, and the read reaches the cache, [GetByID] returns the
    decoded entry and makes no call to the repository's [GetByID]: for
    manga, and for chapters (whose result carries the cached chapter). *)
Theorem C4_cache_hit_skips_repository :
  (forall (id : Z) (w : World DB) (data : string) (ttl : Duration) (manga : Manga),
      hd None (wire (redis w)) = None ->
      kv (redis w) !! mangaUseCase.mangaKey id = Some (data, ttl) ->
      data <> "" ->
      Unmarshal data = Ok manga ->
      exists w' delta,
        mangaUseCase.GetByID id w = (Ok manga, w')
        /\ trace w' = (trace w ++ delta)%list
        /\ calls isMangaRepo_GetByID delta = 0%nat)
  /\ (forall (id : Z) (w : World DB) (data : string) (ttl : Duration) (chapter : Chapter),
      hd None (wire (redis w)) = None ->
      kv (redis w) !! chapterUseCase.chapterKey id = Some (data, ttl) ->
      data <> "" ->
      Unmarshal data = Ok chapter ->
      exists w' delta views,
        chapterUseCase.GetByID id w = (Ok (mkChapterWithStats chapter views), w')
        /\ trace w' = (trace w ++ delta)%list
        /\ calls isChapterRepo_GetByID delta = 0%nat).
Proof.
  split.
  - intros id [[store outcomes] d tr] data ttl manga Hwire Hkv Hne Hdec.
    apply String.eqb_neq in Hne.
    unfold mangaUseCase.GetByID. go_unfold. cbn in Hwire, Hkv.
    destruct outcomes as [|[fault|] rest]; cbn in Hwire; try discriminate;
      cbn; rewrite Hkv; cbn; rewrite Hne; cbn; rewrite Hdec;
      destruct (AnalyticsRepository_RecordMangaView id d) as [[err|] d1];
      cbn; rewrite <- ?app_assoc; cbn;
      eexists _, _; (split; [reflexivity |]); (split; [reflexivity |]); reflexivity.
  - intros id [[store outcomes] d tr] data ttl chapter Hwire Hkv Hne Hdec.
    apply String.eqb_neq in Hne.
    unfold chapterUseCase.GetByID. go_unfold. cbn in Hwire, Hkv.
    destruct outcomes as [|[fault|] rest]; cbn in Hwire; try discriminate;
      cbn; rewrite Hkv; cbn; rewrite Hne; cbn; rewrite Hdec;
      destruct (AnalyticsRepository_GetChapterViews id d) as [[views|err0] d1];
      cbn;
      destruct (AnalyticsRepository_RecordChapterView id _ d1) as [[err|] d2];
      cbn; rewrite <- ?app_assoc; cbn;
      eexists _, _, _; (split; [reflexivity |]); (split; [reflexivity |]); reflexivity.
Qed.

(** Whatever the cache does, [GetByID] answers with the repository's
    result or with an entity decoded from the cache entry. *)
Lemma GetByID_result_source (id : Z) (w : World DB) :
  fst (mangaUseCase.GetByID id w) = fst (MangaRepository_GetByID id (db w))
  \/ exists data ttl manga,
       kv (redis w) !! mangaUseCase.mangaKey id = Some (data, ttl)
       /\ data <> "" /\ Unmarshal data = Ok manga
       /\ fst (mangaUseCase.GetByID id w) = Ok manga.
Proof.
  destruct w as [[store outcomes] d tr].
  unfold mangaUseCase.GetByID. go_unfold.
  break_all;
    first
      [ left; reflexivity
      | right; do 3 eexists; repeat split; eauto;
        match goal with
        | H : negb (String.eqb ?s "") = true |- ?s <> "" =>
            apply String.eqb_neq; now apply negb_true_iff in H
        end ].
Qed.

(** C6 (amended). If whatever decodable entry the cache holds for the
    key decodes to the entity the repository returns, the result of
    [GetByID] is the repository's result whichever cache commands fail,
    so two runs that differ only in those outcomes agree.  In every
    case the result is the repository's result or a decoded cache entry
    with a nil error: an error of the cache is never the result. *)
Theorem C6_result_independent_of_cache_failures (id : Z) (w : World DB) :
  ((forall data ttl manga,
       kv (redis w) !! mangaUseCase.mangaKey id = Some (data, ttl) ->
       data <> "" ->
       Unmarshal data = Ok manga ->
       fst (MangaRepository_GetByID id (db w)) = Ok manga) ->
   forall outcomes1 outcomes2,
     fst (mangaUseCase.GetByID id (withWire w outcomes1))
     = fst (mangaUseCase.GetByID id (withWire w outcomes2))
     /\ fst (mangaUseCase.GetByID id (withWire w outcomes1))
        = fst (MangaRepository_GetByID id (db w)))
  /\ (forall outcomes,
        fst (mangaUseCase.GetByID id (withWire w outcomes))
        = fst (MangaRepository_GetByID id (db w))
        \/ exists data ttl manga,
             kv (redis w) !! mangaUseCase.mangaKey id = Some (data, ttl)
             /\ Unmarshal data = Ok manga
             /\ fst (mangaUseCase.GetByID id (withWire w outcomes)) = Ok manga).
Proof.
  assert (Hsrc : forall outcomes,
             fst (mangaUseCase.GetByID id (withWire w outcomes))
             = fst (MangaRepository_GetByID id (db w))
             \/ exists data ttl manga,
                  kv (redis w) !! mangaUseCase.mangaKey id = Some (data, ttl)
                  /\ data <> "" /\ Unmarshal data = Ok manga
                  /\ fst (mangaUseCase.GetByID id (withWire w outcomes)) = Ok manga).
  { intros outcomes. apply (GetByID_result_source id (withWire w outcomes)). }
  split.
  - intros Hcoherent.
    assert (Hrepo : forall outcomes,
               fst (mangaUseCase.GetByID id (withWire w outcomes))
               = fst (MangaRepository_GetByID id (db w))).
    { intros outcomes.
      destruct (Hsrc outcomes) as [H | (data & ttl & manga & Hkv & Hne & Hdec & H)];
        [exact H |].
      rewrite H. symmetry. eapply Hcoherent; eauto. }
    intros outcomes1 outcomes2. split; [| apply Hrepo].
    now rewrite !Hrepo.
  - intros outcomes.
    destruct (Hsrc outcomes) as [H | (data & ttl & manga & Hkv & Hne & Hdec & H)];
      [left; exact H | right; exists data, ttl, manga; auto].
Qed.
End CacheAside.

(* ===================================================================== *)
(** * The token service                                                   *)
(* ===================================================================== *)

Lemma TruncateSecond_le (t : Time) : TruncateSecond t <= t.
Proof.
  unfold TruncateSecond.
  pose proof (Z.mod_pos_bound t Second ltac:(reflexivity)). lia.
Qed.

Lemma time_Now_spec (c : Clock) :
  wall c <= fst (time_Now c) /\ wall (snd (time_Now c)) = fst (time_Now c).
Proof.
  unfold time_Now. destruct (ticks c) as [|d rest]; cbn; split; lia.
Qed.

Ltac read_clock :=
  match goal with
  | |- context [time_Now ?c] =>
      let t := fresh "t" in
      let c' := fresh "c" in
      let E := fresh "E" in
      let H := fresh "H" in
      pose proof (time_Now_spec c) as H;
      destruct (time_Now c) as [t c'] eqn:E; cbn [fst snd] in H
  end.

Ltac jwt_unfold :=
  cbv beta iota zeta delta
    [bind ret fst snd
     JWTSvc.GenerateTokenPair JWTSvc.GenerateAccessToken JWTSvc.GenerateRefreshToken
     JWTSvc.ValidateAccessToken JWTSvc.ValidateRefreshToken JWTSvc.validateToken
     jwt.ParseWithClaims jwt.SignedString jwt.isHMAC jwt.Verify jwt.Valid
     jwt.NewNumericDate jwt.VerifyExpiresAt jwt.VerifyIssuedAt jwt.VerifyNotBefore
     jwt.Token_Valid jwt.Token_Claims negb].

Section TokenService.
Context {mac : jwt.HMAC} (order : jwt.ParserOrder) (s : JWTService).

(** Issuing a pair cannot fail, and tells what the access token holds. *)
Lemma GenerateTokenPair_spec (user : User) (c0 : Clock) :
  exists claims rclaims c1,
    JWTSvc.GenerateTokenPair s user c0
    = (Ok (mkTokenPair
             (jwt.Compact jwt.SigningMethodHS256 claims
                (jwt.hmac jwt.SigningMethodHS256 (accessSecret s)
                          (jwt.SigningMethodHS256, claims)))
             (jwt.Compact jwt.SigningMethodHS256 rclaims
                (jwt.hmac jwt.SigningMethodHS256 (refreshSecret s)
                          (jwt.SigningMethodHS256, rclaims)))), c1)
    /\ jwt.UserID claims = User_ID user
    /\ jwt.Claims_Username claims = Username user
    /\ jwt.Claims_Role claims = Role user
    /\ jwt.ExpiresAt claims
       = Some (TruncateSecond (fst (time_Now c0) + accessExpires s))
    /\ (exists iat, jwt.IssuedAt claims = Some iat /\ iat <= wall c1)
    /\ (exists nbf, jwt.NotBefore claims = Some nbf /\ nbf <= wall c1)
    /\ jwt.UserID rclaims = User_ID user.
Proof.
  jwt_unfold. do 6 read_clock.
  eexists _, _, _. split; [reflexivity |]. cbn.
  repeat split; try reflexivity.
  - eexists. split; [reflexivity |].
    pose proof (TruncateSecond_le t0). lia.
  - eexists. split; [reflexivity |].
    pose proof (TruncateSecond_le t1). lia.
Qed.

(** A token signed with the secret it is validated against, read inside
    its validity window, yields its claims. *)
Lemma validateToken_valid (claims : jwt.Claims) (secret : string) (c : Clock)
      (exp iat nbf : Time) :
  jwt.ExpiresAt claims = Some exp -> fst (time_Now c) < exp ->
  jwt.IssuedAt claims = Some iat -> iat <= fst (time_Now c) ->
  jwt.NotBefore claims = Some nbf -> nbf <= fst (time_Now c) ->
  fst (JWTSvc.validateToken order
         (jwt.Compact jwt.SigningMethodHS256 claims
            (jwt.hmac jwt.SigningMethodHS256 secret (jwt.SigningMethodHS256, claims)))
         secret c)
  = Ok claims.
Proof.
  intros Hexp Hlt Hiat Hle Hnbf Hle'.
  destruct (time_Now c) as [now c'] eqn:E. cbn [fst] in *.
  apply Z.ltb_lt in Hlt. apply Z.leb_le in Hle, Hle'.
  destruct order; jwt_unfold; rewrite String.eqb_refl, Hexp, Hiat, Hnbf, E;
    cbv beta iota zeta; rewrite Hlt, Hle, Hle'; reflexivity.
Qed.


(** Read at or after its expiry, a token signed with the secret it is
    validated against is refused with the service's own expiry error. *)
Lemma validateToken_expired (claims : jwt.Claims) (secret : string) (c : Clock)
      (exp : Time) :
  jwt.ExpiresAt claims = Some exp -> exp <= fst (time_Now c) ->
  fst (JWTSvc.validateToken order
         (jwt.Compact jwt.SigningMethodHS256 claims
            (jwt.hmac jwt.SigningMethodHS256 secret (jwt.SigningMethodHS256, claims)))
         secret c)
  = Err (errorString "токен истек").
Proof.
  intros Hexp Hle.
  destruct (time_Now c) as [now c'] eqn:E. cbn [fst] in *.
  assert (Hlt : (now <? exp)%Z = false) by (apply Z.ltb_ge; lia).
  destruct order; jwt_unfold; rewrite String.eqb_refl, Hexp, E;
    cbv beta iota zeta; rewrite Hlt;
    destruct (jwt.IssuedAt claims) as [iat|]; cbv beta iota zeta;
    destruct (jwt.NotBefore claims) as [nbf|]; cbv beta iota zeta;
    try destruct (iat <=? now)%Z; try destruct (nbf <=? now)%Z; reflexivity.
Qed.


(** Two secrets under which a token's signing input has the same MAC
    are the same secret to the validation of that token. *)
Lemma validateToken_same_MAC_at
      (method : jwt.SigningMethod) (claims : jwt.Claims) (signature k1 k2 : string)
      (c : Clock) :
  jwt.hmac method k1 (method, claims) = jwt.hmac method k2 (method, claims) ->
  JWTSvc.validateToken order (jwt.Compact method claims signature) k1 c
  = JWTSvc.validateToken order (jwt.Compact method claims signature) k2 c.
Proof.
  intros Hmac.
  unfold JWTSvc.validateToken, jwt.ParseWithClaims, jwt.Verify.
  destruct (jwt.isHMAC method); cbn [negb]; [| reflexivity].
  rewrite Hmac. reflexivity.
Qed.

Lemma validateToken_same_MAC (tok : jwt.tokenString) (k1 k2 : string) (c : Clock) :
  (forall method input, jwt.hmac method k1 input = jwt.hmac method k2 input) ->
  JWTSvc.validateToken order tok k1 c = JWTSvc.validateToken order tok k2 c.
Proof.
  intros Hmac.
  destruct tok as [raw | alg claims sg | method claims sg]; try reflexivity.
  apply validateToken_same_MAC_at, Hmac.
Qed.
End TokenService.

(* ===================================================================== *)
(** * crypto/hmac: secrets that sign alike                                *)
(* ===================================================================== *)

Lemma length_app_string (a b : string) :
  String.length (a +:+ b) = (String.length a + String.length b)%nat.
Proof.
  induction a as [|c a IH]; [reflexivity |].
  change (String c a +:+ b) with (String c (a +:+ b)). cbn [String.length].
  now rewrite IH.
Qed.

Lemma copy_zero_byte (n : nat) (key : string) :
  (String.length key < n)%nat ->
  crypto_hmac.copy n (key +:+ String Ascii.zero "") = crypto_hmac.copy n key.
Proof.
  revert key. induction n as [|n IH]; intros key Hlen; [lia |].
  destruct key as [|b key].
  - change ("" +:+ String Ascii.zero "") with (String Ascii.zero "").
    cbn [crypto_hmac.copy]. destruct n; reflexivity.
  - change (String b key +:+ String Ascii.zero "")
      with (String b (key +:+ String Ascii.zero "")).
    cbn [crypto_hmac.copy String.length] in *. f_equal. apply IH. lia.
Qed.

Lemma BlockSize_min (method : jwt.SigningMethod) :
  (64 <= crypto_hmac.BlockSize method)%nat.
Proof. destruct method; cbn; lia. Qed.

Section SameKey.
Variable Sum : jwt.SigningMethod -> string -> string.
Variable signingString : jwt.SigningMethod * jwt.Claims -> string.

(** crypto/hmac fills a short key up with zero bytes: a key of fewer
    bytes than a block and the same key followed by a zero byte give
    every message the same MAC. *)
Lemma MAC_zero_padded_key (method : jwt.SigningMethod) (key msg : string) :
  (String.length key < crypto_hmac.BlockSize method)%nat ->
  crypto_hmac.MAC Sum method (key +:+ String Ascii.zero "") msg
  = crypto_hmac.MAC Sum method key msg.
Proof.
  intros Hlen. unfold crypto_hmac.MAC, crypto_hmac.New.
  rewrite length_app_string. cbn [String.length].
  replace (crypto_hmac.BlockSize method <? String.length key + 1)%nat with false
    by (symmetry; apply Nat.ltb_ge; lia).
  replace (crypto_hmac.BlockSize method <? String.length key)%nat with false
    by (symmetry; apply Nat.ltb_ge; lia).
  rewrite copy_zero_byte by exact Hlen. reflexivity.
Qed.

(** crypto/hmac replaces a key longer than a block by its digest: such
    a key and its digest give every message the same MAC. *)
Lemma MAC_long_key (method : jwt.SigningMethod) (key msg : string) :
  (crypto_hmac.BlockSize method < String.length key)%nat ->
  (String.length (Sum method key) <= crypto_hmac.BlockSize method)%nat ->
  crypto_hmac.MAC Sum method (Sum method key) msg = crypto_hmac.MAC Sum method key msg.
Proof.
  intros Hlong Hdigest. unfold crypto_hmac.MAC, crypto_hmac.New.
  replace (crypto_hmac.BlockSize method <? String.length (Sum method key))%nat with false
    by (symmetry; apply Nat.ltb_ge; lia).
  replace (crypto_hmac.BlockSize method <? String.length key)%nat with true
    by (symmetry; apply Nat.ltb_lt; lia).
  reflexivity.
Qed.

(** Over crypto/hmac, whatever the digest: a service whose refresh secret
    is its access secret followed by a zero byte validates every token
    string as a refresh token just as it validates it as an access
    token. *)
Lemma zero_padded_refresh_secret
      (order : jwt.ParserOrder) (s : JWTService) (tok : jwt.tokenString) (c : Clock) :
  (String.length (accessSecret s) < 64)%nat ->
  refreshSecret s = accessSecret s +:+ String Ascii.zero "" ->
  JWTSvc.ValidateRefreshToken
    (mac := crypto_hmac.SigningMethodHMAC Sum signingString) order s tok c
  = JWTSvc.ValidateAccessToken
      (mac := crypto_hmac.SigningMethodHMAC Sum signingString) order s tok c.
Proof.
  intros Hlen Hrefresh.
  unfold JWTSvc.ValidateRefreshToken, JWTSvc.ValidateAccessToken. rewrite Hrefresh.
  apply validateToken_same_MAC. intros method input.
  cbv [jwt.hmac crypto_hmac.SigningMethodHMAC].
  apply MAC_zero_padded_key. pose proof (BlockSize_min method). lia.
Qed.

(** So does, for the HS256 tokens the service issues, a service whose
    access secret is longer than the 64 bytes of a SHA-256 block and
    whose refresh secret is the digest of the access secret. *)
Lemma hashed_refresh_secret
      (order : jwt.ParserOrder) (s : JWTService) (claims : jwt.Claims)
      (signature : string) (c : Clock) :
  (64 < String.length (accessSecret s))%nat ->
  refreshSecret s = Sum jwt.SigningMethodHS256 (accessSecret s) ->
  (String.length (refreshSecret s) <= 64)%nat ->
  JWTSvc.ValidateRefreshToken
    (mac := crypto_hmac.SigningMethodHMAC Sum signingString) order s
    (jwt.Compact jwt.SigningMethodHS256 claims signature) c
  = JWTSvc.ValidateAccessToken
      (mac := crypto_hmac.SigningMethodHMAC Sum signingString) order s
      (jwt.Compact jwt.SigningMethodHS256 claims signature) c.
Proof.
  intros Hlen Hrefresh Hdigest.
  unfold JWTSvc.ValidateRefreshToken, JWTSvc.ValidateAccessToken.
  rewrite Hrefresh in *.
  apply validateToken_same_MAC_at. cbv [jwt.hmac crypto_hmac.SigningMethodHMAC].
  apply MAC_long_key; cbn [crypto_hmac.BlockSize]; lia.
Qed.
End SameKey.

(* ===================================================================== *)
(** * The user use case                                                   *)
(* ===================================================================== *)

Ltac auth_unfold :=
  cbv beta iota zeta delta
    [bind ret fst snd authEmit onUserDB onClock userDB clock authTrace
     userUseCase.log_Error userUseCase.userRepo_Create userUseCase.userRepo_GetByID
     userUseCase.userRepo_GetByUsername userUseCase.userRepo_GetByEmail
     userUseCase.userRepo_Update userUseCase.jwtService_ValidateRefreshToken
     userUseCase.jwtService_GenerateTokenPair].

Ltac split_validateToken r c' :=
  match goal with
  | |- context [JWTSvc.validateToken ?o ?t ?k ?c] =>
      destruct (JWTSvc.validateToken o t k c) as [r c']
  end.

Section UserUseCase.
Context {DB : Type} {userRepo : UserRepository DB}.
Context {mac : jwt.HMAC} {crypt : Bcrypt} (order : jwt.ParserOrder) (s : JWTService).

(** C9. Whatever [Register], [GetProfile] and [UpdateProfile] return as
    a user has the empty string as its [Password]. *)
Theorem C9_returned_user_has_no_password
  (reg : UserRegistration) (userID : Z) (user : User) (w1 w2 w3 : AuthWorld DB) :
  match fst (userUseCase.Register reg w1) with
  | Ok createdUser => Password createdUser = ""
  | Err _ => True
  end
  /\ match fst (userUseCase.GetProfile userID w2) with
     | Ok profile => Password profile = ""
     | Err _ => True
     end
  /\ match fst (userUseCase.UpdateProfile user w3) with
     | Ok updatedUser => Password updatedUser = ""
     | Err _ => True
     end.
Proof.
  unfold userUseCase.Register, userUseCase.GetProfile, userUseCase.UpdateProfile.
  auth_unfold. repeat split; break_all; exact I || reflexivity.
Qed.

(** Validating the refresh token touches neither the user store nor the
    trace beyond recording the call. *)
Lemma ValidateRefreshToken_world (tok : jwt.tokenString) (w w1 : AuthWorld DB)
      (r : GoResult jwt.Claims) :
  userUseCase.jwtService_ValidateRefreshToken order s tok w = (r, w1) ->
  userDB w1 = userDB w
  /\ authTrace w1 = (authTrace w ++ [JWT_ValidateRefreshToken tok])%list.
Proof.
  auth_unfold.
  destruct (JWTSvc.ValidateRefreshToken order s tok _) as [r' c'].
  intros H. injection H as _ <-. split; reflexivity.
Qed.

(** The expired-token branch of the refresh flow. *)
Lemma RefreshToken_expired (claims : jwt.Claims) (exp : Time) (w : AuthWorld DB) :
  jwt.ExpiresAt claims = Some exp ->
  (exp <= fst (time_Now (clock w)))%Z ->
  fst (userUseCase.RefreshToken order s
         (jwt.Compact jwt.SigningMethodHS256 claims
            (jwt.hmac jwt.SigningMethodHS256 (refreshSecret s)
                      (jwt.SigningMethodHS256, claims))) w)
  = Err NewJWTExpiredError.
Proof.
  intros Hexp Hle. destruct w as [d c tr]. cbn [clock] in Hle.
  pose proof (validateToken_expired order claims (refreshSecret s) c exp Hexp Hle) as Hv.
  unfold userUseCase.RefreshToken. auth_unfold.
  unfold JWTSvc.ValidateRefreshToken.
  split_validateToken r c'. cbn in Hv. subst r. reflexivity.
Qed.
End UserUseCase.

Section Middleware.
Context {mac : jwt.HMAC} (order : jwt.ParserOrder) (s : JWTService).

(** The expired-token answer of the access flow. *)
Lemma Authentication_expired (claims : jwt.Claims) (exp : Time) (c : Clock) :
  jwt.ExpiresAt claims = Some exp ->
  (exp <= fst (time_Now c))%Z ->
  fst (middleware.Authentication order s
         (HeaderTwoParts "Bearer"
            (jwt.Compact jwt.SigningMethodHS256 claims
               (jwt.hmac jwt.SigningMethodHS256 (accessSecret s)
                         (jwt.SigningMethodHS256, claims)))) c)
  = ErrorResponse StatusUnauthorized "JWT_INVALID" "Недействительный токен авторизации".
Proof.
  intros Hexp Hle.
  pose proof (validateToken_expired order claims (accessSecret s) c exp Hexp Hle) as Hv.
  unfold middleware.Authentication, JWTSvc.ValidateAccessToken, bind, ret.
  cbn [String.eqb Ascii.eqb Bool.eqb negb].
  split_validateToken r c'. cbn in Hv. subst r. reflexivity.
Qed.

(** No answer of the middleware carries the code JWT_EXPIRED. *)
Lemma Authentication_never_reports_expiry (h : Authorization) (c : Clock) :
  match fst (middleware.Authentication order s h c) with
  | ErrorResponse _ code _ => code <> "JWT_EXPIRED"
  | Next _ _ _ => True
  end.
Proof.
  unfold middleware.Authentication, bind, ret.
  destruct h as [| raw | scheme credentials]; cbn; try discriminate.
  destruct (negb (String.eqb scheme "Bearer")); cbn; try discriminate.
  destruct (JWTSvc.ValidateAccessToken order s credentials c) as [[claims | err] c'];
    cbn; [exact I | discriminate].
Qed.
End Middleware.

(* ===================================================================== *)
(** * The user use case over the users table                              *)
(* ===================================================================== *)

Ltac pg_unfold :=
  cbv beta iota zeta delta
    [UserRepository_GetByID UserRepository_Update PostgresUserRepository
     pg.GetByID pg.Update pg.SELECT_by_id pg.UPDATE pg.exec pg.logged
     users users_id_seq pg_now pg_wire pg_log] in *.

Lemma pg_GetByID_found (id : Z) (p : Postgres) (user : User) (p' : Postgres) :
  pg.GetByID id p = (Ok user, p') ->
  users p' = users p
  /\ exists row, users p !! id = Some row /\ user = pg.toUser id row.
Proof.
  destruct p as [t seq now outcomes lg]. pg_unfold.
  destruct outcomes as [|[fault|] rest]; cbn;
    try destruct (t !! id) as [row|] eqn:Hrow; cbn;
    try destruct (sameError _ _); intros H; inversion H; subst; eauto.
Qed.

Lemma pg_GetByID_missing (id : Z) (p : Postgres) :
  users p !! id = None -> isOk (fst (pg.GetByID id p)) = false.
Proof.
  destruct p as [t seq now outcomes lg]. pg_unfold. intros Hrow.
  destruct outcomes as [|[fault|] rest]; cbn; rewrite ?Hrow; cbn;
    try destruct (sameError _ _); reflexivity.
Qed.

Section UserUseCaseOverPostgres.
Context {mac : jwt.HMAC} (order : jwt.ParserOrder) (s : JWTService).

(** C7. Once the refresh token has been validated, [RefreshToken] asks
    the user store for the user of the token's user ID.  If the store
    answers with an error (as it does when no such user exists), that
    error is the result and no pair is generated.  If it answers with a
    user, that user is the stored row of that ID, and the pair is
    generated from it: the claims of the new access token carry the
    token's user ID and the row's username and role. *)
Theorem C7_refresh_refetches_user
  (tok : jwt.tokenString) (w w1 : AuthWorld Postgres) (claims : jwt.Claims) :
  userUseCase.jwtService_ValidateRefreshToken order s tok w = (Ok claims, w1) ->
  match pg.GetByID (jwt.UserID claims) (userDB w1) with
  | (Err e, _) =>
      fst (userUseCase.RefreshToken order s tok w) = Err e
      /\ authCalls isJWT_GenerateTokenPair
           (authTrace (snd (userUseCase.RefreshToken order s tok w)))
         = authCalls isJWT_GenerateTokenPair (authTrace w)
  | (Ok user, _) =>
      (exists row,
          users (userDB w) !! jwt.UserID claims = Some row
          /\ user = pg.toUser (jwt.UserID claims) row)
      /\ exists pair ac sig,
          fst (userUseCase.RefreshToken order s tok w) = Ok pair
          /\ AccessToken pair = jwt.Compact jwt.SigningMethodHS256 ac sig
          /\ jwt.UserID ac = jwt.UserID claims
          /\ jwt.Claims_Username ac = Username user
          /\ jwt.Claims_Role ac = Role user
          /\ authTrace (snd (userUseCase.RefreshToken order s tok w))
             = (authTrace w
                ++ [JWT_ValidateRefreshToken tok;
                    UserRepo_GetByID (jwt.UserID claims);
                    JWT_GenerateTokenPair user])%list
  end
  /\ (users (userDB w) !! jwt.UserID claims = None ->
      isOk (fst (pg.GetByID (jwt.UserID claims) (userDB w1))) = false).
Proof.
  intros Hval.
  destruct (ValidateRefreshToken_world order s tok w w1 _ Hval) as [Hdb Htr].
  destruct w as [d c tr], w1 as [d1 c1 tr1]. cbn in Hdb, Htr. subst d1 tr1.
  split.
  - unfold userUseCase.RefreshToken, bind. rewrite Hval.
    unfold userUseCase.userRepo_GetByID, userUseCase.jwtService_GenerateTokenPair,
      userUseCase.log_Error.
    auth_unfold. cbn [UserRepository_GetByID PostgresUserRepository].
    destruct (pg.GetByID (jwt.UserID claims) d) as [[user | e] p'] eqn:Hget.
    + apply pg_GetByID_found in Hget. destruct Hget as (_ & row & Hrow & ->).
      split; [eauto |].
      destruct (GenerateTokenPair_spec s (pg.toUser (jwt.UserID claims) row) c1)
        as (ac & rc & c2 & Hgen & Hid & Hname & Hrole & _).
      rewrite Hgen.
      eexists _, ac, _. split; [reflexivity |]. split; [reflexivity |].
      rewrite <- !app_assoc. cbn in *. repeat split; auto.
    + split; [reflexivity |].
      unfold authCalls.
      rewrite !List.filter_app, !length_app. cbn. lia.
  - intros Hnone. apply pg_GetByID_missing. exact Hnone.
Qed.

(** The users table after [UpdateProfile]: as before, or with the row of
    the user rewritten from its own role, password hash and creation
    time and the username and email of the request. *)
Lemma UpdateProfile_table (user : User) (w : AuthWorld Postgres) :
  users (userDB (snd (userUseCase.UpdateProfile user w))) = users (userDB w)
  \/ exists r,
       users (userDB w) !! User_ID user = Some r
       /\ users (userDB (snd (userUseCase.UpdateProfile user w)))
          = <[User_ID user :=
                mkUserRow (Username user) (Email user) (password_hash r) (role r)
                          (created_at r) (pg_now (userDB w))]> (users (userDB w)).
Proof.
  destruct w as [[t seq now outcomes lg] c tr].
  unfold userUseCase.UpdateProfile. auth_unfold. pg_unfold.
  cbn [User_ID Username Email Password Role pg.toUser].
  break_all; same_lookups;
    first [left; reflexivity | right; eexists; split; [reflexivity | reflexivity]].
Qed.

Lemma profileUpdateOnly_refl (except : Z) (t : gmap Z UserRow) :
  profileUpdateOnly except t t.
Proof.
  intros id. destruct (t !! id); auto.
Qed.

Lemma profileUpdateOnly_insert (id : Z) (t : gmap Z UserRow) (r : UserRow)
      (uname mail : string) (now : Time) :
  t !! id = Some r ->
  profileUpdateOnly id t
    (<[id := mkUserRow uname mail (password_hash r) (role r) (created_at r) now]> t).
Proof.
  intros Hr id'. destruct (decide (id' = id)) as [-> | Hne].
  - rewrite Hr, lookup_insert_eq. cbn. repeat split; congruence.
  - rewrite lookup_insert_ne by congruence. destruct (t !! id'); auto.
Qed.

(** C10. [UpdateProfile] leaves every row of the users table with the
    role, the password hash and the creation time it had, creates and
    removes no row, and changes no row but the user's own; the user it
    hands to the repository's [Update] has the stored role and password
    hash and the username and email of the request; and the role and
    password of the request do not influence anything the operation
    does or returns. *)
Theorem C10_UpdateProfile_keeps_role_and_password (user : User) (w : AuthWorld Postgres) :
  profileUpdateOnly (User_ID user) (users (userDB w))
    (users (userDB (snd (userUseCase.UpdateProfile user w))))
  /\ (exists delta,
        authTrace (snd (userUseCase.UpdateProfile user w)) = (authTrace w ++ delta)%list
        /\ forall written, In (UserRepo_Update written) delta ->
             exists r,
               users (userDB w) !! User_ID user = Some r
               /\ written = mkUser (User_ID user) (Username user) (Email user)
                                   (password_hash r) (role r)
                                   (created_at r) (updated_at r))
  /\ (forall rl pw,
        userUseCase.UpdateProfile (withRolePassword user rl pw) w
        = userUseCase.UpdateProfile user w).
Proof.
  split; [| split].
  - destruct (UpdateProfile_table user w) as [-> | (r & Hr & ->)].
    + apply profileUpdateOnly_refl.
    + now apply profileUpdateOnly_insert.
  - destruct w as [[t seq now outcomes lg] c tr].
    unfold userUseCase.UpdateProfile. auth_unfold. pg_unfold.
    cbn [User_ID Username Email Password Role pg.toUser].
    break_all; same_lookups; rewrite <- ?app_assoc; cbn;
      (eexists; split; [reflexivity |]);
      intros written Hin; cbn in Hin;
      repeat (destruct Hin as [Hin | Hin]; try discriminate Hin);
      try contradiction;
      injection Hin as <-; eexists; split; reflexivity.
  - intros rl pw. reflexivity.
Qed.
End UserUseCaseOverPostgres.

(* ===================================================================== *)
(** * The cache-aside wrapper on concrete runs                            *)
(* ===================================================================== *)

Section Runs.
Import Mem.

(** C1. A paginated list cached before a write is still served after
    it.  With [[Berserk]] cached under [manga:list:10:0], each of
    [Create], [Update] and [Delete] succeeds, and the unfiltered [List]
    that follows returns the cached [[Berserk]], which is no longer what
    the repository lists, without calling the repository's [List]. *)
Theorem C1_list_cache_survives_writes :
  (let w1 := snd (mangaUseCase.Create vagabond listed) in
   fst (mangaUseCase.Create vagabond listed) = Ok (withID 2 vagabond)
   /\ fst (mangaUseCase.List (noFilter 10 0) w1) = Ok [berserk]
   /\ fst (MangaRepository_List (noFilter 10 0) (db w1)) = Ok [berserk; withID 2 vagabond]
   /\ calls isMangaRepo_List (trace (snd (mangaUseCase.List (noFilter 10 0) w1))) = 0%nat)
  /\ (let w1 := snd (mangaUseCase.Update renamed listed) in
      fst (mangaUseCase.Update renamed listed) = Ok renamed
      /\ fst (mangaUseCase.List (noFilter 10 0) w1) = Ok [berserk]
      /\ fst (MangaRepository_List (noFilter 10 0) (db w1)) = Ok [renamed]
      /\ calls isMangaRepo_List (trace (snd (mangaUseCase.List (noFilter 10 0) w1))) = 0%nat)
  /\ (let w1 := snd (mangaUseCase.Delete 1 listed) in
      fst (mangaUseCase.Delete 1 listed) = None
      /\ fst (mangaUseCase.List (noFilter 10 0) w1) = Ok [berserk]
      /\ fst (MangaRepository_List (noFilter 10 0) (db w1)) = Ok []
      /\ calls isMangaRepo_List (trace (snd (mangaUseCase.List (noFilter 10 0) w1))) = 0%nat).
Proof. vm_compute. repeat split. Qed.

(** C6, as stated, fails: from the same store and the same cache
    entries, the run whose cache [Get] succeeds returns the cached manga
    and the run whose cache [Get] fails returns the repository's
    not-found error. *)
Lemma C6_counterexample_stale_hit :
  fst (mangaUseCase.GetByID 1 (withWire stale [])) = Ok berserk
  /\ fst (mangaUseCase.GetByID 1 (withWire stale [Some connectionRefused]))
     = Err (NewMangaNotFoundError "1")
  /\ fst (mangaUseCase.GetByID 1 (withWire stale []))
     <> fst (mangaUseCase.GetByID 1 (withWire stale [Some connectionRefused])).
Proof. vm_compute. repeat split. discriminate. Qed.

(** C3. The pair issued to alice at time 0, read 25 hours later (the
    access token) and 8 days later (the refresh token): both tokens are
    well-formed, correctly signed and expired.  The token service
    reports the expiry of the access token as such, the refresh flow
    surfaces JWT_EXPIRED, and the Authentication middleware answers
    with JWT_INVALID. *)
Theorem C3_expired_access_token_answered_as_invalid :
  (forall order,
      fst (JWTSvc.ValidateAccessToken order jwtService (AccessToken issued)
             (mkClock (25 * Hour) []))
      = Err (errorString "токен истек"))
  /\ (forall order,
        fst (userUseCase.RefreshToken order jwtService (RefreshToken issued)
               (authWorld pg0 (8 * 24 * Hour)))
        = Err NewJWTExpiredError)
  /\ (forall order,
        fst (middleware.Authentication order jwtService
               (HeaderTwoParts "Bearer" (AccessToken issued))
               (mkClock (25 * Hour) []))
        = ErrorResponse 401 "JWT_INVALID" "Недействительный токен авторизации").
Proof. repeat split; intros []; vm_compute; reflexivity. Qed.

Lemma append_inj_r (a k1 k2 : string) : a +:+ k1 = a +:+ k2 -> k1 = k2.
Proof.
  induction a as [|c a IH]; cbn; intros H; [exact H |].
  injection H as H. auto.
Qed.


(** Under the two secrets the source spells out the MACs differ, and the
    access token is refused as a refresh token. *)
Example default_secrets_sign_apart :
  fst (JWTSvc.ValidateRefreshToken (mac := hmacAdler) jwt.SignatureFirst jwtService
         (match fst (JWTSvc.GenerateTokenPair (mac := hmacAdler) jwtService aliceUser
                       (mkClock 0 [])) with
          | Ok tokenPair => AccessToken tokenPair
          | Err _ => jwt.Garbage ""
          end) (mkClock Hour []))
  = Err (ValidationError "signature is invalid" jwt.ValidationErrorSignatureInvalid).
Proof. vm_compute. reflexivity. Qed.

(** The operations do return users, passwords blanked. *)
Example GetProfile_alice :
  fst (userUseCase.GetProfile 5 (authWorld pg0 0))
  = Ok (mkUser 5 "alice" "alice@example.com" "" "user" 0 0).
Proof. vm_compute. reflexivity. Qed.

Example Register_bob :
  fst (userUseCase.Register (mkUserRegistration "bob" "bob@example.com" "hunter22")
         (authWorld pg0 0))
  = Ok (mkUser 6 "bob" "bob@example.com" "" "user" 1000 1000).
Proof. vm_compute. reflexivity. Qed.

(** A profile update sent with the role of an administrator and a
    password changes neither. *)
Example UpdateProfile_alice :
  fst (userUseCase.UpdateProfile
         (mkUser 5 "alice2" "alice2@example.com" "letmein" "admin" 0 0)
         (authWorld pg0 0))
  = Ok (mkUser 5 "alice2" "alice2@example.com" "" "user" 0 1000)
  /\ users (userDB (snd (userUseCase.UpdateProfile
                           (mkUser 5 "alice2" "alice2@example.com" "letmein" "admin" 0 0)
                           (authWorld pg0 0)))) !! 5
     = Some (mkUserRow "alice2" "alice2@example.com" "$2a$10$wonderland" "user" 0 1000).
Proof. vm_compute. split; reflexivity. Qed.


(** C4 on a cache that holds manga 1 and chapter 7. *)
Lemma C4_witness :
  (exists w' delta,
      mangaUseCase.GetByID 1 warm = (Ok berserk, w')
      /\ trace w' = (trace warm ++ delta)%list
      /\ calls isMangaRepo_GetByID delta = 0%nat)
  /\ (exists w' delta views,
        chapterUseCase.GetByID 7 warm = (Ok (mkChapterWithStats berserk_ch1 views), w')
        /\ trace w' = (trace warm ++ delta)%list
        /\ calls isChapterRepo_GetByID delta = 0%nat).
Proof.
  split.
  - apply (proj1 (C4_cache_hit_skips_repository (DB := Store))
             1 warm (renderManga berserk) (30 * Minute) berserk).
    + reflexivity.
    + vm_compute. reflexivity.
    + discriminate.
    + vm_compute. reflexivity.
  - apply (proj2 (C4_cache_hit_skips_repository (DB := Store))
             7 warm (renderChapter berserk_ch1) (30 * Minute) berserk_ch1).
    + reflexivity.
    + vm_compute. reflexivity.
    + discriminate.
    + vm_compute. reflexivity.
Defined.

(** C5 on an empty cache and an ID the repository does not have. *)
Lemma C5_witness :
  exists w' delta,
    mangaUseCase.GetByID 9 (world [] [] store0) = (Err (NewMangaNotFoundError "9"), w')
    /\ kv (redis w') = kv (redis (world [] [] store0))
    /\ trace w' = (trace (world [] [] store0) ++ delta)%list
    /\ calls isCacheSet delta = 0%nat.
Proof.
  apply (C5_loader_error_no_cache_write 9 (world [] [] store0)
           (NewMangaNotFoundError "9") store0).
  - vm_compute. reflexivity.
  - vm_compute. reflexivity.
Defined.

(** C6 (amended) on a cache whose entry for manga 1 is what the repository
    holds: a working and an unreachable cache give the same result. *)
Lemma C6_witness :
  fst (mangaUseCase.GetByID 1 (withWire warm []))
  = fst (mangaUseCase.GetByID 1 (withWire warm [Some connectionRefused]))
  /\ fst (mangaUseCase.GetByID 1 (withWire warm []))
     = fst (MangaRepository_GetByID 1 (db warm)).
Proof.
  apply (proj1 (C6_result_independent_of_cache_failures 1 warm)).
  intros data ttl manga Hkv Hne Hdec.
  vm_compute in Hkv. injection Hkv as <- <-.
  vm_compute in Hdec. injection Hdec as <-.
  vm_compute. reflexivity.
Defined.

(** C7 on alice's refresh token, two days after it was issued. *)
Lemma C7_witness :
  exists claims w1,
    userUseCase.jwtService_ValidateRefreshToken jwt.ClaimsFirst jwtService
      (RefreshToken issued) (authWorld pg0 (2 * 24 * Hour))
    = (Ok claims, w1)
    /\ jwt.UserID claims = 5
    /\ exists pair ac sig,
        fst (userUseCase.RefreshToken jwt.ClaimsFirst jwtService (RefreshToken issued)
               (authWorld pg0 (2 * 24 * Hour)))
        = Ok pair
        /\ AccessToken pair = jwt.Compact jwt.SigningMethodHS256 ac sig
        /\ jwt.UserID ac = 5
        /\ jwt.Claims_Username ac = "alice"
        /\ jwt.Claims_Role ac = "user".
Proof.
  eexists _, _. split; [vm_compute; reflexivity |]. split; [reflexivity |].
  pose proof (C7_refresh_refetches_user (mac := mac) jwt.ClaimsFirst jwtService
                (RefreshToken issued) (authWorld pg0 (2 * 24 * Hour)) _ _
                ltac:(vm_compute; reflexivity)) as [H _].
  vm_compute pg.GetByID in H.
  destruct H as (_ & pair & ac & sig & Hrun & Hacc & Hid & Hname & Hrole & _).
  exists pair, ac, sig. auto.
Defined.

(** C8 on a title filter, and on the unfiltered first page. *)
Lemma C8_witness :
  (mangaUseCase.List (mkMangaFilter "Ber" [] "" 10 0) listed
   = (fst (MangaRepository_List (mkMangaFilter "Ber" [] "" 10 0) (db listed)),
      mkWorld (redis listed)
              (snd (MangaRepository_List (mkMangaFilter "Ber" [] "" 10 0) (db listed)))
              (trace listed ++ [MangaRepo_List (mkMangaFilter "Ber" [] "" 10 0)])))
  /\ fst (mangaUseCase.List (mkMangaFilter "Ber" [] "" 10 0) listed) = Ok [berserk]
  /\ exists rest,
      trace (snd (mangaUseCase.List (noFilter 10 0) listed))
      = (trace listed ++ CacheGet "manga:list:10:0" :: rest)%list.
Proof.
  split; [| split].
  - apply (proj1 (C8_filtered_list_bypasses_cache (mkMangaFilter "Ber" [] "" 10 0) listed)).
    left. discriminate.
  - vm_compute. reflexivity.
  - apply (proj2 (C8_filtered_list_bypasses_cache (noFilter 10 0) listed)).
    repeat split.
Defined.
End Runs.

(* ===================================================================== *)
(** * More on the cache keys                                              *)
(* ===================================================================== *)

Lemma string_of_uint_digits (d : Decimal.uint) :
  allChars digitOrMinus (NilEmpty.string_of_uint d) = true.
Proof. induction d; cbn; auto. Qed.

(** [FormatInt] writes digits, after a minus sign at most. *)
Lemma FormatInt_chars (n : Z) : allChars digitOrMinus (FormatInt n) = true.
Proof.
  unfold FormatInt. destruct (Z.to_int n) as [d|d].
  - destruct d; try reflexivity; apply string_of_uint_digits.
  - change (allChars digitOrMinus (NilZero.string_of_uint d) = true).
    destruct d; try reflexivity; apply string_of_uint_digits.
Qed.

Lemma to_int_not_nil (n : Z) :
  Z.to_int n <> Decimal.Pos Decimal.Nil /\ Z.to_int n <> Decimal.Neg Decimal.Nil.
Proof.
  destruct n as [|p|p]; cbn; split; try discriminate;
    intros H; injection H as H; now apply Unsigned.to_uint_nonnil in H.
Qed.

Lemma FormatInt_inj (a b : Z) : FormatInt a = FormatInt b -> a = b.
Proof.
  unfold FormatInt. intros H.
  apply (f_equal NilZero.int_of_string) in H.
  destruct (to_int_not_nil a), (to_int_not_nil b).
  rewrite !NilZero.isi in H by assumption.
  injection H as H. now apply DecimalZ.to_int_inj.
Qed.

(** Two texts over [p], each followed by a separator outside [p], agree
    up to the separator and after it. *)
Lemma cut_inj (p : ascii -> bool) (sep : ascii) (a b x y : string) :
  p sep = false -> allChars p a = true -> allChars p b = true ->
  a +:+ String sep x = b +:+ String sep y -> a = b /\ x = y.
Proof.
  intros Hsep. revert b.
  induction a as [|c a IH]; intros [|c' b]; cbn; intros Ha Hb H.
  - injection H as H. auto.
  - injection H as <- _. rewrite Hsep in Hb. discriminate.
  - injection H as -> _. rewrite Hsep in Ha. discriminate.
  - injection H as <- H.
    apply andb_prop in Ha as [_ Ha]. apply andb_prop in Hb as [_ Hb].
    destruct (IH b Ha Hb H) as [-> ->]. auto.
Qed.

Lemma no_sep_suffix (p : ascii -> bool) (sep : ascii) (a b x : string) :
  p sep = false -> allChars p a = true -> a <> b +:+ String sep x.
Proof.
  intros Hsep. revert b. induction a as [|c a IH]; intros [|c' b]; cbn; intros Ha H;
    try discriminate.
  - injection H as -> _. rewrite Hsep in Ha. discriminate.
  - injection H as _ H. apply andb_prop in Ha as [_ Ha]. now apply (IH b).
Qed.

Lemma mangaKey_not_wildcard (id : Z) : mangaUseCase.mangaKey id <> "manga:list:*".
Proof.
  unfold mangaUseCase.mangaKey.
  destruct (FormatInt_head id) as (c & s & -> & Hc).
  cbn. intros H. injection H as Hc' _. subst c. discriminate Hc.
Qed.

Lemma chapterListKey_inj (a b : Z) :
  chapterUseCase.chapterListKey a = chapterUseCase.chapterListKey b -> a = b.
Proof.
  unfold chapterUseCase.chapterListKey. intros H. apply append_inj_r in H.
  apply (cut_inj digitOrMinus ":") in H as [H _];
    auto using FormatInt_chars, FormatInt_inj.
Qed.

Lemma chapterKey_not_chapterListKey (a b : Z) :
  chapterUseCase.chapterKey a <> chapterUseCase.chapterListKey b.
Proof. discriminate. Qed.

Lemma popularKey_not_mangaKey (period : string) (limit id : Z) :
  popularKey period limit <> mangaUseCase.mangaKey id.
Proof.
  unfold popularKey, mangaUseCase.mangaKey.
  destruct (FormatInt_head id) as (c & s & -> & Hc).
  cbn. intros H.
  repeat match type of H with String ?c _ = String ?c _ => injection H as H end.
  injection H as <- _. discriminate Hc.
Qed.

Lemma popularKey_not_wildcard (period : string) (limit : Z) :
  popularKey period limit <> "manga:list:*".
Proof. unfold popularKey. cbn. discriminate. Qed.

(** X1. The cache keys of the catalog use cases never collide: each of
    [manga:<id>], [chapter:<id>], [manga:<id>:chapters] and
    [manga:list:<limit>:<offset>] determines the numbers it was built
    from, and keys of two different kinds are never equal. *)
Theorem X1_cache_keys_do_not_collide :
  (forall a b, mangaUseCase.mangaKey a = mangaUseCase.mangaKey b -> a = b)
  /\ (forall a b, chapterUseCase.chapterKey a = chapterUseCase.chapterKey b -> a = b)
  /\ (forall a b,
        chapterUseCase.chapterListKey a = chapterUseCase.chapterListKey b -> a = b)
  /\ (forall l o l' o',
        mangaUseCase.mangaListKey l o = mangaUseCase.mangaListKey l' o' ->
        l = l' /\ o = o')
  /\ (forall a b, mangaUseCase.mangaKey a <> chapterUseCase.chapterKey b)
  /\ (forall a b, mangaUseCase.mangaKey a <> chapterUseCase.chapterListKey b)
  /\ (forall a l o, mangaUseCase.mangaKey a <> mangaUseCase.mangaListKey l o)
  /\ (forall a b, chapterUseCase.chapterKey a <> chapterUseCase.chapterListKey b)
  /\ (forall a l o, chapterUseCase.chapterKey a <> mangaUseCase.mangaListKey l o)
  /\ (forall a l o, chapterUseCase.chapterListKey a <> mangaUseCase.mangaListKey l o).
Proof.
  repeat split;
    try (intros a b; apply chapterListKey_inj);
    try (intros a b; apply chapterKey_not_chapterListKey);
    unfold mangaUseCase.mangaKey, chapterUseCase.chapterKey, chapterUseCase.chapterListKey,
      mangaUseCase.mangaListKey.
  - intros a b H. apply append_inj_r in H. now apply FormatInt_inj.
  - intros a b H. apply append_inj_r in H. now apply FormatInt_inj.
  - apply append_inj_r in H.
    apply (cut_inj digitOrMinus ":") in H as [H _];
      auto using FormatInt_chars, FormatInt_inj.
  - apply append_inj_r in H.
    apply (cut_inj digitOrMinus ":") in H as [_ H];
      auto using FormatInt_chars, FormatInt_inj.
  - intros a b H. discriminate H.
  - intros a b H. apply append_inj_r in H.
    now apply (no_sep_suffix digitOrMinus ":") in H; auto using FormatInt_chars.
  - intros a l o H. symmetry in H. now apply mangaListKey_not_mangaKey in H.
  - intros a l o H. discriminate H.
  - intros a l o H.
    destruct (FormatInt_head a) as (c & s & Hs & Hc). rewrite Hs in H.
    cbn in H.
    repeat match type of H with String ?c _ = String ?c _ => injection H as H end.
    injection H as -> _. discriminate Hc.
Qed.

(* ===================================================================== *)
(** * More on the cache-aside wrapper                                     *)
(* ===================================================================== *)

Section CacheAsideWrites.
Context {DB : Type}.
Context {mangaRepo : MangaRepository DB} {chapterRepo : ChapterRepository DB}
        {analyticsRepo : AnalyticsRepository DB} {topRepo : TopMangaRepository DB}.
Context {jsonManga : JSON Manga} {jsonMangas : JSON (list Manga)}
        {jsonChapter : JSON Chapter} {jsonChapters : JSON (list Chapter)}
        {jsonStats : JSON (list MangaStat)}.

(** With no entry under its key, [GetByID] asks the repository exactly
    once and answers with what it said. *)
Lemma GetByID_cold (id : Z) (w : World DB) :
  kv (redis w) !! mangaUseCase.mangaKey id = None ->
  fst (mangaUseCase.GetByID id w) = fst (MangaRepository_GetByID id (db w))
  /\ exists delta,
      trace (snd (mangaUseCase.GetByID id w)) = (trace w ++ delta)%list
      /\ calls isMangaRepo_GetByID delta = 1%nat.
Proof.
  intros Hcold. destruct w as [[store outcomes] d tr]. cbn in Hcold.
  unfold mangaUseCase.GetByID. go_unfold.
  destruct outcomes as [|[fault|] rest]; cbn; rewrite ?Hcold; cbn;
    try destruct (negb _); cbn;
    destruct (MangaRepository_GetByID id d) as [[manga|e] d1]; cbn;
    break_all; (split; [reflexivity |]); rewrite <- ?app_assoc; cbn;
    eexists; (split; [reflexivity |]); reflexivity.
Qed.

Lemma Update_drops_entity (manga updated : Manga) (w : World DB) :
  fst (mangaUseCase.Update manga w) = Ok updated ->
  hd None (wire (redis w)) = None ->
  kv (redis (snd (mangaUseCase.Update manga w))) !! mangaUseCase.mangaKey (Manga_ID manga)
  = None.
Proof.
  destruct w as [[store outcomes] d tr]. intros Hok Hwire. cbn in Hwire. revert Hok.
  unfold mangaUseCase.Update. go_unfold.
  destruct outcomes as [|[fault|] rest]; cbn in Hwire; try discriminate;
    break_all; intros Hok; try discriminate;
    rewrite ?lookup_delete_ne by (apply not_eq_sym, mangaKey_not_wildcard);
    apply lookup_delete_eq.
Qed.

Lemma Delete_drops_entity (id : Z) (w : World DB) :
  fst (mangaUseCase.Delete id w) = None ->
  hd None (wire (redis w)) = None ->
  kv (redis (snd (mangaUseCase.Delete id w))) !! mangaUseCase.mangaKey id = None.
Proof.
  destruct w as [[store outcomes] d tr]. intros Hok Hwire. cbn in Hwire. revert Hok.
  unfold mangaUseCase.Delete. go_unfold.
  destruct outcomes as [|[fault|] rest]; cbn in Hwire; try discriminate;
    break_all; intros Hok; try discriminate;
    rewrite ?lookup_delete_ne by (apply not_eq_sym, mangaKey_not_wildcard);
    apply lookup_delete_eq.
Qed.

(** X2. After a successful [Update] or [Delete] of a manga whose first
    cache command reached the server, the next [GetByID] of that manga
    answers with what the repository says and asks it exactly once: the
    entry under [manga:<id>] is gone. *)
Theorem X2_manga_write_then_read_asks_repository :
  (forall (manga updated : Manga) (w : World DB),
      fst (mangaUseCase.Update manga w) = Ok updated ->
      hd None (wire (redis w)) = None ->
      let w' := snd (mangaUseCase.Update manga w) in
      fst (mangaUseCase.GetByID (Manga_ID manga) w')
      = fst (MangaRepository_GetByID (Manga_ID manga) (db w'))
      /\ exists delta,
          trace (snd (mangaUseCase.GetByID (Manga_ID manga) w')) = (trace w' ++ delta)%list
          /\ calls isMangaRepo_GetByID delta = 1%nat)
  /\ (forall (id : Z) (w : World DB),
        fst (mangaUseCase.Delete id w) = None ->
        hd None (wire (redis w)) = None ->
        let w' := snd (mangaUseCase.Delete id w) in
        fst (mangaUseCase.GetByID id w') = fst (MangaRepository_GetByID id (db w'))
        /\ exists delta,
            trace (snd (mangaUseCase.GetByID id w')) = (trace w' ++ delta)%list
            /\ calls isMangaRepo_GetByID delta = 1%nat).
Proof.
  split.
  - intros manga updated w Hok Hwire w'. apply GetByID_cold.
    now apply (Update_drops_entity manga updated).
  - intros id w Hok Hwire w'. apply GetByID_cold. now apply Delete_drops_entity.
Qed.

(** X3. What [Create], [Update] and [Delete] of a manga return, and what
    they leave in the authoritative store, does not depend on whether their
    cache commands succeed. *)
Theorem X3_manga_writes_ignore_cache_outcomes
  (manga : Manga) (id : Z) (w : World DB) (outcomes1 outcomes2 : list (option error)) :
  (fst (mangaUseCase.Create manga (withWire w outcomes1))
   = fst (mangaUseCase.Create manga (withWire w outcomes2))
   /\ db (snd (mangaUseCase.Create manga (withWire w outcomes1)))
      = db (snd (mangaUseCase.Create manga (withWire w outcomes2))))
  /\ (fst (mangaUseCase.Update manga (withWire w outcomes1))
      = fst (mangaUseCase.Update manga (withWire w outcomes2))
      /\ db (snd (mangaUseCase.Update manga (withWire w outcomes1)))
         = db (snd (mangaUseCase.Update manga (withWire w outcomes2))))
  /\ (fst (mangaUseCase.Delete id (withWire w outcomes1))
      = fst (mangaUseCase.Delete id (withWire w outcomes2))
      /\ db (snd (mangaUseCase.Delete id (withWire w outcomes1)))
         = db (snd (mangaUseCase.Delete id (withWire w outcomes2)))).
Proof.
  destruct w as [[store outcomes] d tr]. unfold withWire.
  unfold mangaUseCase.Create, mangaUseCase.Update, mangaUseCase.Delete. go_unfold.
  repeat split; break_all; reflexivity.
Qed.

(** X4. A [Create], [Update] or [Delete] of a manga that returns an error
    has sent no command to the cache: the cache entries and the connection
    are as before, and the trace holds no further cache call. *)
Theorem X4_manga_failed_write_leaves_cache_alone
  (manga : Manga) (id : Z) (w : World DB) :
  (forall e, fst (mangaUseCase.Create manga w) = Err e ->
     redis (snd (mangaUseCase.Create manga w)) = redis w
     /\ calls isCacheCommand (trace (snd (mangaUseCase.Create manga w)))
        = calls isCacheCommand (trace w))
  /\ (forall e, fst (mangaUseCase.Update manga w) = Err e ->
     redis (snd (mangaUseCase.Update manga w)) = redis w
     /\ calls isCacheCommand (trace (snd (mangaUseCase.Update manga w)))
        = calls isCacheCommand (trace w))
  /\ (forall e, fst (mangaUseCase.Delete id w) = Some e ->
     redis (snd (mangaUseCase.Delete id w)) = redis w
     /\ calls isCacheCommand (trace (snd (mangaUseCase.Delete id w)))
        = calls isCacheCommand (trace w)).
Proof.
  destruct w as [[store outcomes] d tr].
  unfold mangaUseCase.Create, mangaUseCase.Update, mangaUseCase.Delete. go_unfold.
  repeat split; revert H; break_all; intros H; try discriminate; try reflexivity;
    unfold calls; rewrite ?List.filter_app; cbn; rewrite ?app_nil_r; reflexivity.
Qed.

Lemma cacheUp_weaken (r : Redis) : cacheUp 3 r = true -> cacheUp 2 r = true.
Proof.
  unfold cacheUp. destruct (wire r) as [|a [|b [|c l]]]; cbn; auto.
  rewrite !andb_true_r. intros H.
  apply andb_prop in H as [Ha H]. apply andb_prop in H as [Hb _].
  now rewrite Ha, Hb.
Qed.

(** A [GetByID] that misses, loads and encodes, with both of its cache
    commands reaching the server, leaves the encoded manga under
    [manga:<id>] with 30 minutes to live. *)
Lemma GetByID_fills_cache (id : Z) (w : World DB) (manga : Manga) (jsonData : string) :
  kv (redis w) !! mangaUseCase.mangaKey id = None ->
  fst (MangaRepository_GetByID id (db w)) = Ok manga ->
  Marshal manga = Ok jsonData ->
  cacheUp 2 (redis w) = true ->
  fst (mangaUseCase.GetByID id w) = Ok manga
  /\ kv (redis (snd (mangaUseCase.GetByID id w)))
     = <[mangaUseCase.mangaKey id := (jsonData, 30 * Minute)]> (kv (redis w))
  /\ wire (redis (snd (mangaUseCase.GetByID id w))) = skipn 2 (wire (redis w)).
Proof.
  destruct w as [[store outcomes] d tr]. unfold cacheUp. cbn [redis wire kv db].
  intros Hcold Hrepo Hjson Hup.
  unfold mangaUseCase.GetByID. go_unfold.
  destruct (MangaRepository_GetByID id d) as [[m|e] d1] eqn:E0; cbn in Hrepo;
    [injection Hrepo as -> | discriminate].
  destruct outcomes as [|[f1|] [|[f2|] rest]]; cbn in Hup; try discriminate;
    cbn; rewrite Hcold; cbn; break_all; simplify_eq;
    repeat match goal with
      | H : Marshal _ = _ |- _ => rewrite Hjson in H
      end; simplify_eq; auto.
Qed.

(** X5. Read-through: when [manga:<id>] is not cached, the repository has
    the manga, its encoding is not empty and decodes to it, and the next
    three cache commands reach the server, [GetByID] returns the manga and
    leaves its encoding under [manga:<id>] with 30 minutes to live, and a
    second [GetByID] returns the manga without asking the repository. *)
Theorem X5_manga_read_through
  (id : Z) (w : World DB) (manga : Manga) (jsonData : string) :
  kv (redis w) !! mangaUseCase.mangaKey id = None ->
  fst (MangaRepository_GetByID id (db w)) = Ok manga ->
  Marshal manga = Ok jsonData ->
  jsonData <> "" ->
  Unmarshal jsonData = Ok manga ->
  cacheUp 3 (redis w) = true ->
  let w1 := snd (mangaUseCase.GetByID id w) in
  fst (mangaUseCase.GetByID id w) = Ok manga
  /\ kv (redis w1) !! mangaUseCase.mangaKey id = Some (jsonData, 30 * Minute)
  /\ fst (mangaUseCase.GetByID id w1) = Ok manga
  /\ exists delta,
      trace (snd (mangaUseCase.GetByID id w1)) = (trace w1 ++ delta)%list
      /\ calls isMangaRepo_GetByID delta = 0%nat.
Proof.
  intros Hcold Hrepo Hjson Hne Hdec Hup w1.
  destruct (GetByID_fills_cache id w manga jsonData Hcold Hrepo Hjson
              (cacheUp_weaken _ Hup)) as (Hres & Hkv & Hwire).
  fold w1 in Hkv, Hwire.
  assert (Hentry : kv (redis w1) !! mangaUseCase.mangaKey id = Some (jsonData, 30 * Minute)).
  { rewrite Hkv. apply lookup_insert_eq. }
  split; [exact Hres |]. split; [exact Hentry |].
  assert (Hup1 : hd None (wire (redis w1)) = None).
  { rewrite Hwire. revert Hup. unfold cacheUp.
    destruct (wire (redis w)) as [|a [|b [|[c|] l]]]; cbn; auto.
    rewrite !andb_false_r. discriminate. }
  clearbody w1. clear - Hentry Hup1 Hne Hdec.
  destruct w1 as [[store outcomes] d tr]. cbn in Hentry, Hup1.
  apply String.eqb_neq in Hne.
  unfold mangaUseCase.GetByID. go_unfold.
  destruct outcomes as [|[f|] rest]; cbn in Hup1; try discriminate;
    cbn; rewrite Hentry; cbn; rewrite Hne; cbn; rewrite Hdec; cbn; break_all;
    (split; [reflexivity |]); rewrite <- ?app_assoc;
    eexists; (split; [reflexivity |]); reflexivity.
Qed.

(** X6. A successful chapter [Update] whose two cache commands reach the
    server removes the chapter's own entry and the chapter list of the
    manga the chapter belongs to, which is the manga of the row the
    repository returned before the update, and nothing else.  The manga
    ID of the request plays no part in it: when the request names another
    manga than the row does, the chapter list cached for that manga stays
    as it was. *)
Theorem X6_chapter_Update_invalidates_stored_manga_list
  (chapter updated : Chapter) (w : World DB) :
  fst (chapterUseCase.Update chapter w) = Ok updated ->
  cacheUp 2 (redis w) = true ->
  exists existing,
    fst (ChapterRepository_GetByID (Chapter_ID chapter) (db w)) = Ok existing
    /\ kv (redis (snd (chapterUseCase.Update chapter w)))
       = delete (chapterUseCase.chapterListKey (Chapter_MangaID existing))
           (delete (chapterUseCase.chapterKey (Chapter_ID chapter)) (kv (redis w)))
    /\ (Chapter_MangaID chapter <> Chapter_MangaID existing ->
        kv (redis (snd (chapterUseCase.Update chapter w)))
          !! chapterUseCase.chapterListKey (Chapter_MangaID chapter)
        = kv (redis w) !! chapterUseCase.chapterListKey (Chapter_MangaID chapter)).
Proof.
  destruct w as [[store outcomes] d tr]. unfold cacheUp. cbn [redis wire].
  intros Hok Hup. revert Hok.
  unfold chapterUseCase.Update, chapterUseCase.invalidateChapterListCache. go_unfold.
  destruct (ChapterRepository_GetByID (Chapter_ID chapter) d) as [[existing|e] d1] eqn:E0;
    cbn; [| discriminate].
  destruct outcomes as [|[f1|] [|[f2|] rest]]; cbn in Hup; try discriminate;
    break_all; intros Hok; try discriminate; cbn;
    (exists existing; split; [reflexivity | split; [reflexivity |]]);
    intros Hne;
    (rewrite lookup_delete_ne
       by (intros H; apply Hne; symmetry; now apply chapterListKey_inj));
    (rewrite lookup_delete_ne; [reflexivity |]);
    apply chapterKey_not_chapterListKey.
Qed.

(** X7. [ListByManga] for a manga the repository does not return answers
    with the repository's error after that single call: no cache command
    is sent. *)
Theorem X7_ListByManga_unknown_manga (mangaID : Z) (w : World DB) (e : error) :
  fst (MangaRepository_GetByID mangaID (db w)) = Err e ->
  fst (chapterUseCase.ListByManga mangaID w) = Err e
  /\ redis (snd (chapterUseCase.ListByManga mangaID w)) = redis w
  /\ trace (snd (chapterUseCase.ListByManga mangaID w))
     = (trace w ++ [MangaRepo_GetByID mangaID])%list.
Proof.
  destruct w as [r d tr]. cbn [db]. intros Hrepo.
  unfold chapterUseCase.ListByManga. go_unfold.
  destruct (MangaRepository_GetByID mangaID d) as [[m|e'] d1]; cbn in Hrepo;
    [discriminate | injection Hrepo as ->]. cbn. auto.
Qed.

(** X8. No [Create], [Update] or [Delete] of a manga touches a cached
    popularity ranking: the entry under any [manga:popular:<period>:<limit>]
    is the same after the write as before it. *)
Theorem X8_popular_outlives_writes
  (period : string) (limit : Z) (manga : Manga) (id : Z) (w : World DB) :
  let key := popularKey period limit in
  kv (redis (snd (mangaUseCase.Create manga w))) !! key = kv (redis w) !! key
  /\ kv (redis (snd (mangaUseCase.Update manga w))) !! key = kv (redis w) !! key
  /\ kv (redis (snd (mangaUseCase.Delete id w))) !! key = kv (redis w) !! key.
Proof.
  intros key. subst key. destruct w as [[store outcomes] d tr].
  unfold mangaUseCase.Create, mangaUseCase.Update, mangaUseCase.Delete. go_unfold.
  repeat split; break_all; try reflexivity;
    rewrite ?lookup_delete_ne; auto using popularKey_not_wildcard, popularKey_not_mangaKey;
    apply not_eq_sym; auto using popularKey_not_wildcard, popularKey_not_mangaKey.
Qed.

(** X9. For the query parameters [period] and [limit] of the popular
    endpoint: when the ranking is not cached, the analytics repository
    returns one, it encodes, and both cache commands reach the server,
    [GetPopular] returns the ranking and stores it for 1 hour (daily),
    4 hours (weekly), 12 hours (monthly), and 24 hours for every other
    text of [period]; the limit it is asked with is at least 1. *)
Theorem X9_GetPopular_expiry
  (period limitStr : string) (w : World DB) (popular : list MangaStat) (jsonData : string) :
  let statsPeriod := fst (MangaHandler.GetPopular_args period limitStr) in
  let limit := snd (MangaHandler.GetPopular_args period limitStr) in
  kv (redis w) !! popularKey statsPeriod limit = None ->
  fst (AnalyticsRepository_GetTopManga statsPeriod limit (db w)) = Ok popular ->
  Marshal popular = Ok jsonData ->
  cacheUp 2 (redis w) = true ->
  fst (GetPopular statsPeriod limit w) = Ok popular
  /\ kv (redis (snd (GetPopular statsPeriod limit w)))
     = <[popularKey statsPeriod limit :=
           (jsonData,
            if String.eqb period "daily" then 1 * Hour
            else if String.eqb period "weekly" then 4 * Hour
            else if String.eqb period "monthly" then 12 * Hour
            else 24 * Hour)]> (kv (redis w))
  /\ 1 <= limit.
Proof.
  intros statsPeriod limit Hcold Hrepo Hjson Hup.
  assert (Httl : cacheTTL statsPeriod
                 = if String.eqb period "daily" then 1 * Hour
                   else if String.eqb period "weekly" then 4 * Hour
                   else if String.eqb period "monthly" then 12 * Hour
                   else 24 * Hour).
  { subst statsPeriod. unfold MangaHandler.GetPopular_args. cbn [fst].
    destruct (String.eqb period "daily"); [reflexivity |].
    destruct (String.eqb period "weekly"); [reflexivity |].
    destruct (String.eqb period "monthly"); reflexivity. }
  assert (Hlimit : 1 <= limit).
  { subst limit. unfold MangaHandler.GetPopular_args, Atoi, ParseInt64. cbn [snd].
    destruct (negb _); [| lia].
    break_all; try lia;
      repeat match goal with
        | H : (_ <? _)%Z = true |- _ => apply Z.ltb_lt in H
        end; simplify_eq; lia. }
  rewrite <- Httl. clearbody statsPeriod limit. clear Httl.
  split; [| split; [| exact Hlimit]]; clear Hlimit;
    destruct w as [[store outcomes] d tr]; unfold cacheUp in Hup;
    cbn [redis wire kv db] in *;
    unfold GetPopular; go_unfold;
    destruct outcomes as [|[f1|] [|[f2|] rest]]; cbn in Hup; try discriminate;
    cbn; rewrite Hcold; cbn; break_all; simplify_eq;
    repeat match goal with
      | H : Marshal _ = _ |- _ => rewrite Hjson in H
      end; simplify_eq; auto.
Qed.
End CacheAsideWrites.

(* ===================================================================== *)
(** * More on the token service and the middleware                        *)
(* ===================================================================== *)

Section TokenChecks.
Context {mac : jwt.HMAC} (order : jwt.ParserOrder) (s : JWTService).

(** [validateToken] returns claims for the accepted token strings and for
    no others. *)
Lemma validateToken_Ok_iff (tok : jwt.tokenString) (secret : string) (c : Clock)
      (claims : jwt.Claims) :
  fst (JWTSvc.validateToken order tok secret c) = Ok claims
  <-> accepted secret (fst (time_Now c)) tok claims.
Proof.
  unfold accepted.
  destruct (time_Now c) as [now c'] eqn:E. cbn [fst].
  split.
  - destruct tok as [raw | alg cl sg | method cl sg].
    + cbn. discriminate.
    + cbn. discriminate.
    + unfold JWTSvc.validateToken, jwt.ParseWithClaims, jwt.Valid, jwt.Verify, bind, ret.
      destruct (jwt.isHMAC method) eqn:Hm; cbn [negb]; [| cbn; discriminate].
      destruct (String.eqb sg (jwt.hmac method secret (method, cl))) eqn:Hsig;
        destruct (jwt.VerifyExpiresAt cl now false) eqn:H1;
        destruct (jwt.VerifyIssuedAt cl now false) eqn:H2;
        destruct (jwt.VerifyNotBefore cl now false) eqn:H3;
        destruct order; rewrite ?E; cbn; rewrite ?H1, ?H2, ?H3; cbn;
        try discriminate;
        intros H; injection H as <-; apply String.eqb_eq in Hsig;
        exists method, sg; auto 10.
  - intros (method & sg & -> & Hm & -> & H1 & H2 & H3).
    cbv beta iota zeta delta
      [JWTSvc.validateToken jwt.ParseWithClaims jwt.Valid jwt.Verify bind ret].
    rewrite Hm. cbv beta iota zeta delta [negb]. rewrite String.eqb_refl.
    destruct order; rewrite ?E; cbn; rewrite H1, H2, H3; reflexivity.
Qed.

(** X10. [ValidateAccessToken] and [ValidateRefreshToken] return claims
    exactly for the token strings that carry those claims, name an HMAC
    method (HS256, HS384 or HS512), are signed under that method with the
    access secret, respectively the refresh secret, and whose [exp], [iat]
    and [nbf], where present, allow the time of the call. *)
Theorem X10_validateToken_accepts_exactly
  (tok : jwt.tokenString) (c : Clock) (claims : jwt.Claims) :
  (fst (JWTSvc.ValidateAccessToken order s tok c) = Ok claims
   <-> accepted (accessSecret s) (fst (time_Now c)) tok claims)
  /\ (fst (JWTSvc.ValidateRefreshToken order s tok c) = Ok claims
      <-> accepted (refreshSecret s) (fst (time_Now c)) tok claims).
Proof. split; apply validateToken_Ok_iff. Qed.

(** X11. The Authentication middleware hands a request on only when its
    Authorization header is the scheme [Bearer] followed by a token string
    accepted under the access secret, and then with the user ID, role and
    username of that token's claims in the context; every other request is
    answered with status 401 and the code UNAUTHORIZED or JWT_INVALID. *)
Theorem X11_Authentication_outcomes (h : Authorization) (c : Clock) :
  match fst (middleware.Authentication order s h c) with
  | Next userID userRole userName =>
      exists credentials claims,
        h = HeaderTwoParts "Bearer" credentials
        /\ accepted (accessSecret s) (fst (time_Now c)) credentials claims
        /\ userID = jwt.UserID claims
        /\ userRole = jwt.Claims_Role claims
        /\ userName = jwt.Claims_Username claims
  | ErrorResponse statusCode code _ =>
      statusCode = StatusUnauthorized /\ (code = "UNAUTHORIZED" \/ code = "JWT_INVALID")
  end.
Proof.
  unfold middleware.Authentication, bind, ret.
  destruct h as [| raw | scheme credentials]; cbn; auto.
  destruct (String.eqb scheme "Bearer") eqn:Hs; cbn; auto.
  apply String.eqb_eq in Hs. subst scheme.
  pose proof (validateToken_Ok_iff credentials (accessSecret s) c) as Hv.
  unfold JWTSvc.ValidateAccessToken.
  destruct (JWTSvc.validateToken order credentials (accessSecret s) c) as [[claims | err] c'];
    cbn in *; auto.
  exists credentials, claims. repeat split; auto. now apply Hv.
Qed.

(** The refresh token of an issued pair: whose it is, that it names no
    role and no username, and when it expires. *)
Lemma GenerateTokenPair_refresh_spec (user : User) (c0 : Clock) :
  exists claims rclaims c1,
    JWTSvc.GenerateTokenPair s user c0
    = (Ok (mkTokenPair
             (jwt.Compact jwt.SigningMethodHS256 claims
                (jwt.hmac jwt.SigningMethodHS256 (accessSecret s)
                          (jwt.SigningMethodHS256, claims)))
             (jwt.Compact jwt.SigningMethodHS256 rclaims
                (jwt.hmac jwt.SigningMethodHS256 (refreshSecret s)
                          (jwt.SigningMethodHS256, rclaims)))), c1)
    /\ jwt.UserID rclaims = User_ID user
    /\ jwt.Claims_Username rclaims = ""
    /\ jwt.Claims_Role rclaims = ""
    /\ (exists t, fst (time_Now c0) <= t <= wall c1
                  /\ jwt.ExpiresAt rclaims = Some (TruncateSecond (t + refreshExpires s)))
    /\ (exists iat, jwt.IssuedAt rclaims = Some iat /\ iat <= wall c1)
    /\ (exists nbf, jwt.NotBefore rclaims = Some nbf /\ nbf <= wall c1).
Proof.
  jwt_unfold. do 6 read_clock.
  eexists _, _, _. split; [reflexivity |]. cbn.
  repeat split; try reflexivity.
  - eexists. split; [| reflexivity]. lia.
  - eexists. split; [reflexivity |].
    pose proof (TruncateSecond_le t3). lia.
  - eexists. split; [reflexivity |].
    pose proof (TruncateSecond_le t4). lia.
Qed.

(** X12. Whether the two tokens of an issued pair can stand in for one
    another is decided by their MACs.  When the MAC of a token's signing
    input under the other secret differs from its signature, the
    middleware answers the refresh token sent as a bearer token with 401
    JWT_INVALID, and [ValidateRefreshToken] refuses the access token, at
    any time.  When the MAC of the refresh token's signing input under
    the access secret is its signature, the middleware hands the request
    on, from the issue of the pair until the refresh token expires, with
    the user's ID and an empty role and username. *)
Theorem X12_refresh_token_as_bearer_token (user : User) (c0 c2 : Clock) :
  exists tokenPair claims rclaims exp,
    fst (JWTSvc.GenerateTokenPair s user c0) = Ok tokenPair
    /\ AccessToken tokenPair
       = jwt.Compact jwt.SigningMethodHS256 claims
           (jwt.hmac jwt.SigningMethodHS256 (accessSecret s)
                     (jwt.SigningMethodHS256, claims))
    /\ RefreshToken tokenPair
       = jwt.Compact jwt.SigningMethodHS256 rclaims
           (jwt.hmac jwt.SigningMethodHS256 (refreshSecret s)
                     (jwt.SigningMethodHS256, rclaims))
    /\ jwt.UserID rclaims = User_ID user
    /\ jwt.Claims_Username rclaims = ""
    /\ jwt.Claims_Role rclaims = ""
    /\ jwt.ExpiresAt rclaims = Some exp
    /\ (exists t, fst (time_Now c0) <= t <= wall (snd (JWTSvc.GenerateTokenPair s user c0))
                  /\ exp = TruncateSecond (t + refreshExpires s))
    /\ (jwt.hmac jwt.SigningMethodHS256 (accessSecret s) (jwt.SigningMethodHS256, rclaims)
        <> jwt.hmac jwt.SigningMethodHS256 (refreshSecret s) (jwt.SigningMethodHS256, rclaims) ->
        fst (middleware.Authentication order s
               (HeaderTwoParts "Bearer" (RefreshToken tokenPair)) c2)
        = ErrorResponse StatusUnauthorized "JWT_INVALID"
                        "Недействительный токен авторизации")
    /\ (jwt.hmac jwt.SigningMethodHS256 (refreshSecret s) (jwt.SigningMethodHS256, claims)
        <> jwt.hmac jwt.SigningMethodHS256 (accessSecret s) (jwt.SigningMethodHS256, claims) ->
        exists e,
          fst (JWTSvc.ValidateRefreshToken order s (AccessToken tokenPair) c2) = Err e)
    /\ (jwt.hmac jwt.SigningMethodHS256 (accessSecret s) (jwt.SigningMethodHS256, rclaims)
        = jwt.hmac jwt.SigningMethodHS256 (refreshSecret s) (jwt.SigningMethodHS256, rclaims) ->
        wall (snd (JWTSvc.GenerateTokenPair s user c0)) <= fst (time_Now c2) ->
        fst (time_Now c2) < exp ->
        fst (middleware.Authentication order s
               (HeaderTwoParts "Bearer" (RefreshToken tokenPair)) c2)
        = Next (User_ID user) "" "").
Proof.
  destruct (GenerateTokenPair_refresh_spec user c0)
    as (claims & rclaims & c1 & Hgen & Hid & Hname & Hrole & (t & Ht & Hexp)
        & (iat & Hiat & Hiat_le) & (nbf & Hnbf & Hnbf_le)).
  rewrite Hgen. cbn [fst snd].
  eexists _, claims, rclaims, _. split; [reflexivity |].
  cbn [RefreshToken AccessToken].
  do 6 (split; [first [reflexivity | eassumption] |]).
  split; [exists t; auto |].
  split; [| split].
  - intros Hmac.
    unfold middleware.Authentication, bind, ret, JWTSvc.ValidateAccessToken.
    cbn [String.eqb Ascii.eqb Bool.eqb negb].
    match goal with
    | |- context [JWTSvc.validateToken ?o ?t ?k ?c] =>
        pose proof (validateToken_Ok_iff t k c) as Hv;
        destruct (JWTSvc.validateToken o t k c) as [[cl | err] c']
    end; cbn in *; [| reflexivity].
    destruct (proj1 (Hv cl) eq_refl) as (m & sg & Heq & _ & Hsig & _).
    injection Heq as <- <- <-. exfalso. apply Hmac. congruence.
  - intros Hmac. unfold JWTSvc.ValidateRefreshToken.
    match goal with
    | |- context [JWTSvc.validateToken ?o ?t ?k ?c] =>
        pose proof (validateToken_Ok_iff t k c) as Hv;
        destruct (JWTSvc.validateToken o t k c) as [[cl | err] c']
    end; cbn in *; [| eauto].
    destruct (proj1 (Hv cl) eq_refl) as (m & sg & Heq & _ & Hsig & _).
    injection Heq as <- <- <-. exfalso. apply Hmac. congruence.
  - intros Hmac Hafter Hbefore.
    unfold middleware.Authentication, bind, ret, JWTSvc.ValidateAccessToken.
    cbn [String.eqb Ascii.eqb Bool.eqb negb].
    rewrite <- Hmac.
    pose proof (validateToken_valid order rclaims (accessSecret s) c2 _ _ _
                  Hexp Hbefore Hiat ltac:(lia) Hnbf ltac:(lia)) as Hv.
    destruct (JWTSvc.validateToken order _ (accessSecret s) c2) as [[cl | err] c'];
      cbn [fst] in Hv; [| discriminate].
    injection Hv as ->. cbn. now rewrite Hid, Hname, Hrole.
Qed.

(** X13. [RefreshTokens] issues a pair only for a refresh token that is
    accepted under the refresh secret and whose user ID is the ID of the
    user passed in, and the pair is the one [GenerateTokenPair] issues
    for that user after the validation.  Otherwise it returns the error
    of the validation, or, for another user's token, its own mismatch
    error without reading the clock again. *)
Theorem X13_RefreshTokens_checks_owner
  (refreshToken : jwt.tokenString) (user : User) (c : Clock) :
  match fst (JWTSvc.RefreshTokens order s refreshToken user c) with
  | Ok tokenPair =>
      exists claims,
        accepted (refreshSecret s) (fst (time_Now c)) refreshToken claims
        /\ jwt.UserID claims = User_ID user
        /\ JWTSvc.GenerateTokenPair s user
             (snd (JWTSvc.ValidateRefreshToken order s refreshToken c))
           = (Ok tokenPair, snd (JWTSvc.RefreshTokens order s refreshToken user c))
  | Err e =>
      fst (JWTSvc.ValidateRefreshToken order s refreshToken c) = Err e
      \/ (e = errorString "user_id не соответствует refresh token"
          /\ exists claims,
              fst (JWTSvc.ValidateRefreshToken order s refreshToken c) = Ok claims
              /\ jwt.UserID claims <> User_ID user
              /\ snd (JWTSvc.RefreshTokens order s refreshToken user c)
                 = snd (JWTSvc.ValidateRefreshToken order s refreshToken c))
  end.
Proof.
  unfold JWTSvc.RefreshTokens, JWTSvc.ValidateRefreshToken, bind, ret.
  pose proof (validateToken_Ok_iff refreshToken (refreshSecret s) c) as Hv.
  destruct (JWTSvc.validateToken order refreshToken (refreshSecret s) c)
    as [[claims | err] c'] eqn:E; cbn [fst snd] in *; [| auto].
  destruct (jwt.UserID claims =? User_ID user)%Z eqn:Hid; cbn [negb fst snd].
  - apply Z.eqb_eq in Hid.
    destruct (GenerateTokenPair_spec s user c') as (a & b & c1 & Hgen & _).
    rewrite Hgen. cbn. exists claims. split; [now apply Hv |]. auto.
  - apply Z.eqb_neq in Hid. right. split; [reflexivity |]. exists claims. auto.
Qed.

(** The clock does not go back while a pair is issued. *)
Lemma GenerateTokenPair_clock (user : User) (c0 : Clock) :
  fst (time_Now c0) <= wall (snd (JWTSvc.GenerateTokenPair s user c0)).
Proof.
  jwt_unfold. do 6 read_clock. cbn [fst snd] in *. lia.
Qed.

(** With a lifetime that is not positive, the access token of a pair is
    expired from the moment it is issued. *)
Lemma nonpositive_lifetime (user : User) (c0 c2 : Clock) :
  accessExpires s <= 0 ->
  wall (snd (JWTSvc.GenerateTokenPair s user c0)) <= fst (time_Now c2) ->
  exists tokenPair,
    fst (JWTSvc.GenerateTokenPair s user c0) = Ok tokenPair
    /\ fst (JWTSvc.ValidateAccessToken order s (AccessToken tokenPair) c2)
       = Err (errorString "токен истек").
Proof.
  intros Hexpires Hafter.
  pose proof (GenerateTokenPair_clock user c0) as Hclock.
  destruct (GenerateTokenPair_spec s user c0)
    as (claims & rclaims & c1 & Hgen & _ & _ & _ & Hexp & _).
  rewrite Hgen in *. cbn [fst snd] in *.
  eexists. split; [reflexivity |]. cbn [AccessToken].
  unfold JWTSvc.ValidateAccessToken.
  eapply validateToken_expired; [exact Hexp |].
  pose proof (TruncateSecond_le (fst (time_Now c0) + accessExpires s)). lia.
Qed.
End TokenChecks.

(* ===================================================================== *)
(** * The configuration                                                   *)
(* ===================================================================== *)

Lemma getEnv_unset (env : config.Env) (key defaultValue : string) :
  unset env key -> config.getEnv env key defaultValue = defaultValue.
Proof. unfold config.getEnv. intros [-> | ->]; reflexivity. Qed.

(** X14. With none of the four JWT variables set to a text that is not
    empty, [main] builds its token service with the secrets
    [your-secret-key] and [your-refresh-secret-key] that the source
    spells out, an access lifetime of 24 hours and a refresh lifetime of
    7 days: a variable set to the empty string counts as not set. *)
Theorem X14_config_defaults (env : config.Env) :
  unset env "JWT_SECRET" ->
  unset env "JWT_REFRESH_SECRET" ->
  unset env "JWT_EXPIRATION_HOURS" ->
  unset env "JWT_REFRESH_EXPIRATION_DAYS" ->
  main_jwtService env
  = mkJWTService "your-secret-key" "your-refresh-secret-key" (24 * Hour) (7 * 24 * Hour).
Proof.
  intros H1 H2 H3 H4.
  unfold main_jwtService, config.NewConfig_JWT, config.getEnvAsInt. cbn.
  rewrite !getEnv_unset by assumption. reflexivity.
Qed.

(** The numbers of hours next to zero whose nanoseconds are not positive
    in int64: zero and the negative numbers down to -2562047, for which
    the product does not overflow, and the numbers from 2562048 to
    5124095, for which it wraps around once. *)
Lemma hours_not_positive (hours : Z) :
  - 2562047 <= hours <= 0 \/ 2562048 <= hours <= 5124095 ->
  wrap64 (hours * Hour) <= 0.
Proof.
  unfold wrap64, Hour, Minute, Second. intros [H | H].
  - assert (E : (hours * (60 * (60 * 1000000000)) + 2 ^ 63) mod 2 ^ 64
                = hours * (60 * (60 * 1000000000)) + 2 ^ 63).
    { apply Z.mod_small. lia. }
    rewrite E. lia.
  - assert (E : (hours * (60 * (60 * 1000000000)) + 2 ^ 63) mod 2 ^ 64
                = hours * (60 * (60 * 1000000000)) + 2 ^ 63 - 2 ^ 64).
    { symmetry. apply Z.mod_unique with (q := 1); lia. }
    rewrite E. lia.
Qed.

(** One hour further on either side the product wraps around to a
    positive duration. *)
Example hours_wrapping_to_positive :
  wrap64 (- 2562048 * Hour) = 9223371273709551616
  /\ wrap64 (5124096 * Hour) = 1526290448384.
Proof. vm_compute. split; reflexivity. Qed.

Section Lifetime.
Context {mac : jwt.HMAC} (order : jwt.ParserOrder).

(** X15. The configuration takes any integer as JWT_EXPIRATION_HOURS,
    and the token service multiplies it into nanoseconds in int64.
    Whenever that product, wrapped around, is zero or negative, the
    service [main] builds issues access tokens that [ValidateAccessToken]
    reports as expired at any time from their issue on. *)
Theorem X15_config_hours_that_expire_at_once
  (env : config.Env) (value : string) (hours : Z) (user : User) (c0 c2 : Clock) :
  env !! "JWT_EXPIRATION_HOURS" = Some value ->
  Atoi value = Ok hours ->
  wrap64 (hours * Hour) <= 0 ->
  let s := main_jwtService env in
  wall (snd (JWTSvc.GenerateTokenPair s user c0)) <= fst (time_Now c2) ->
  exists tokenPair,
    fst (JWTSvc.GenerateTokenPair s user c0) = Ok tokenPair
    /\ fst (JWTSvc.ValidateAccessToken order s (AccessToken tokenPair) c2)
       = Err (errorString "токен истек").
Proof.
  intros Henv Hvalue Hhours s Hafter.
  apply nonpositive_lifetime; [| exact Hafter].
  subst s. unfold main_jwtService, config.NewConfig_JWT, config.getEnvAsInt, config.getEnv.
  rewrite Henv. cbn [config.Secret config.RefreshSecret config.ExpirationHours
                     config.RefreshExpDays NewJWTService accessExpires].
  assert (Hne : String.eqb value "" = false).
  { destruct value; [discriminate Hvalue | reflexivity]. }
  rewrite Hne. cbn [negb]. rewrite Hvalue. exact Hhours.
Qed.
End Lifetime.

(* ===================================================================== *)
(** * More on the user use case                                           *)
(* ===================================================================== *)

Ltac pg_unfold_all :=
  cbv beta iota zeta delta
    [UserRepository_GetByID UserRepository_Update UserRepository_Create
     UserRepository_GetByUsername UserRepository_GetByEmail UserRepository_Delete
     PostgresUserRepository
     pg.GetByID pg.Update pg.Create pg.GetByUsername pg.GetByEmail pg.Delete
     pg.SELECT_by_id pg.SELECT_by pg.UPDATE pg.INSERT pg.DELETE pg.exec pg.logged
     users users_id_seq pg_now pg_wire pg_log] in *.

Section LoginAny.
Context {DB : Type} {userRepo : UserRepository DB}.
Context {mac : jwt.HMAC} {crypt : Bcrypt} (s : JWTService).

(** X16. [Login] issues a pair only for a user the repository returned
    for the given name, as a username or else as an email, and whose
    stored hash bcrypt matches with the given password; the pair is the
    one [GenerateTokenPair] issues for that user.  Its errors are: the
    validation error for an empty field, before anything is looked up;
    the error of the username lookup when that is not a not-found error;
    and in every other case the one INVALID_CREDENTIALS error, be it that
    the email lookup failed for whatever reason or that the password is
    wrong. *)
Theorem X16_Login_outcomes (cred : UserCredentials) (w : AuthWorld DB) :
  match fst (userUseCase.Login s cred w) with
  | Ok tokenPair =>
      exists user,
        lookedUp cred (userDB w) user
        /\ CompareHashAndPassword (Password user) (Cred_Password cred) = None
        /\ fst (JWTSvc.GenerateTokenPair s user (clock w)) = Ok tokenPair
  | Err e =>
      (exists msg, e = NewValidationError msg
                   /\ (Cred_Username cred = "" \/ Cred_Password cred = "")
                   /\ snd (userUseCase.Login s cred w) = w)
      \/ e = NewInvalidCredentialsError
      \/ (fst (UserRepository_GetByUsername (Cred_Username cred) (userDB w)) = Err e
          /\ IsErrorCode e ErrorCodeUserNotFound = false)
  end.
Proof.
  destruct w as [d c tr]. unfold lookedUp.
  unfold userUseCase.Login. auth_unfold.
  destruct (String.eqb (Cred_Username cred) "") eqn:Hu.
  { apply String.eqb_eq in Hu. cbn. left. eauto. }
  destruct (String.eqb (Cred_Password cred) "") eqn:Hp.
  { apply String.eqb_eq in Hp. cbn. left. eauto. }
  cbn [userDB].
  destruct (UserRepository_GetByUsername (Cred_Username cred) d) as [[user | e] d1] eqn:E1;
    cbn [fst snd].
  - destruct (CompareHashAndPassword (Password user) (Cred_Password cred)) eqn:Hc;
      cbn; [auto |].
    destruct (GenerateTokenPair_spec s user c) as (a & b & c1 & Hgen & _).
    rewrite Hgen. cbn. exists user. cbn [clock]. rewrite Hgen. auto.
  - destruct (IsErrorCode e ErrorCodeUserNotFound) eqn:Hcode; cbn; [| auto].
    destruct (UserRepository_GetByEmail (Cred_Username cred) d1) as [[user | e2] d2] eqn:E2;
      cbn; [| auto].
    destruct (CompareHashAndPassword (Password user) (Cred_Password cred)) eqn:Hc;
      cbn; [auto |].
    destruct (GenerateTokenPair_spec s user c) as (a & b & c1 & Hgen & _).
    rewrite Hgen. cbn. exists user. cbn [clock]. rewrite Hgen. split; [| auto].
    right. exists e. auto.
Qed.
End LoginAny.

Lemma usernamePattern_nonempty (s : string) :
  usernamePattern s = true -> String.eqb s "" = false.
Proof. destruct s; [discriminate | reflexivity]. Qed.

Lemma emailPattern_nonempty (s : string) :
  emailPattern s = true -> String.eqb s "" = false.
Proof. destruct s; [discriminate | reflexivity]. Qed.

Lemma violated_username (id : Z) (uname mail : string) (t : gmap Z UserRow) :
  usernameTaken id uname t ->
  pg.violated (Some id) uname mail t = Some (pq_unique_violation "users_username_key").
Proof.
  intros (id' & r' & Hrow & Hne & Hname). unfold pg.violated.
  destruct (pg.others (Some id) _ t) as [|x l] eqn:E; [| reflexivity].
  exfalso. unfold pg.others in E.
  assert (Hin : In (id', r') (map_to_list t)).
  { apply list_elem_of_In, elem_of_map_to_list, Hrow. }
  assert (Hf : In (id', r') []); [| exact Hf].
  rewrite <- E. apply List.filter_In. split; [exact Hin |].
  cbn. rewrite Hname, String.eqb_refl. cbn.
  apply negb_true_iff, Z.eqb_neq, Hne.
Qed.

Section MoreOverPostgres.
Context {mac : jwt.HMAC} {crypt : Bcrypt}.

(** X17. Over the users table, a [Register] that returns a user has
    passed the username pattern, the email pattern and the minimum
    password length of 6, and has left under the returned ID the row of
    the request's username and email with the role [user] and, as its
    password hash, what bcrypt made of the request's password. *)
Theorem X17_Register_row (reg : UserRegistration) (w : AuthWorld Postgres) (created : User) :
  fst (userUseCase.Register reg w) = Ok created ->
  exists hashedPassword,
    GenerateFromPassword (Reg_Password reg) DefaultCost = Ok hashedPassword
    /\ users (userDB (snd (userUseCase.Register reg w))) !! User_ID created
       = Some (mkUserRow (Reg_Username reg) (Reg_Email reg) hashedPassword "user"
                         (User_CreatedAt created) (User_UpdatedAt created))
    /\ Username created = Reg_Username reg
    /\ Email created = Reg_Email reg
    /\ Role created = "user"
    /\ usernamePattern (Reg_Username reg) = true
    /\ emailPattern (Reg_Email reg) = true
    /\ (6 <= String.length (Reg_Password reg))%nat.
Proof.
  destruct w as [[t seq now outcomes lg] c tr].
  unfold userUseCase.Register. auth_unfold.
  destruct (String.eqb (Reg_Username reg) ""); [discriminate |].
  destruct (String.eqb (Reg_Email reg) ""); [discriminate |].
  destruct (String.eqb (Reg_Password reg) ""); [discriminate |].
  destruct (usernamePattern (Reg_Username reg)); cbn [negb]; [| discriminate].
  destruct (emailPattern (Reg_Email reg)); cbn [negb]; [| discriminate].
  destruct (String.length (Reg_Password reg) <? 6)%nat eqn:Hlen; [discriminate |].
  apply Nat.ltb_ge in Hlen.
  pg_unfold_all. cbn [User_ID Username Email Password Role pg.toUser].
  break_all; intros H; try discriminate; injection H as <-; cbn;
    same_lookups; eexists; (split; [reflexivity |]); repeat split; auto;
    repeat match goal with
      | H : <[_ := _]> _ !! _ = Some _ |- _ =>
          rewrite lookup_insert_eq in H; injection H as <-
      end; rewrite ?lookup_insert_eq; cbn; try reflexivity.
Qed.

(** X18. [Register] takes every error of the repository's lookups for
    "no such user": when the statements of both lookups fail on the way
    to the database, a well-formed registration still goes on to hash the
    password and to call the repository's [Create] with the role
    [user]. *)
Theorem X18_Register_goes_on_after_failed_lookups
  (reg : UserRegistration) (w : AuthWorld Postgres) (e1 e2 : error)
  (rest : list (option error)) (hashedPassword : string) :
  usernamePattern (Reg_Username reg) = true ->
  emailPattern (Reg_Email reg) = true ->
  (6 <= String.length (Reg_Password reg))%nat ->
  GenerateFromPassword (Reg_Password reg) DefaultCost = Ok hashedPassword ->
  pg_wire (userDB w) = Some e1 :: Some e2 :: rest ->
  exists delta,
    authTrace (snd (userUseCase.Register reg w))
    = (authTrace w
       ++ [UserRepo_GetByUsername (Reg_Username reg);
           UserRepo_GetByEmail (Reg_Email reg);
           UserRepo_Create (mkUser 0 (Reg_Username reg) (Reg_Email reg)
                                   hashedPassword "user" 0 0)]
       ++ delta)%list.
Proof.
  destruct w as [[t seq now outcomes lg] c tr]. cbn [userDB pg_wire authTrace].
  intros Hname Hmail Hlen Hhash ->.
  unfold userUseCase.Register.
  rewrite (usernamePattern_nonempty _ Hname), (emailPattern_nonempty _ Hmail), Hname, Hmail.
  assert (Hpw : String.eqb (Reg_Password reg) "" = false).
  { destruct (Reg_Password reg); [cbn in Hlen; lia | reflexivity]. }
  rewrite Hpw. apply Nat.ltb_ge in Hlen. rewrite Hlen. cbn [negb].
  auth_unfold. pg_unfold_all. cbn [authTrace].
  rewrite Hhash.
  cbn [User_ID Username Email Password Role pg.toUser].
  break_all; rewrite <- ?app_assoc; cbn; eexists; reflexivity.
Qed.

(** X19. Over the users table, [ChangePassword] calls the repository's
    [Update] at most once, and only after the user's row was read, bcrypt
    matched its hash with the old password and the new password, of at
    least 6 bytes, was hashed; what it passes is that row with the new
    hash in the place of the old one.  When it returns nil it has made
    that call, and the table differs in that row alone, which keeps its
    username, email, role and creation time and holds the new hash.  When
    it has not come to call [Update] the table is as before. *)
Theorem X19_ChangePassword_table
  (userID : Z) (oldPassword newPassword : string) (w : AuthWorld Postgres) :
  let run := ChangePassword userID oldPassword newPassword w in
  exists delta,
    authTrace (snd run) = (authTrace w ++ delta)%list
    /\ (authCalls isUserRepo_Update delta <= 1)%nat
    /\ (forall written, In (UserRepo_Update written) delta ->
          exists r hashedPassword,
            users (userDB w) !! userID = Some r
            /\ CompareHashAndPassword (password_hash r) oldPassword = None
            /\ (6 <= String.length newPassword)%nat
            /\ GenerateFromPassword newPassword DefaultCost = Ok hashedPassword
            /\ written = mkUser userID (username r) (email r) hashedPassword (role r)
                                (created_at r) (updated_at r))
    /\ (fst run = None ->
          exists r hashedPassword,
            users (userDB w) !! userID = Some r
            /\ GenerateFromPassword newPassword DefaultCost = Ok hashedPassword
            /\ In (UserRepo_Update
                     (mkUser userID (username r) (email r) hashedPassword (role r)
                             (created_at r) (updated_at r))) delta
            /\ users (userDB (snd run))
               = <[userID := mkUserRow (username r) (email r) hashedPassword (role r)
                                       (created_at r) (pg_now (userDB w))]>
                   (users (userDB w)))
    /\ (authCalls isUserRepo_Update delta = 0%nat ->
        users (userDB (snd run)) = users (userDB w)).
Proof.
  intros run. subst run.
  destruct w as [[t seq now outcomes lg] c tr].
  unfold ChangePassword. auth_unfold. pg_unfold_all.
  cbn [User_ID Username Email Password Role pg.toUser].
  break_all; same_lookups; rewrite <- ?app_assoc;
    (eexists; split; [reflexivity |]); unfold authCalls; cbn;
    (split; [lia |]);
    (split; [intros written Hin;
             repeat match goal with
               | H : _ \/ _ |- _ => destruct H as [H | H]
               | H : False |- _ => destruct H
               | H : UserRepo_GetByID _ = UserRepo_Update _ |- _ => discriminate H
               | H : AuthLogError _ = UserRepo_Update _ |- _ => discriminate H
               | H : UserRepo_Update _ = UserRepo_Update _ |- _ => injection H as <-
               end;
             eexists _, _; repeat split; eauto;
             match goal with
             | H : (_ <=? _)%nat = false |- _ => apply Nat.leb_gt in H; lia
             end |]);
    (split; [intros Hnil; try discriminate;
             eexists _, _; repeat split; eauto |]);
    intros Hnone; try discriminate; reflexivity.
Qed.

(** X20. A profile update to a username that another row holds is
    refused by the unique constraint of the table, and the repository,
    which compares the driver's message with a text lib/pq does not
    produce, reports it as DATABASE_ERROR: [UpdateProfile] returns that
    error, which [response.Error] answers with status 500, and the table
    is unchanged. *)
Theorem X20_UpdateProfile_taken_username
  (user : User) (w : AuthWorld Postgres) (r : UserRow) :
  users (userDB w) !! User_ID user = Some r ->
  usernameTaken (User_ID user) (Username user) (users (userDB w)) ->
  usernamePattern (Username user) = true ->
  emailPattern (Email user) = true ->
  pgUp 2 (userDB w) = true ->
  fst (userUseCase.UpdateProfile user w)
  = Err (NewDatabaseError "Ошибка обновления пользователя"
           (Some (pq_unique_violation "users_username_key")))
  /\ response_Error (NewDatabaseError "Ошибка обновления пользователя"
                       (Some (pq_unique_violation "users_username_key")))
     = ErrorResponse StatusInternalServerError "DATABASE_ERROR"
                     "Ошибка обновления пользователя"
  /\ users (userDB (snd (userUseCase.UpdateProfile user w))) = users (userDB w).
Proof.
  destruct w as [[t seq now outcomes lg] c tr]. unfold pgUp. cbn [userDB users pg_wire].
  intros Hrow Htaken Hname Hmail Hup.
  pose proof (violated_username (User_ID user) (Username user) (Email user) t Htaken) as Hv.
  unfold userUseCase.UpdateProfile. auth_unfold. pg_unfold_all.
  cbn [User_ID Username Email Password Role pg.toUser].
  destruct outcomes as [|[f1|] [|[f2|] rest]]; cbn in Hup; try discriminate;
    cbn; rewrite Hrow; cbn; rewrite Hname, Hmail; cbn; rewrite Hrow, Hv; cbn; auto.
Qed.
End MoreOverPostgres.

(** X21. Every error a method of the PostgreSQL user repository returns
    is an [AppError] of the package, never a raw driver error: USER_EXISTS,
    CONFLICT or DATABASE_ERROR from [Create], these or USER_NOT_FOUND from
    [Update], and USER_NOT_FOUND or DATABASE_ERROR from the lookups and
    from [Delete]. *)
Theorem X21_pg_errors (user : User) (id : Z) (v : string) (p : Postgres) :
  (forall e, fst (pg.Create user p) = Err e ->
     repositoryError e [ErrorCodeUserExists; ErrorCodeConflict; ErrorCodeDatabase])
  /\ (forall e, fst (pg.GetByID id p) = Err e ->
     repositoryError e [ErrorCodeUserNotFound; ErrorCodeDatabase])
  /\ (forall e, fst (pg.GetByUsername v p) = Err e ->
     repositoryError e [ErrorCodeUserNotFound; ErrorCodeDatabase])
  /\ (forall e, fst (pg.GetByEmail v p) = Err e ->
     repositoryError e [ErrorCodeUserNotFound; ErrorCodeDatabase])
  /\ (forall e, fst (pg.Update user p) = Some e ->
     repositoryError e [ErrorCodeUserExists; ErrorCodeConflict; ErrorCodeUserNotFound;
                        ErrorCodeDatabase])
  /\ (forall e, fst (pg.Delete id p) = Some e ->
     repositoryError e [ErrorCodeUserNotFound; ErrorCodeDatabase]).
Proof.
  destruct p as [t seq now outcomes lg]. unfold repositoryError.
  repeat split; intros e; pg_unfold_all; break_all; intros H; try discriminate;
    injection H as <-; eexists; (split; [reflexivity |]); cbn; auto 10.
Qed.

(* ===================================================================== *)
(** * Error classes, RequireRole and Recovery                             *)
(* ===================================================================== *)

(** X22. The six class predicates of package errors are disjoint: of any
    error at most one of them holds.  None holds exactly of the errors
    without an [AppError] on their chain and of those whose first
    [AppError] has the code INTERNAL_ERROR or BAD_REQUEST.  The error an
    [AppError] wraps plays no part. *)
Theorem X22_error_classes_are_disjoint (err : error) :
  (classes err <= 1)%nat
  /\ (classes err = 0%nat
      <-> match As_AppError err with
          | None => True
          | Some a => Code a = ErrorCodeInternal \/ Code a = ErrorCodeBadRequest
          end)
  /\ (forall code msg status inner,
        classes (appError (mkAppError code msg status inner))
        = classes (appError (mkAppError code msg status None))).
Proof.
  unfold classes. cbn [List.filter].
  unfold IsNotFoundError, IsValidationError, IsConflictError, IsDatabaseError,
    IsUnauthorizedError, IsForbiddenError, IsErrorCode.
  split; [| split].
  - destruct (As_AppError err) as [[[] ? ? ?]|]; vm_compute; lia.
  - destruct (As_AppError err) as [[[] ? ? ?]|]; vm_compute; split; intros H;
      try discriminate; auto; destruct H; discriminate.
  - reflexivity.
Qed.

(** X23. [RequireRole] calls the next handler exactly when the context
    holds a role that is among the listed ones.  In every other case it
    hands the nil logger to [response.Unauthorized] or
    [response.Forbidden], whose call of [log.Error] panics before
    anything is written: it never answers 401 or 403 itself, and under
    [Recovery] with a logger the request is answered with status 500 and
    the code INTERNAL_ERROR. *)
Theorem X23_RequireRole_refusals_panic (roles : list string) (userRole : option string) :
  (RequireRole roles userRole = ServeNext
   <-> exists role, userRole = Some role /\ In role roles)
  /\ (RequireRole roles userRole = ServeNext
      \/ RequireRole roles userRole = Panicking nilDereference
         /\ Recovery SlogLogger (RequireRole roles userRole)
            = Written (ErrorResponse StatusInternalServerError "INTERNAL_ERROR"
                                     "Внутренняя ошибка сервера")).
Proof.
  unfold RequireRole. destruct userRole as [role|]; cbn.
  - destruct (existsb (String.eqb role) roles) eqn:E; cbn.
    + split; [| auto]. split; [| auto]. intros _.
      apply existsb_exists in E as (r & Hin & Heq). apply String.eqb_eq in Heq.
      exists role. subst. auto.
    + split; [| auto]. split; [discriminate |].
      intros (r & Hr & Hin). injection Hr as <-.
      assert (existsb (String.eqb role) roles = true); [| congruence].
      apply existsb_exists. exists role. split; [exact Hin | apply String.eqb_refl].
  - split; [| auto]. split; [discriminate |]. intros (r & Hr & _). discriminate.
Qed.

(* ===================================================================== *)
(** * Parsing numbers, the list handler and the list statement            *)
(* ===================================================================== *)

Lemma digits_of_uint_acc (d : Decimal.uint) (acc : positive) :
  digits (Z.pos acc) (NilEmpty.string_of_uint d) = Some (Z.pos (Pos.of_uint_acc d acc)).
Proof.
  revert acc. induction d; intros acc; cbn [NilEmpty.string_of_uint digits Pos.of_uint_acc];
    try reflexivity;
    match goal with
    | |- context [isDigit ?c] => change (isDigit c) with true; cbv iota
    end;
    match goal with
    | |- digits ?z _ = _ =>
        match goal with
        | |- _ = Some (Z.pos (Pos.of_uint_acc _ ?p)) =>
            replace z with (Z.pos p) by (vm_compute (Z.of_nat _); lia)
        end
    end; apply IHd.
Qed.

Lemma digits_of_uint (d : Decimal.uint) :
  digits 0 (NilEmpty.string_of_uint d) = Some (Z.of_N (Pos.of_uint d)).
Proof.
  induction d; cbn [NilEmpty.string_of_uint digits Pos.of_uint];
    try reflexivity;
    match goal with
    | |- context [isDigit ?c] => change (isDigit c) with true; cbv iota
    end;
    [ exact IHd | .. ];
    match goal with
    | |- digits ?z _ = Some (Z.of_N (N.pos (Pos.of_uint_acc _ ?p))) =>
        change z with (Z.pos p); cbn [Z.of_N]; apply digits_of_uint_acc
    end.
Qed.

(** X24. [strconv.ParseInt(s, 10, 64)] and [strconv.Atoi] read back what
    [%d] writes: for every int64 [n], parsing the decimal text of [n]
    succeeds with [n]. *)
Theorem X24_ParseInt64_FormatInt (n : Z) :
  - 2 ^ 63 <= n <= 2 ^ 63 - 1 ->
  ParseInt64 (FormatInt n) = Ok n /\ Atoi (FormatInt n) = Ok n.
Proof.
  intros Hn. unfold Atoi. assert (ParseInt64 (FormatInt n) = Ok n); [| auto].
  unfold FormatInt.
  pose proof (DecimalZ.of_to n) as Hof.
  destruct (Z.to_int n) as [d | d] eqn:E.
  - cbn in Hof. unfold Z.of_uint in Hof.
    assert (Hd : d <> Decimal.Nil).
    { intros ->. destruct (to_int_not_nil n) as [N1 N2]. congruence. }
    pose proof (digits_of_uint d) as Hdig. rewrite Hof in Hdig.
    cbn [NilZero.string_of_int NilZero.string_of_uint].
    destruct d; try congruence;
      cbn [NilZero.string_of_uint NilEmpty.string_of_uint] in *;
      cbv beta iota zeta delta [ParseInt64];
      rewrite Hdig;
      replace ((- 2 ^ 63 <=? n) && (n <=? 2 ^ 63 - 1))%Z with true
        by (symmetry; apply andb_true_iff; split; apply Z.leb_le; lia);
      reflexivity.
  - cbn in Hof. unfold Z.of_uint in Hof.
    assert (Hd : d <> Decimal.Nil).
    { intros ->. destruct (to_int_not_nil n) as [N1 N2]. congruence. }
    pose proof (digits_of_uint d) as Hdig.
    cbn [NilZero.string_of_int].
    cbv beta iota zeta delta [ParseInt64].
    assert (Hs : NilZero.string_of_uint d = NilEmpty.string_of_uint d).
    { destruct d; try reflexivity. congruence. }
    rewrite Hs. cbv beta iota.
    destruct (NilEmpty.string_of_uint d) eqn:Es.
    { destruct d; cbn in Es; congruence. }
    rewrite Hdig.
    replace (- Z.of_N (Pos.of_uint d)) with n by lia.
    replace ((- 2 ^ 63 <=? n) && (n <=? 2 ^ 63 - 1))%Z with true
        by (symmetry; apply andb_true_iff; split; apply Z.leb_le; lia).
    reflexivity.
Qed.

Lemma wrap64_small (z : Z) : - 2 ^ 63 <= z <= 2 ^ 63 - 1 -> wrap64 z = z.
Proof. intros H. unfold wrap64. rewrite Z.mod_small by lia. lia. Qed.

(** X25. Whatever the query string of the list endpoint holds, the filter
    its handler passes on has a limit of at least 1, an offset of at
    least 0 and no genres, so that the use case treats the request as
    unfiltered exactly when title and status are empty, whatever the
    [genres] parameter says.  The limit is never zero, so the two
    divisions of the pagination block are defined; as long as the sums do
    not leave the range of int, the current page is at least 1 and the
    last page is the number of entries divided by the limit, rounded
    up. *)
Theorem X25_List_filter_bounds (q : MangaHandler.ListQuery) (n : Z) :
  let f := MangaHandler.List_filter q in
  1 <= Filter_Limit f <= 2 ^ 63 - 1
  /\ 0 <= Filter_Offset f <= 2 ^ 63 - 1
  /\ Filter_Genres f = []
  /\ (mangaUseCase.unfiltered f = true
      <-> MangaHandler.q_title q = "" /\ MangaHandler.q_status q = "")
  /\ (Filter_Offset f < 2 ^ 63 - 1 ->
      1 <= MangaHandler.CurrentPage (MangaHandler.List_meta q n))
  /\ (0 <= n -> n + Filter_Limit f <= 2 ^ 63 - 1 ->
      n <= MangaHandler.LastPage (MangaHandler.List_meta q n) * Filter_Limit f
        < n + Filter_Limit f).
Proof.
  intros f.
  assert (Hl : 1 <= Filter_Limit f <= 2 ^ 63 - 1).
  { subst f. unfold MangaHandler.List_filter, Atoi, ParseInt64. cbn [Filter_Limit].
    destruct (negb _); [| lia].
    break_all; try lia;
      repeat match goal with
        | H : (_ && _) = true |- _ => apply andb_prop in H as [? ?]
        | H : (_ <=? _)%Z = true |- _ => apply Z.leb_le in H
        | H : (_ <? _)%Z = true |- _ => apply Z.ltb_lt in H
        end; simplify_eq; lia. }
  assert (Ho : 0 <= Filter_Offset f <= 2 ^ 63 - 1).
  { subst f. unfold MangaHandler.List_filter, Atoi, ParseInt64. cbn [Filter_Offset].
    destruct (negb (String.eqb (MangaHandler.q_offset q) "")); [| lia].
    break_all; try lia;
      repeat match goal with
        | H : (_ && _) = true |- _ => apply andb_prop in H as [? ?]
        | H : (_ <=? _)%Z = true |- _ => apply Z.leb_le in H
        | H : (_ <? _)%Z = true |- _ => apply Z.ltb_lt in H
        end; simplify_eq; lia. }
  split; [exact Hl |]. split; [exact Ho |].
  split.
  { subst f. unfold MangaHandler.List_filter, MangaHandler.parseGenres. cbn.
    destruct (negb _); reflexivity. }
  split.
  { subst f. unfold mangaUseCase.unfiltered, MangaHandler.List_filter,
      MangaHandler.parseGenres.
    cbn [Filter_Title Filter_Status Filter_Genres].
    destruct (negb (String.eqb (MangaHandler.q_genres q) "")); cbn [length Z.of_nat Z.eqb];
      rewrite andb_true_r, andb_true_iff, !String.eqb_eq; reflexivity. }
  unfold MangaHandler.List_meta.
  cbn [MangaHandler.CurrentPage MangaHandler.LastPage].
  fold f. set (l := Filter_Limit f) in *. set (o := Filter_Offset f) in *.
  split.
  - intros Hoff.
    rewrite Z.quot_div_nonneg by lia.
    pose proof (Z.div_pos o l ltac:(lia) ltac:(lia)).
    pose proof (Z.div_le_upper_bound o l o ltac:(lia) ltac:(nia)).
    rewrite wrap64_small by lia. lia.
  - intros Hn Hsum.
    rewrite (wrap64_small (n + l)) by lia.
    rewrite wrap64_small by lia.
    rewrite Z.quot_div_nonneg by lia.
    pose proof (Z.mul_div_le (n + l - 1) l ltac:(lia)).
    pose proof (Z.mul_succ_div_gt (n + l - 1) l ltac:(lia)).
    split; nia.
Qed.

Lemma genreConditions_shape (a b : list string) (argIndex : Z) :
  length a = length b ->
  fst (fst (pgManga.genreConditions a argIndex))
  = fst (fst (pgManga.genreConditions b argIndex))
  /\ snd (pgManga.genreConditions a argIndex)
     = snd (pgManga.genreConditions b argIndex).
Proof.
  revert b argIndex. induction a as [|x a IH]; intros [|y b] argIndex Hlen;
    try discriminate; [split; reflexivity |].
  cbn in Hlen. injection Hlen as Hlen. cbn.
  destruct (IH b (argIndex + 1) Hlen) as [H1 H2].
  destruct (pgManga.genreConditions a (argIndex + 1)) as [[c1 a1] n1].
  destruct (pgManga.genreConditions b (argIndex + 1)) as [[c2 a2] n2].
  cbn in *. subst. split; reflexivity.
Qed.

Lemma genreConditions_args (genres : list string) (argIndex : Z) :
  snd (fst (pgManga.genreConditions genres argIndex)) = map ArgString genres
  /\ snd (pgManga.genreConditions genres argIndex)
     = argIndex + Z.of_nat (length genres).
Proof.
  revert argIndex. induction genres as [|g genres IH]; intros argIndex; cbn -[Z.of_nat].
  - split; [reflexivity | cbn; lia].
  - destruct (IH (argIndex + 1)) as [H1 H2].
    destruct (pgManga.genreConditions genres (argIndex + 1)) as [[c a] n].
    cbn -[Z.of_nat] in *. subst. split; [reflexivity | lia].
Qed.

(** X26. The text of the statement [MangaRepository.List] sends depends
    on the filter only through which of title and status are given, how
    many genres there are and whether the limit is positive: no text of
    the filter ever becomes part of the statement, all of it travels as
    arguments, of which two filters of the same shape have equally
    many. *)
Theorem X26_List_query_is_parameterised (f g : MangaFilter) :
  sameShape f g ->
  pgManga.List_query f = pgManga.List_query g
  /\ length (snd (pgManga.List_queryParts f))
     = length (snd (pgManga.List_queryParts g)).
Proof.
  intros (Ht & Hs & Hg & Hl).
  unfold pgManga.List_query, pgManga.List_queryParts.
  assert (Et : String.eqb (Filter_Title f) "" = String.eqb (Filter_Title g) "").
  { destruct (String.eqb_spec (Filter_Title f) ""), (String.eqb_spec (Filter_Title g) "");
      tauto. }
  assert (Es : String.eqb (Filter_Status f) "" = String.eqb (Filter_Status g) "").
  { destruct (String.eqb_spec (Filter_Status f) ""), (String.eqb_spec (Filter_Status g) "");
      tauto. }
  assert (El : (0 <? Filter_Limit f)%Z = (0 <? Filter_Limit g)%Z).
  { destruct (Z.ltb_spec 0 (Filter_Limit f)), (Z.ltb_spec 0 (Filter_Limit g)); lia. }
  rewrite Et, Es, El, Hg.
  destruct (negb (String.eqb (Filter_Title g) ""));
    destruct (negb (String.eqb (Filter_Status g) ""));
    destruct (0 <? Z.of_nat (length (Filter_Genres g)))%Z;
    match goal with
    | |- context [pgManga.genreConditions (Filter_Genres f) ?i] =>
        destruct (genreConditions_shape (Filter_Genres f) (Filter_Genres g) i Hg) as [H1 H2];
        pose proof (genreConditions_args (Filter_Genres f) i) as [A1 _];
        pose proof (genreConditions_args (Filter_Genres g) i) as [A2 _];
        destruct (pgManga.genreConditions (Filter_Genres f) i) as [[c1 a1] n1];
        destruct (pgManga.genreConditions (Filter_Genres g) i) as [[c2 a2] n2];
        cbn [fst snd] in H1, H2, A1, A2; subst c2 n2 a1 a2
    | _ => idtac
    end;
    destruct (0 <? Filter_Limit g)%Z; cbn; rewrite ?length_app, ?length_map; cbn;
    rewrite ?Hg; split; reflexivity.
Qed.

(** X27. With at least one genre in the filter, the statement
    [MangaRepository.List] builds has its [GROUP BY manga.id] part before
    its [WHERE] part: the parts are the SELECT, the two JOINs, the GROUP
    BY, the WHERE with its conditions, the ORDER BY, and what follows. *)
Theorem X27_List_query_groups_before_where (f : MangaFilter) :
  Filter_Genres f <> [] ->
  exists conds rest,
    fst (pgManga.List_queryParts f)
    = ("SELECT id, title, description, cover_image, status, author, artist, created_at, updated_at FROM manga"
       :: "JOIN manga_genres mg ON manga.id = mg.manga_id"
       :: "JOIN genres g ON mg.genre_id = g.id"
       :: "GROUP BY manga.id"
       :: ("WHERE " +:+ conds)
       :: "ORDER BY updated_at DESC"
       :: rest)%list.
Proof.
  intros Hg. unfold pgManga.List_queryParts.
  destruct (Filter_Genres f) as [|x l] eqn:E; [congruence |]. clear Hg.
  destruct (negb (String.eqb (Filter_Title f) ""));
    destruct (negb (String.eqb (Filter_Status f) ""));
    cbn -[pgManga.genreConditions Join Z.of_nat];
    change (0 <? Z.of_nat (length (x :: l)))%Z with true; cbv iota;
    match goal with
    | |- context [pgManga.genreConditions ?gs ?i] =>
        destruct (pgManga.genreConditions gs i) as [[c1 a1] n1]
    end;
    destruct (0 <? Filter_Limit f)%Z; cbn -[Join]; eexists _, _; reflexivity.
Qed.

(* ===================================================================== *)
(** * Pages, genres and chapter writes                                    *)
(* ===================================================================== *)

Ltac page_unfold :=
  cbv beta iota zeta delta
    [pageUseCase.invalidatePageListCache pageUseCase.recordView] in *.

Lemma pageListKey_inj (a b : Z) :
  pageUseCase.pageListKey a = pageUseCase.pageListKey b -> a = b.
Proof.
  unfold pageUseCase.pageListKey. intros H. apply append_inj_r in H.
  apply (cut_inj digitOrMinus ":") in H as [H _];
    auto using FormatInt_chars, FormatInt_inj.
Qed.

Lemma pageKey_not_pageListKey (a b : Z) :
  pageUseCase.pageKey a <> pageUseCase.pageListKey b.
Proof. discriminate. Qed.

Section PageWrites.
Context {DB : Type}.
Context {pageRepo : PageRepository DB} {chapterRepo : ChapterRepository DB}
        {pageViews : PageViewRepository DB} {os : OS DB}.
Context {jsonPage : JSON Page} {jsonPages : JSON (list Page)}.

(** X28. A successful page [Update] whose three cache commands reach
    the server leaves neither the page's own entry nor the page list of
    the chapter the page belonged to nor that of the chapter it belongs
    to now in the cache, and changes no other entry. *)
Theorem X28_page_Update_invalidates_both_chapters
  (page updated : Page) (w : World DB) :
  fst (pageUseCase.Update page w) = Ok updated ->
  cacheUp 3 (redis w) = true ->
  exists existing,
    fst (PageRepository_GetByID (Page_ID page) (db w)) = Ok existing
    /\ let kv' := kv (redis (snd (pageUseCase.Update page w))) in
       kv' !! pageUseCase.pageKey (Page_ID page) = None
       /\ kv' !! pageUseCase.pageListKey (Page_ChapterID existing) = None
       /\ kv' !! pageUseCase.pageListKey (Page_ChapterID page) = None
       /\ forall key,
           key <> pageUseCase.pageKey (Page_ID page) ->
           key <> pageUseCase.pageListKey (Page_ChapterID existing) ->
           key <> pageUseCase.pageListKey (Page_ChapterID page) ->
           kv' !! key = kv (redis w) !! key.
Proof.
  destruct w as [[store outcomes] d tr]. unfold cacheUp. cbn [redis wire db kv].
  intros Hok Hup. revert Hok.
  unfold pageUseCase.Update. page_unfold. go_unfold.
  destruct (PageRepository_GetByID (Page_ID page) d) as [[existing|e] d1] eqn:E0;
    cbn; [| discriminate].
  destruct (Page_ChapterID existing =? Page_ChapterID page)%Z eqn:Hsame;
    [apply Z.eqb_eq in Hsame | apply Z.eqb_neq in Hsame];
    destruct outcomes as [|[f1|] [|[f2|] [|[f3|] rest]]]; cbn in Hup; try discriminate;
    break_all; intros Hok; try discriminate; cbn;
    (exists existing; split; [reflexivity |]); cbn zeta; rewrite ?Hsame;
    repeat split;
    try (intros key K1 K2 K3);
    repeat first
      [ rewrite lookup_delete_eq
      | rewrite lookup_delete_ne
          by first [ congruence
                   | apply not_eq_sym, pageKey_not_pageListKey
                   | apply pageKey_not_pageListKey
                   | intros HH; apply pageListKey_inj in HH; congruence ] ];
    reflexivity.
Qed.
End PageWrites.


Section ChapterWritesThenLists.
Context {DB : Type}.
Context {mangaRepo : MangaRepository DB} {chapterRepo : ChapterRepository DB}
        {analyticsRepo : AnalyticsRepository DB}.
Context {jsonChapter : JSON Chapter} {jsonChapters : JSON (list Chapter)}.

(** With no chapter list cached for a manga the repository has,
    [ListByManga] asks the chapter repository exactly once and answers
    with what it said. *)
Lemma ListByManga_cold (mangaID : Z) (w : World DB) (manga : Manga) :
  kv (redis w) !! chapterUseCase.chapterListKey mangaID = None ->
  fst (MangaRepository_GetByID mangaID (db w)) = Ok manga ->
  fst (chapterUseCase.ListByManga mangaID w)
  = fst (ChapterRepository_ListByManga mangaID (snd (MangaRepository_GetByID mangaID (db w))))
  /\ exists delta,
      trace (snd (chapterUseCase.ListByManga mangaID w)) = (trace w ++ delta)%list
      /\ calls isChapterRepo_ListByManga delta = 1%nat.
Proof.
  intros Hcold. destruct w as [[store outcomes] d tr]. cbn in Hcold. cbn [db].
  unfold chapterUseCase.ListByManga. go_unfold.
  destruct (MangaRepository_GetByID mangaID d) as [[m|e] d1]; cbn; [| discriminate].
  intros _.
  destruct outcomes as [|[fault|] rest]; cbn; rewrite ?Hcold; cbn;
    try destruct (negb _); cbn;
    destruct (ChapterRepository_ListByManga mangaID d1) as [[l|e] d2]; cbn;
    break_all; (split; [reflexivity |]); rewrite <- ?app_assoc; cbn;
    eexists; (split; [reflexivity |]); reflexivity.
Qed.

Lemma chapter_Create_drops_list (chapter created : Chapter) (w : World DB) :
  fst (chapterUseCase.Create chapter w) = Ok created ->
  cacheUp 1 (redis w) = true ->
  kv (redis (snd (chapterUseCase.Create chapter w)))
    !! chapterUseCase.chapterListKey (Chapter_MangaID chapter) = None.
Proof.
  destruct w as [[store outcomes] d tr]. unfold cacheUp. cbn [redis wire].
  intros Hok Hup. revert Hok.
  unfold chapterUseCase.Create. go_unfold.
  destruct outcomes as [|[f1|] rest]; cbn in Hup; try discriminate;
    break_all; intros Hok; try discriminate; apply lookup_delete_eq.
Qed.

Lemma chapter_Delete_drops_both (id : Z) (w : World DB) :
  fst (chapterUseCase.Delete id w) = None ->
  cacheUp 2 (redis w) = true ->
  exists chapter,
    fst (ChapterRepository_GetByID id (db w)) = Ok chapter
    /\ kv (redis (snd (chapterUseCase.Delete id w))) !! chapterUseCase.chapterKey id = None
    /\ kv (redis (snd (chapterUseCase.Delete id w)))
         !! chapterUseCase.chapterListKey (Chapter_MangaID chapter) = None.
Proof.
  destruct w as [[store outcomes] d tr]. unfold cacheUp. cbn [redis wire db].
  intros Hok Hup. revert Hok.
  unfold chapterUseCase.Delete. go_unfold.
  destruct (ChapterRepository_GetByID id d) as [[chapter|e] d1] eqn:E0; cbn; [| discriminate].
  destruct outcomes as [|[f1|] [|[f2|] rest]]; cbn in Hup; try discriminate;
    break_all; intros Hok; try discriminate;
    (exists chapter; split; [reflexivity |]); split;
    rewrite ?lookup_delete_eq; try reflexivity;
    (rewrite lookup_delete_ne by (apply not_eq_sym, chapterKey_not_chapterListKey));
    apply lookup_delete_eq.
Qed.

(** X30. After a successful chapter [Create] or [Delete] whose cache
    commands reach the server, the chapter list of the chapter's manga is
    not cached (nor, after [Delete], the chapter itself): the next
    [ListByManga] for that manga, if the manga exists, answers with what
    the chapter repository lists and asks it exactly once. *)
Theorem X30_chapter_write_then_list_asks_repository :
  (forall (chapter created : Chapter) (manga : Manga) (w : World DB),
      fst (chapterUseCase.Create chapter w) = Ok created ->
      cacheUp 1 (redis w) = true ->
      let w' := snd (chapterUseCase.Create chapter w) in
      let mangaID := Chapter_MangaID chapter in
      fst (MangaRepository_GetByID mangaID (db w')) = Ok manga ->
      fst (chapterUseCase.ListByManga mangaID w')
      = fst (ChapterRepository_ListByManga mangaID
               (snd (MangaRepository_GetByID mangaID (db w'))))
      /\ exists delta,
          trace (snd (chapterUseCase.ListByManga mangaID w')) = (trace w' ++ delta)%list
          /\ calls isChapterRepo_ListByManga delta = 1%nat)
  /\ (forall (id : Z) (manga : Manga) (w : World DB),
        fst (chapterUseCase.Delete id w) = None ->
        cacheUp 2 (redis w) = true ->
        let w' := snd (chapterUseCase.Delete id w) in
        exists chapter,
          fst (ChapterRepository_GetByID id (db w)) = Ok chapter
          /\ kv (redis w') !! chapterUseCase.chapterKey id = None
          /\ (fst (MangaRepository_GetByID (Chapter_MangaID chapter) (db w')) = Ok manga ->
              fst (chapterUseCase.ListByManga (Chapter_MangaID chapter) w')
              = fst (ChapterRepository_ListByManga (Chapter_MangaID chapter)
                       (snd (MangaRepository_GetByID (Chapter_MangaID chapter) (db w'))))
              /\ exists delta,
                  trace (snd (chapterUseCase.ListByManga (Chapter_MangaID chapter) w'))
                  = (trace w' ++ delta)%list
                  /\ calls isChapterRepo_ListByManga delta = 1%nat)).
Proof.
  split.
  - intros chapter created manga w Hok Hup w' mangaID Hm.
    apply (ListByManga_cold mangaID w' manga); [| exact Hm].
    now apply (chapter_Create_drops_list chapter created).
  - intros id manga w Hok Hup w'.
    destruct (chapter_Delete_drops_both id w Hok Hup) as (chapter & Hget & Hk & Hl).
    exists chapter. split; [exact Hget |]. split; [exact Hk |].
    intros Hm. now apply (ListByManga_cold _ w' manga).
Qed.
End ChapterWritesThenLists.

(* ===================================================================== *)
(** * More concrete runs                                                  *)
(* ===================================================================== *)

Section MoreRuns.
Import Mem.
Import Mem2.

(** The password change does go through, and a wrong old password stops
    it. *)
Example ChangePassword_alice :
  fst (ChangePassword 5 "wonderland" "looking-glass" (authWorld pg0 0)) = None
  /\ users (userDB (snd (ChangePassword 5 "wonderland" "looking-glass" (authWorld pg0 0))))
       !! 5
     = Some (mkUserRow "alice" "alice@example.com" "$2a$10$looking-glass" "user" 0 1000)
  /\ fst (ChangePassword 5 "rabbit-hole" "looking-glass" (authWorld pg0 0))
     = Some NewInvalidCredentialsError.
Proof. vm_compute. repeat split. Qed.

(** An administrator passes [RequireRole("admin")]; a reader is answered
    with status 500. *)
Example RequireRole_admin :
  RequireRole ["admin"] (Some "admin") = ServeNext
  /\ Recovery SlogLogger (RequireRole ["admin"] (Some "user"))
     = Written (ErrorResponse 500 "INTERNAL_ERROR" "Внутренняя ошибка сервера").
Proof. vm_compute. split; reflexivity. Qed.

(** What the list handler makes of some query strings. *)
Example List_filter_runs :
  MangaHandler.List_filter (MangaHandler.mkListQuery "" "" "seinen" "25" "50")
  = mkMangaFilter "" [] "" 25 50
  /\ MangaHandler.List_filter (MangaHandler.mkListQuery "" "" "" "0" "-5")
     = mkMangaFilter "" [] "" 10 0
  /\ MangaHandler.List_filter (MangaHandler.mkListQuery "" "" "" "ten" "1_000")
     = mkMangaFilter "" [] "" 10 0.
Proof. vm_compute. repeat split. Qed.

(** With the largest int as the limit and two entries returned, the sum
    behind the last page wraps around, and the last page is -1. *)
Example List_meta_wraps :
  MangaHandler.List_meta (MangaHandler.mkListQuery "" "" "" "9223372036854775807" "0") 2
  = MangaHandler.mkMetaPagination 2 9223372036854775807 1 (-1).
Proof. vm_compute. reflexivity. Qed.

(** The statement for a filter with a title, two genres and a limit. *)
Example List_query_run :
  pgManga.List_query (mkMangaFilter "ber" ["seinen"; "dark"] "" 10 0)
  = "SELECT id, title, description, cover_image, status, author, artist, created_at, updated_at FROM manga JOIN manga_genres mg ON manga.id = mg.manga_id JOIN genres g ON mg.genre_id = g.id GROUP BY manga.id WHERE title ILIKE $1 AND (g.name = $2 OR g.name = $3) ORDER BY updated_at DESC LIMIT $4 OFFSET $5"
  /\ snd (pgManga.List_queryParts (mkMangaFilter "ber" ["seinen"; "dark"] "" 10 0))
     = [ArgString "%ber%"; ArgString "seinen"; ArgString "dark"; ArgInt 10; ArgInt 0].
Proof. vm_compute. split; reflexivity. Qed.

(** X5 on an empty cache and manga 1. *)
Lemma X5_witness :
  fst (mangaUseCase.GetByID 1 (world [] [] store0)) = Ok berserk
  /\ kv (redis (snd (mangaUseCase.GetByID 1 (world [] [] store0)))) !! mangaUseCase.mangaKey 1
     = Some (renderManga berserk, 30 * Minute)
  /\ fst (mangaUseCase.GetByID 1 (snd (mangaUseCase.GetByID 1 (world [] [] store0))))
     = Ok berserk.
Proof.
  pose proof (X5_manga_read_through (DB := Store) 1 (world [] [] store0) berserk
                (renderManga berserk)
                ltac:(vm_compute; reflexivity) ltac:(vm_compute; reflexivity)
                ltac:(reflexivity) ltac:(vm_compute; discriminate)
                ltac:(vm_compute; reflexivity) ltac:(reflexivity)) as H.
  cbv zeta in H. destruct H as (H1 & H2 & H3 & _). auto.
Defined.

(** X6 on a request to retitle chapter 7 of manga 1 that names manga 2,
    while the chapter lists of both mangas are cached: the chapter stays
    with manga 1, whose list is dropped, and the list of manga 2 is still
    cached. *)
Lemma X6_witness :
  fst (chapterUseCase.Update retitled_ch1 listedChapters)
  = Ok (mkChapter 7 1 "1" "The Brand" 0 0)
  /\ exists existing,
       fst (ChapterRepository_GetByID 7 (db listedChapters)) = Ok existing
       /\ Chapter_MangaID existing = 1
       /\ kv (redis (snd (chapterUseCase.Update retitled_ch1 listedChapters)))
          = delete "manga:1:chapters" (delete "chapter:7" (kv (redis listedChapters)))
       /\ kv (redis (snd (chapterUseCase.Update retitled_ch1 listedChapters)))
            !! chapterUseCase.chapterListKey (Chapter_MangaID retitled_ch1)
          = Some (renderList renderChapter [], 15 * Minute).
Proof.
  split; [vm_compute; reflexivity |].
  destruct (X6_chapter_Update_invalidates_stored_manga_list (DB := Store)
              retitled_ch1 (mkChapter 7 1 "1" "The Brand" 0 0) listedChapters)
    as (existing & Hget & Hkv & Hkeep).
  - vm_compute. reflexivity.
  - reflexivity.
  - exists existing. split; [exact Hget |].
    vm_compute in Hget. injection Hget as <-.
    split; [reflexivity |]. split; [exact Hkv |].
    rewrite Hkeep by (cbn; discriminate).
    vm_compute. reflexivity.
Defined.

(** X7 on a manga the store does not have. *)
Lemma X7_witness :
  fst (chapterUseCase.ListByManga 9 warm) = Err (NewMangaNotFoundError "9")
  /\ redis (snd (chapterUseCase.ListByManga 9 warm)) = redis warm
  /\ trace (snd (chapterUseCase.ListByManga 9 warm))
     = (trace warm ++ [MangaRepo_GetByID 9])%list.
Proof.
  apply (X7_ListByManga_unknown_manga (DB := Store) 9 warm (NewMangaNotFoundError "9")).
  vm_compute. reflexivity.
Defined.

(** X9 on [period=weekly&limit=5] and an empty cache. *)
Lemma X9_witness :
  fst (GetPopular "weekly" 5 (world [] [] store0)) = Ok [mkMangaStat 1 "Berserk" 0]
  /\ kv (redis (snd (GetPopular "weekly" 5 (world [] [] store0))))
     = <[popularKey "weekly" 5 :=
           (renderList renderStat [mkMangaStat 1 "Berserk" 0], 4 * Hour)]>
         (kv (redis (world [] [] store0)))
  /\ 1 <= 5.
Proof.
  apply (X9_GetPopular_expiry (DB := Store) "weekly" "5" (world [] [] store0)
           [mkMangaStat 1 "Berserk" 0] (renderList renderStat [mkMangaStat 1 "Berserk" 0])).
  - vm_compute. reflexivity.
  - vm_compute. reflexivity.
  - vm_compute. reflexivity.
  - reflexivity.
Defined.

(** X12 on the pairs issued to alice, three hours on: under the secrets
    the source spells out the refresh token is turned away, and under a
    refresh secret that is the access secret followed by a zero byte it
    opens the API. *)
Example refresh_token_turned_away :
  fst (middleware.Authentication (mac := hmacAdler) jwt.ClaimsFirst jwtService
         (HeaderTwoParts "Bearer"
            (match fst (JWTSvc.GenerateTokenPair (mac := hmacAdler) jwtService aliceUser
                          (mkClock 0 [])) with
             | Ok tokenPair => RefreshToken tokenPair
             | Err _ => jwt.Garbage ""
             end))
         (mkClock (3 * Hour) []))
  = ErrorResponse StatusUnauthorized "JWT_INVALID" "Недействительный токен авторизации".
Proof. vm_compute. reflexivity. Qed.

Example refresh_token_as_bearer_token :
  fst (middleware.Authentication (mac := hmacAdler) jwt.ClaimsFirst twinSecrets
         (HeaderTwoParts "Bearer"
            (match fst (JWTSvc.GenerateTokenPair (mac := hmacAdler) twinSecrets aliceUser
                          (mkClock 0 [])) with
             | Ok tokenPair => RefreshToken tokenPair
             | Err _ => jwt.Garbage ""
             end))
         (mkClock (3 * Hour) []))
  = Next 5 "" "".
Proof. vm_compute. reflexivity. Qed.

(** X14 on an environment where only JWT_SECRET is set, to the empty
    string. *)
Lemma X14_witness :
  main_jwtService {[ "JWT_SECRET" := "" ]}
  = mkJWTService "your-secret-key" "your-refresh-secret-key" (24 * Hour) (7 * 24 * Hour).
Proof.
  apply X14_config_defaults.
  - right. reflexivity.
  - left. reflexivity.
  - left. reflexivity.
  - left. reflexivity.
Defined.

(** X15 on JWT_EXPIRATION_HOURS=2562048, whose nanoseconds wrap around
    to a negative duration: alice's access token is expired in the second
    it is issued. *)
Lemma X15_witness :
  exists tokenPair,
    fst (JWTSvc.GenerateTokenPair
           (main_jwtService {[ "JWT_EXPIRATION_HOURS" := "2562048" ]})
           aliceUser (mkClock 0 []))
    = Ok tokenPair
    /\ fst (JWTSvc.ValidateAccessToken jwt.SignatureFirst
              (main_jwtService {[ "JWT_EXPIRATION_HOURS" := "2562048" ]})
              (AccessToken tokenPair) (mkClock 0 []))
       = Err (errorString "токен истек").
Proof.
  apply (X15_config_hours_that_expire_at_once jwt.SignatureFirst
           {[ "JWT_EXPIRATION_HOURS" := "2562048" ]} "2562048" 2562048 aliceUser
           (mkClock 0 []) (mkClock 0 [])).
  - reflexivity.
  - reflexivity.
  - vm_compute. discriminate.
  - vm_compute. discriminate.
Defined.

(** With JWT_EXPIRATION_HOURS=0 the token is expired at once as well,
    and with -2562048, whose nanoseconds wrap around to a positive
    duration, it is accepted. *)
Example zero_hours_expire_at_once :
  fst (JWTSvc.ValidateAccessToken jwt.SignatureFirst
         (main_jwtService {[ "JWT_EXPIRATION_HOURS" := "0" ]})
         (match fst (JWTSvc.GenerateTokenPair
                       (main_jwtService {[ "JWT_EXPIRATION_HOURS" := "0" ]})
                       aliceUser (mkClock 0 [])) with
          | Ok tokenPair => AccessToken tokenPair
          | Err _ => jwt.Garbage ""
          end) (mkClock 0 []))
  = Err (errorString "токен истек").
Proof. vm_compute. reflexivity. Qed.

Example negative_hours_that_do_not_expire :
  isOk (fst (JWTSvc.ValidateAccessToken jwt.SignatureFirst
               (main_jwtService {[ "JWT_EXPIRATION_HOURS" := "-2562048" ]})
               (match fst (JWTSvc.GenerateTokenPair
                             (main_jwtService {[ "JWT_EXPIRATION_HOURS" := "-2562048" ]})
                             aliceUser (mkClock 0 [])) with
                | Ok tokenPair => AccessToken tokenPair
                | Err _ => jwt.Garbage ""
                end) (mkClock Hour [])))
  = true.
Proof. vm_compute. reflexivity. Qed.

(** X17 on the registration of bob. *)
Lemma X17_witness :
  exists hashedPassword,
    GenerateFromPassword "hunter22" DefaultCost = Ok hashedPassword
    /\ users (userDB (snd (userUseCase.Register
                             (mkUserRegistration "bob" "bob@example.com" "hunter22")
                             (authWorld pg0 0)))) !! 6
       = Some (mkUserRow "bob" "bob@example.com" hashedPassword "user" 1000 1000).
Proof.
  destruct (X17_Register_row (mkUserRegistration "bob" "bob@example.com" "hunter22")
              (authWorld pg0 0) (mkUser 6 "bob" "bob@example.com" "" "user" 1000 1000))
    as (hashedPassword & Hhash & Hrow & _).
  - vm_compute. reflexivity.
  - exists hashedPassword. split; [exact Hhash | exact Hrow].
Defined.

(** X18 on the registration of bob while the database is unreachable. *)
Lemma X18_witness :
  exists delta,
    authTrace (snd (userUseCase.Register
                      (mkUserRegistration "bob" "bob@example.com" "hunter22")
                      (mkAuthWorld
                         (mkPostgres {[ 5 := alice ]} 5 1000
                            [Some connectionLost; Some connectionLost; Some connectionLost] [])
                         (mkClock 0 []) [])))
    = ([]
       ++ [UserRepo_GetByUsername "bob";
           UserRepo_GetByEmail "bob@example.com";
           UserRepo_Create (mkUser 0 "bob" "bob@example.com" "$2a$10$hunter22" "user" 0 0)]
       ++ delta)%list.
Proof.
  apply (X18_Register_goes_on_after_failed_lookups
           (mkUserRegistration "bob" "bob@example.com" "hunter22")
           (mkAuthWorld
              (mkPostgres {[ 5 := alice ]} 5 1000
                 [Some connectionLost; Some connectionLost; Some connectionLost] [])
              (mkClock 0 []) [])
           connectionLost connectionLost [Some connectionLost] "$2a$10$hunter22").
  - vm_compute. reflexivity.
  - vm_compute. reflexivity.
  - vm_compute. lia.
  - reflexivity.
  - reflexivity.
Defined.

(** X20 on alice asking for bob's username. *)
Lemma X20_witness :
  fst (userUseCase.UpdateProfile (mkUser 5 "bob" "alice@example.com" "" "" 0 0)
         (authWorld pg1 0))
  = Err (NewDatabaseError "Ошибка обновления пользователя"
           (Some (pq_unique_violation "users_username_key")))
  /\ response_Error (NewDatabaseError "Ошибка обновления пользователя"
                       (Some (pq_unique_violation "users_username_key")))
     = ErrorResponse StatusInternalServerError "DATABASE_ERROR"
                     "Ошибка обновления пользователя"
  /\ users (userDB (snd (userUseCase.UpdateProfile
                           (mkUser 5 "bob" "alice@example.com" "" "" 0 0)
                           (authWorld pg1 0))))
     = users (userDB (authWorld pg1 0)).
Proof.
  apply (X20_UpdateProfile_taken_username (mkUser 5 "bob" "alice@example.com" "" "" 0 0)
           (authWorld pg1 0) alice).
  - vm_compute. reflexivity.
  - exists 6, bob. split; [vm_compute; reflexivity |]. split; [cbn; discriminate | reflexivity].
  - vm_compute. reflexivity.
  - vm_compute. reflexivity.
  - reflexivity.
Defined.

(** X24 on the smallest int64. *)
Lemma X24_witness :
  ParseInt64 (FormatInt (- 2 ^ 63)) = Ok (- 2 ^ 63)
  /\ Atoi (FormatInt (- 2 ^ 63)) = Ok (- 2 ^ 63).
Proof. apply X24_ParseInt64_FormatInt. lia. Defined.

(** X26 on two filters that differ in every text and number. *)
Lemma X26_witness :
  pgManga.List_query (mkMangaFilter "ber" ["seinen"] "ongoing" 10 0)
  = pgManga.List_query (mkMangaFilter "x' OR 1=1 --" ["*"] "; DROP TABLE manga" 1 7)
  /\ length (snd (pgManga.List_queryParts (mkMangaFilter "ber" ["seinen"] "ongoing" 10 0)))
     = length (snd (pgManga.List_queryParts
                      (mkMangaFilter "x' OR 1=1 --" ["*"] "; DROP TABLE manga" 1 7))).
Proof.
  apply X26_List_query_is_parameterised.
  unfold sameShape. cbn. repeat split; try discriminate; lia.
Defined.

(** X27 on a filter with one genre. *)
Lemma X27_witness :
  exists conds rest,
    fst (pgManga.List_queryParts (mkMangaFilter "" ["seinen"] "" 10 0))
    = ("SELECT id, title, description, cover_image, status, author, artist, created_at, updated_at FROM manga"
       :: "JOIN manga_genres mg ON manga.id = mg.manga_id"
       :: "JOIN genres g ON mg.genre_id = g.id"
       :: "GROUP BY manga.id"
       :: ("WHERE " +:+ conds)
       :: "ORDER BY updated_at DESC"
       :: rest)%list.
Proof.
  apply X27_List_query_groups_before_where. cbn. discriminate.
Defined.

(** Creating a second chapter of manga 1 and deleting chapter 7 both
    leave the chapter list of manga 1 to be read from the repository. *)
Example chapter_writes_then_list :
  fst (chapterUseCase.ListByManga 1
         (snd (chapterUseCase.Delete 7 listedChapters))) = Ok []
  /\ fst (chapterUseCase.ListByManga 1
            (snd (chapterUseCase.Create (mkChapter 0 1 "2" "The Brand" 0 0) listedChapters)))
     = Ok [berserk_ch1; mkChapter 8 1 "2" "The Brand" 0 0].
Proof. vm_compute. split; reflexivity. Qed.

(** X28 on page 3 of chapter 7, moved to chapter 8 while the page and the
    page lists of both chapters are cached. *)
Lemma X28_witness :
  exists existing,
    fst (PageRepository_GetByID 3 (db listedPages)) = Ok existing
    /\ Page_ChapterID existing = 7
    /\ kv (redis (snd (pageUseCase.Update moved_page3 listedPages)))
         !! pageUseCase.pageListKey (Page_ChapterID existing) = None
    /\ kv (redis (snd (pageUseCase.Update moved_page3 listedPages)))
         !! pageUseCase.pageListKey (Page_ChapterID moved_page3) = None.
Proof.
  destruct (X28_page_Update_invalidates_both_chapters (DB := Library)
              moved_page3 moved_page3 listedPages) as (existing & Hget & H).
  - vm_compute. reflexivity.
  - reflexivity.
  - cbv zeta in H. destruct H as (_ & Hold & Hnew & _).
    exists existing. split; [exact Hget |].
    split; [| split; [exact Hold | exact Hnew]].
    vm_compute in Hget. injection Hget as <-. reflexivity.
Defined.
End MoreRuns.
